(** * Mail agent: routing decision pipeline and review lifecycle

    A shallow embedding of the rule matcher ([Rule.matches]), the decision
    engine ([Router.decide]), the two analyzer adapters ([OllamaAnalyzer],
    [GeminiAnalyzer]) and the dashboard's stateful processing loop
    ([process_emails], [approve_email], [reject_email]).

    Conventions of the embedding:
    - Python [str] values are byte strings holding the UTF-8 encoding of the
      text; case folding and whitespace classification follow Python on the
      ASCII range and leave other bytes alone, and a slice counts bytes.
    - Python [float] is the binary64 primitive type, so comparisons against
      the thresholds [0.7] and [0.80] and the handling of NaN are the ones
      the interpreter performs.
    - A computation that may raise is a value of [py A]; the exception
      message is kept because the analyzer copies it into its result. *)

From Stdlib Require Import ZArith String Ascii List Bool Floats Uint63 DecimalString.
From stdpp Require Import gmap strings list.

Set Warnings "-inexact-float,-register-all".
Open Scope string_scope.

(** ** Python strings *)

Module PyStr.

Definition chr (n : nat) : string := String (ascii_of_nat n) EmptyString.

(** The double quote, the line feed and a converter that lets JSON texts be
    written with single quotes in this file. *)
Definition dq : string := chr 34.
Definition nl : string := chr 10.

(** [c.isspace()] on the ASCII range. *)
Definition isspace (c : ascii) : bool :=
  let n := nat_of_ascii c in
  ((9 <=? n)%nat && (n <=? 13)%nat) || ((28 <=? n)%nat && (n <=? 32)%nat).

Definition lower_char (c : ascii) : ascii :=
  let n := nat_of_ascii c in
  if (65 <=? n)%nat && (n <=? 90)%nat then ascii_of_nat (n + 32) else c.

(** [s.lower()] *)
Fixpoint lower (s : string) : string :=
  match s with
  | EmptyString => EmptyString
  | String c t => String (lower_char c) (lower t)
  end.

(** [s.startswith(p)] *)
Fixpoint startswith (s p : string) : bool :=
  match p, s with
  | EmptyString, _ => true
  | String _ _, EmptyString => false
  | String a p', String b s' => Ascii.eqb a b && startswith s' p'
  end.

(** [needle in hay] *)
Fixpoint contains (needle hay : string) : bool :=
  startswith hay needle ||
  match hay with
  | EmptyString => false
  | String _ t => contains needle t
  end.

Fixpoint rev_onto (s acc : string) : string :=
  match s with
  | EmptyString => acc
  | String c t => rev_onto t (String c acc)
  end.

Definition rev (s : string) : string := rev_onto s EmptyString.

(** [s.endswith(p)] *)
Definition endswith (s p : string) : bool := startswith (rev s) (rev p).

(** [s.lstrip()], [s.rstrip()], [s.strip()] *)
Fixpoint lstrip (s : string) : string :=
  match s with
  | EmptyString => EmptyString
  | String c t => if isspace c then lstrip t else s
  end.

Fixpoint rstrip (s : string) : string :=
  match s with
  | EmptyString => EmptyString
  | String c t =>
      match rstrip t with
      | EmptyString => if isspace c then EmptyString else String c EmptyString
      | r => String c r
      end
  end.

Definition strip (s : string) : string := rstrip (lstrip s).

(** [s.lstrip(p)] for a one-character set written as the byte sequence [p]
    of that character: leading copies of [p] are dropped. *)
Fixpoint lstrip_seq (fuel : nat) (p s : string) : string :=
  match fuel with
  | O => s
  | S k =>
      match p with
      | EmptyString => s
      | _ => if startswith s p
             then lstrip_seq k p (String.substring (String.length p) (String.length s) s)
             else s
      end
  end.

(** [s.replace(old, new)] for a non-empty [old]: a left-to-right scan over
    non-overlapping occurrences; [skip] counts the bytes of an occurrence
    that are still to be dropped. *)
Fixpoint replace_from (old new : string) (skip : nat) (s : string) : string :=
  match s with
  | EmptyString => EmptyString
  | String c t =>
      match skip with
      | S k => replace_from old new k t
      | O =>
          if startswith s old
          then new ++ replace_from old new (String.length old - 1) t
          else String c (replace_from old new 0 t)
      end
  end.

Definition replace (old new s : string) : string :=
  match old with
  | EmptyString => s
  | _ => replace_from old new 0 s
  end.

(** [sep.join(parts)] *)
Fixpoint join (sep : string) (parts : list string) : string :=
  match parts with
  | [] => EmptyString
  | [p] => p
  | p :: rest => p ++ sep ++ join sep rest
  end.

(** [s.split(sep)] for a one-byte separator. *)
Fixpoint split_char (sep : ascii) (s : string) : list string :=
  match s with
  | EmptyString => [EmptyString]
  | String c t =>
      if Ascii.eqb c sep then EmptyString :: split_char sep t
      else match split_char sep t with
           | [] => [String c EmptyString]
           | h :: r => String c h :: r
           end
  end.

(** The part of [s] after its first [sep]; [s.split(sep, 1)[1]] when [sep]
    occurs, which every caller has checked. *)
Fixpoint after_first (sep : ascii) (s : string) : string :=
  match s with
  | EmptyString => EmptyString
  | String c t => if Ascii.eqb c sep then t else after_first sep t
  end.

(** [s[:n]] *)
Definition take (n : nat) (s : string) : string := String.substring 0 n s.

(** Truthiness of an [Optional[str]] and of an [Optional[list]]. *)
Definition truthy (s : string) : bool :=
  match s with EmptyString => false | _ => true end.

Definition sq (s : string) : string := replace "'" dq s.

End PyStr.

(** ** Exceptions *)

Inductive py (A : Type) : Type :=
| Ret (a : A)
| Raise (msg : string).
Arguments Ret {A} a.
Arguments Raise {A} msg.

#[export] Instance py_ret : MRet py := fun A a => Ret a.
#[export] Instance py_bind : MBind py := fun A B k m =>
  match m with
  | Ret a => k a
  | Raise e => Raise e
  end.

(** ** Python floats from text

    [of_decimal neg m e] is the binary64 value nearest to [m * 10^e] (ties to
    even), which is what [float(text)] and the JSON decoder return for a
    decimal numeral. It is computed on integers and scaled with [Z.ldexp]. *)

Module PyFloat.

Definition round_half_even (n d : Z) : Z :=
  let q := (n / d)%Z in
  let r := (n mod d)%Z in
  match (2 * r ?= d)%Z with
  | Lt => q
  | Gt => (q + 1)%Z
  | Eq => if Z.even q then q else (q + 1)%Z
  end.

(** Nearest binary64 to [n / d], for positive [n] and [d]. *)
Definition of_ratio (n d : Z) : float :=
  let lb0 := (Z.log2 n - Z.log2 d)%Z in
  let below :=
    if (0 <=? lb0)%Z then (n <? d * 2 ^ lb0)%Z else (n * 2 ^ (- lb0) <? d)%Z in
  let lb := if below then (lb0 - 1)%Z else lb0 in
  let k := Z.max (lb - 52) (-1074) in
  let q :=
    if (0 <=? k)%Z then round_half_even n (d * 2 ^ k)
    else round_half_even (n * 2 ^ (- k)) d in
  Z.ldexp (PrimFloat.of_uint63 (Uint63.of_Z q)) k.

Definition of_decimal (neg : bool) (m e : Z) : float :=
  let v :=
    if (m =? 0)%Z then 0%float
    else if (0 <=? e)%Z then of_ratio (m * 10 ^ e) 1
    else of_ratio m (10 ^ (- e)) in
  if neg then PrimFloat.opp v else v.

(** [float(n)] for a Python [int]: raises [OverflowError] out of range. *)
Definition of_int (n : Z) : py float :=
  let v := of_decimal (n <? 0)%Z (Z.abs n) 0 in
  if PrimFloat.is_infinity v
  then Raise "int too large to convert to float"
  else Ret v.

Definition digit (c : ascii) : option Z :=
  let n := nat_of_ascii c in
  if (48 <=? n)%nat && (n <=? 57)%nat then Some (Z.of_nat (n - 48)) else None.

(** A run of decimal digits, read into the accumulator [acc]; [cnt] counts
    them. With [us] a single underscore is accepted between two digits. *)
Fixpoint digitpart (us : bool) (s : string) (acc cnt : Z) : Z * Z * string :=
  match s with
  | EmptyString => (acc, cnt, s)
  | String c t =>
      match digit c with
      | Some d => digitpart us t (acc * 10 + d)%Z (cnt + 1)%Z
      | None =>
          if us && Ascii.eqb c "_" && (0 <? cnt)%Z then
            match t with
            | String c2 t2 =>
                match digit c2 with
                | Some d => digitpart us t2 (acc * 10 + d)%Z (cnt + 1)%Z
                | None => (acc, cnt, s)
                end
            | EmptyString => (acc, cnt, s)
            end
          else (acc, cnt, s)
      end
  end.

(** An optional sign: [(negative, rest)]. *)
Definition sign (s : string) : bool * string :=
  match s with
  | String "-" t => (true, t)
  | String "+" t => (false, t)
  | _ => (false, s)
  end.

(** An exponent part [e[+-]digits] read from [s]; [None] when [s] does not
    start with a complete one. *)
Definition exponent (us : bool) (s : string) : option (Z * string) :=
  match s with
  | String c t =>
      if Ascii.eqb c "e" || Ascii.eqb c "E" then
        let '(neg, t1) := sign t in
        let '(v, cnt, rest) := digitpart us t1 0%Z 0%Z in
        if (0 <? cnt)%Z then Some (if neg then (- v)%Z else v, rest) else None
      else None
  | EmptyString => None
  end.

(** The white space [float()] itself skips around an ASCII numeral. *)
Definition c_space (c : ascii) : bool :=
  let n := nat_of_ascii c in
  ((9 <=? n)%nat && (n <=? 13)%nat) || (n =? 32)%nat.

Fixpoint skip_left (s : string) : string :=
  match s with
  | EmptyString => EmptyString
  | String c t => if c_space c then skip_left t else s
  end.

Fixpoint skip_right (s : string) : string :=
  match s with
  | EmptyString => EmptyString
  | String c t =>
      match skip_right t with
      | EmptyString => if c_space c then EmptyString else String c EmptyString
      | r => String c r
      end
  end.

(** [float(text)]: [None] stands for [ValueError]. *)
Definition of_str (text : string) : option float :=
  let s := skip_right (skip_left text) in
  let '(neg, body) := sign s in
  let word := PyStr.lower body in
  if String.eqb word "inf" || String.eqb word "infinity"
  then Some (if neg then neg_infinity else infinity)
  else if String.eqb word "nan" then Some PrimFloat.nan
  else
    let '(m1, c1, r1) := digitpart true body 0%Z 0%Z in
    let '(m2, c2, r2) :=
      match r1 with
      | String "." t => digitpart true t m1 0%Z
      | _ => (m1, 0%Z, r1)
      end in
    if (c1 + c2 =? 0)%Z then None
    else
      match r2 with
      | EmptyString => Some (of_decimal neg m2 (- c2))
      | _ =>
          match exponent true r2 with
          | Some (e, EmptyString) => Some (of_decimal neg m2 (e - c2))
          | _ => None
          end
      end.

(** [x > y], [x < y], [min(a, b)], [max(a, b)] as the interpreter evaluates
    them on floats: [min] and [max] keep their first argument unless the
    second compares strictly smaller (larger). *)
Definition gt (x y : float) : bool := PrimFloat.ltb y x.
Definition lt (x y : float) : bool := PrimFloat.ltb x y.
Definition ge (x y : float) : bool := PrimFloat.leb y x.
Definition min (a b : float) : float := if lt b a then b else a.
Definition max (a b : float) : float := if gt b a then b else a.

End PyFloat.

(** ** The JSON decoder ([json.loads])

    Values as Python builds them: [None], [bool], [int], [float], [str],
    [list] and [dict]. A [dict] keeps insertion order and one entry per key;
    a repeated key overwrites the value in place. *)

Inductive json : Type :=
| JNull
| JBool (b : bool)
| JInt (n : Z)
| JFloat (x : float)
| JStr (s : string)
| JList (l : list json)
| JDict (d : list (string * json)).

Module Json.

(** [d[k] = v] *)
Fixpoint dict_set (k : string) (v : json) (d : list (string * json))
  : list (string * json) :=
  match d with
  | [] => [(k, v)]
  | (k', v') :: rest =>
      if String.eqb k k' then (k', v) :: rest else (k', v') :: dict_set k v rest
  end.

(** [d.get(k)] *)
Fixpoint get (k : string) (d : list (string * json)) : option json :=
  match d with
  | [] => None
  | (k', v) :: rest => if String.eqb k k' then Some v else get k rest
  end.

(** [d.get(k, default)] *)
Definition get_default (k : string) (default : json) (d : list (string * json))
  : json :=
  match get k d with Some v => v | None => default end.

Definition is_ws (c : ascii) : bool :=
  let n := nat_of_ascii c in
  (n =? 32)%nat || (n =? 9)%nat || (n =? 10)%nat || (n =? 13)%nat.

Fixpoint skip_ws (s : string) : string :=
  match s with
  | String c t => if is_ws c then skip_ws t else s
  | EmptyString => s
  end.

Definition hex (c : ascii) : option Z :=
  let n := nat_of_ascii c in
  if (48 <=? n)%nat && (n <=? 57)%nat then Some (Z.of_nat (n - 48))
  else if (65 <=? n)%nat && (n <=? 70)%nat then Some (Z.of_nat (n - 55))
  else if (97 <=? n)%nat && (n <=? 102)%nat then Some (Z.of_nat (n - 87))
  else None.

(** Four hexadecimal digits. *)
Definition hex4 (s : string) : option (Z * string) :=
  match s with
  | String a (String b (String c (String d t))) =>
      match hex a, hex b, hex c, hex d with
      | Some x, Some y, Some z, Some w =>
          Some ((((x * 16 + y) * 16 + z) * 16 + w)%Z, t)
      | _, _, _, _ => None
      end
  | _ => None
  end.

Definition byte (n : Z) : string := PyStr.chr (Z.to_nat n).

(** The UTF-8 bytes of a code point (three bytes also for a lone surrogate,
    so that distinct Python strings stay distinct). *)
Definition utf8 (cp : Z) : string :=
  if (cp <? 128)%Z then byte cp
  else if (cp <? 2048)%Z then byte (192 + cp / 64) ++ byte (128 + cp mod 64)
  else if (cp <? 65536)%Z then
    byte (224 + cp / 4096) ++ byte (128 + (cp / 64) mod 64)
      ++ byte (128 + cp mod 64)
  else
    byte (240 + cp / 262144) ++ byte (128 + (cp / 4096) mod 64)
      ++ byte (128 + (cp / 64) mod 64) ++ byte (128 + cp mod 64).

Definition simple_escape (c : ascii) : option string :=
  let n := nat_of_ascii c in
  if (n =? 34)%nat then Some (PyStr.chr 34)
  else if (n =? 92)%nat then Some (PyStr.chr 92)
  else if (n =? 47)%nat then Some "/"
  else if (n =? 98)%nat then Some (PyStr.chr 8)
  else if (n =? 102)%nat then Some (PyStr.chr 12)
  else if (n =? 110)%nat then Some (PyStr.chr 10)
  else if (n =? 114)%nat then Some (PyStr.chr 13)
  else if (n =? 116)%nat then Some (PyStr.chr 9)
  else None.

(** A [\uXXXX] escape whose [XXXX] is a high surrogate joins a following
    [\uYYYY] low surrogate into one code point. *)
Definition unicode_escape (s : string) : option (string * string) :=
  match hex4 s with
  | None => None
  | Some (hi, t) =>
      let lone := Some (utf8 hi, t) in
      if (55296 <=? hi)%Z && (hi <? 56320)%Z then
        match t with
        | String "\" (String "u" t2) =>
            match hex4 t2 with
            | Some (lo, t3) =>
                if (56320 <=? lo)%Z && (lo <? 57344)%Z
                then Some (utf8 (65536 + (hi - 55296) * 1024 + (lo - 56320)), t3)
                else lone
            | None => lone
            end
        | _ => lone
        end
      else lone
  end.

(** The body of a string literal, after its opening quote, in strict mode:
    control characters are refused. *)
Fixpoint scanstring (fuel : nat) (s : string) : option (string * string) :=
  match fuel with
  | O => None
  | S k =>
      match s with
      | EmptyString => None
      | String c t =>
          let n := nat_of_ascii c in
          if (n =? 34)%nat then Some (EmptyString, t)
          else if (n =? 92)%nat then
            match t with
            | EmptyString => None
            | String e t' =>
                match simple_escape e with
                | Some b =>
                    match scanstring k t' with
                    | Some (r, rest) => Some (b ++ r, rest)
                    | None => None
                    end
                | None =>
                    if Ascii.eqb e "u" then
                      match unicode_escape t' with
                      | Some (b, t'') =>
                          match scanstring k t'' with
                          | Some (r, rest) => Some (b ++ r, rest)
                          | None => None
                          end
                      | None => None
                      end
                    else None
                end
            end
          else if (n <? 32)%nat then None
          else
            match scanstring k t with
            | Some (r, rest) => Some (String c r, rest)
            | None => None
            end
      end
  end.

(** A number: an optional minus, an integer part without leading zeros, an
    optional fraction of at least one digit and an optional exponent; an
    [int] without fraction and exponent, a [float] otherwise. What does not
    complete a fraction or an exponent is left unread. *)
Definition number (s : string) : option (json * string) :=
  let '(neg, body) :=
    match s with String "-" t => (true, t) | _ => (false, s) end in
  let int_part :=
    match body with
    | String "0" t => Some (0%Z, t)
    | _ =>
        let '(m, cnt, rest) := PyFloat.digitpart false body 0%Z 0%Z in
        if (0 <? cnt)%Z then Some (m, rest) else None
    end in
  match int_part with
  | None => None
  | Some (m1, r1) =>
      let '(m2, c2, r2) :=
        match r1 with
        | String "." t =>
            let '(m, cnt, rest) := PyFloat.digitpart false t m1 0%Z in
            if (0 <? cnt)%Z then (m, cnt, rest) else (m1, 0%Z, r1)
        | _ => (m1, 0%Z, r1)
        end in
      match PyFloat.exponent false r2 with
      | Some (e, r3) => Some (JFloat (PyFloat.of_decimal neg m2 (e - c2)), r3)
      | None =>
          if (0 <? c2)%Z
          then Some (JFloat (PyFloat.of_decimal neg m2 (- c2)), r2)
          else Some (JInt (if neg then (- m1)%Z else m1), r2)
      end
  end.

Definition literal (word : string) (v : json) (s : string)
  : option (json * string) :=
  if PyStr.startswith s word
  then Some (v, String.substring (String.length word) (String.length s) s)
  else None.

(** [scan_once]: one value at the head of [s], and what follows it. *)
Fixpoint value (fuel : nat) (s : string) : option (json * string) :=
  match fuel with
  | O => None
  | S k =>
      match s with
      | EmptyString => None
      | String c t =>
          let n := nat_of_ascii c in
          if (n =? 34)%nat then
            match scanstring (S (String.length t)) t with
            | Some (str, rest) => Some (JStr str, rest)
            | None => None
            end
          else if Ascii.eqb c "{" then
            match skip_ws t with
            | String "}" rest => Some (JDict [], rest)
            | t' => members k t' []
            end
          else if Ascii.eqb c "[" then
            match skip_ws t with
            | String "]" rest => Some (JList [], rest)
            | t' => elements k t' []
            end
          else if Ascii.eqb c "n" then literal "null" JNull s
          else if Ascii.eqb c "t" then literal "true" (JBool true) s
          else if Ascii.eqb c "f" then literal "false" (JBool false) s
          else if Ascii.eqb c "N" then literal "NaN" (JFloat PrimFloat.nan) s
          else if Ascii.eqb c "I" then literal "Infinity" (JFloat infinity) s
          else if PyStr.startswith s "-Infinity"
          then literal "-Infinity" (JFloat neg_infinity) s
          else number s
      end
  end

(** The pairs of an object after [{] and white space, up to its [}]. *)
with members (fuel : nat) (s : string) (acc : list (string * json))
  : option (json * string) :=
  match fuel with
  | O => None
  | S k =>
      match s with
      | String c t =>
          if (nat_of_ascii c =? 34)%nat then
            match scanstring (S (String.length t)) t with
            | None => None
            | Some (key, r1) =>
                match skip_ws r1 with
                | String ":" r2 =>
                    match value k (skip_ws r2) with
                    | None => None
                    | Some (v, r3) =>
                        let acc' := dict_set key v acc in
                        match skip_ws r3 with
                        | String "}" rest => Some (JDict acc', rest)
                        | String "," r4 => members k (skip_ws r4) acc'
                        | _ => None
                        end
                    end
                | _ => None
                end
            end
          else None
      | EmptyString => None
      end
  end

(** The items of an array after [[] and white space, up to its []]. *)
with elements (fuel : nat) (s : string) (acc : list json)
  : option (json * string) :=
  match fuel with
  | O => None
  | S k =>
      match value k s with
      | None => None
      | Some (v, r1) =>
          match skip_ws r1 with
          | String "]" rest => Some (JList (acc ++ [v])%list, rest)
          | String "," r2 => elements k (skip_ws r2) (acc ++ [v])%list
          | _ => None
          end
      end
  end.

(** [json.loads(s)]; [None] stands for [JSONDecodeError]. *)
Definition loads (s : string) : option json :=
  match value (4 * String.length s + 4) (skip_ws s) with
  | Some (v, rest) =>
      match skip_ws rest with
      | EmptyString => Some v
      | _ => None
      end
  | None => None
  end.

End Json.

(** ** What the interpreter supplies and the development leaves open

    [repr] is [str(v)] for a float, list or dict [v]; [json_error] is the
    text of the [JSONDecodeError] raised on a document. Both only ever end
    up inside reasoning strings. *)

Class PyRuntime := {
  repr : json -> string;
  json_error : string -> string
}.

Module Py.

Definition str_of_int (n : Z) : string :=
  DecimalString.NilZero.string_of_int (Z.to_int n).

(** [str(v)] *)
Definition str `{PyRuntime} (v : json) : string :=
  match v with
  | JNull => "None"
  | JBool true => "True"
  | JBool false => "False"
  | JInt n => str_of_int n
  | JStr s => s
  | _ => repr v
  end.

(** [bool(v)] *)
Definition truthy (v : json) : bool :=
  match v with
  | JNull => false
  | JBool b => b
  | JInt n => negb (n =? 0)%Z
  | JFloat x => negb (PrimFloat.eqb x 0%float)
  | JStr s => PyStr.truthy s
  | JList l => match l with [] => false | _ => true end
  | JDict d => match d with [] => false | _ => true end
  end.

Definition type_name (v : json) : string :=
  match v with
  | JNull => "NoneType"
  | JBool _ => "bool"
  | JInt _ => "int"
  | JFloat _ => "float"
  | JStr _ => "str"
  | JList _ => "list"
  | JDict _ => "dict"
  end.

Definition no_attribute {A} (v : json) (attr : string) : py A :=
  Raise ("'" ++ type_name v ++ "' object has no attribute '" ++ attr ++ "'").

End Py.

(** ** client/models.py *)

Module Email.

Record t := mk {
  uid : Z;
  from_addr : string;
  to_addr : string;
  subject : string;
  body : string;
  date : string;
  raw : string
}.

Definition to_dict (self : t) : gmap string string :=
  <["date" := date self]>
  (<["body" := body self]>
  (<["subject" := subject self]>
  (<["to" := to_addr self]>
  (<["from" := from_addr self]> ∅)))).

End Email.

(** [email_data.get(k, "")] and [email_data.get(k) or ""] coincide on a
    dictionary of strings. *)
Definition get_str (email_data : gmap string string) (k : string) : string :=
  default "" (email_data !! k).

(** ** analyzer/models.py *)

Module AnalysisResult.

(** [raw_response] is the extra field of the dataclass the local-model
    adapter declares; results of the hosted adapter leave it empty. *)
Record t := mk {
  forward_to : string;
  category : string;
  confidence : float;
  reasoning : string;
  additional_destinations : list string;
  raw_response : string
}.

Definition set_raw_response (r : t) (raw : string) : t :=
  mk (forward_to r) (category r) (confidence r) (reasoning r)
     (additional_destinations r) raw.

End AnalysisResult.

(** ** analyzer/ollama.py *)

Module OllamaAnalyzer.

(** The analyzer object. [_call_ollama attempt prompt] is the outcome of the
    HTTP exchange made on the given attempt: the decoded reply, or the
    exception of the transport. Waiting between attempts is not modelled. *)
Record t := mk {
  max_retries : Z;
  debug_accept_thinking_field : bool;
  _call_ollama : nat -> string -> py json
}.

Definition bom : string := PyStr.chr 239 ++ PyStr.chr 187 ++ PyStr.chr 191.
Definition left_smart_quote : string := "“".
Definition right_smart_quote : string := "”".
Definition smart_apostrophe : string := "’".
Definition closer (c : ascii) : bool := Ascii.eqb c "}" || Ascii.eqb c "]".

(** [re.sub(r",\s*([}\]])", r"\1", s)]: a comma, the white space after it
    and a closing bracket become the bracket alone. [ws_closer s] is what
    remains of [s] from its first non-space byte when that byte is a closing
    bracket. *)
Fixpoint ws_closer (s : string) : option string :=
  match s with
  | EmptyString => None
  | String c t =>
      if PyStr.isspace c then ws_closer t
      else if closer c then Some s else None
  end.

Fixpoint drop_trailing_commas (fuel : nat) (s : string) : string :=
  match fuel with
  | O => s
  | S k =>
      match s with
      | EmptyString => EmptyString
      | String c t =>
          if Ascii.eqb c "," then
            match ws_closer t with
            | Some (String b rest) => String b (drop_trailing_commas k rest)
            | _ => String c (drop_trailing_commas k t)
            end
          else String c (drop_trailing_commas k t)
      end
  end.

Definition _sanitize_common_json_issues (s : string) : string :=
  let s := PyStr.lstrip_seq (String.length s) bom s in
  let s := PyStr.replace smart_apostrophe "'"
             (PyStr.replace right_smart_quote PyStr.dq
                (PyStr.replace left_smart_quote PyStr.dq s)) in
  drop_trailing_commas (String.length s) s.

(** [re.search(r"\{[\s\S]*\}", s)]: from the first opening brace to the last
    closing brace after it. *)
Fixpoint from_first_open (s : string) : option string :=
  match s with
  | EmptyString => None
  | String c t => if Ascii.eqb c "{" then Some t else from_first_open t
  end.

Fixpoint through_last_close (s : string) : option string :=
  match s with
  | EmptyString => None
  | String c t =>
      match through_last_close t with
      | Some r => Some (String c r)
      | None => if Ascii.eqb c "}" then Some (String c EmptyString) else None
      end
  end.

Definition search_braces (s : string) : option string :=
  match from_first_open s with
  | None => None
  | Some t =>
      match through_last_close t with
      | Some r => Some (String "{" r)
      | None => None
      end
  end.

Definition _extract_json_object `{PyRuntime} (text : string) : py json :=
  let s := PyStr.strip text in
  let fast :=
    if PyStr.startswith s "{" && PyStr.endswith s "}" then Json.loads s
    else None in
  match fast with
  | Some data => Ret data
  | None =>
      match search_braces s with
      | None => Raise "No JSON found in response"
      | Some m =>
          let candidate := PyStr.strip m in
          let candidate := _sanitize_common_json_issues candidate in
          match Json.loads candidate with
          | Some data => Ret data
          | None => Raise ("Invalid JSON: " ++ json_error candidate)
          end
      end
  end.

Definition _normalize_confidence (val : json) : float :=
  let numeric (x : float) : float :=
    let x := if PyFloat.gt x 1.0 then PrimFloat.div x 100.0 else x in
    if PyFloat.lt x 0.0 then 0.0%float
    else if PyFloat.gt x 1.0 then 1.0%float
    else x in
  match val with
  | JBool b => numeric (if b then 1.0 else 0.0)%float
  | JInt n =>
      match PyFloat.of_int n with
      | Ret x => numeric x
      | Raise _ => 0.0%float
      end
  | JFloat x => numeric x
  | JStr s =>
      match PyFloat.of_str (PyStr.strip s) with
      | Some x =>
          let x := if PyFloat.gt x 1.0 then PrimFloat.div x 100.0 else x in
          PyFloat.max 0.0 (PyFloat.min 1.0 x)
      | None => 0.0%float
      end
  | _ => 0.0%float
  end.

Definition alarm : string := "🚨".
Definition warning_sign : string := "⚠️".

Definition _parse_response `{PyRuntime} (response_text : string)
  : py AnalysisResult.t :=
  data ← _extract_json_object response_text;
  match data with
  | JDict data =>
      let category :=
        PyStr.lower (PyStr.strip
          (Py.str (Json.get_default "category" (JStr "unknown") data))) in
      let action :=
        PyStr.lower (PyStr.strip
          (Py.str (Json.get_default "action" (JStr "needs_review") data))) in
      let forward_to := Json.get_default "forward_to" JNull data in
      let reason :=
        PyStr.strip (Py.str (Json.get_default "reason" (JStr "") data)) in
      let risk_flags := Json.get_default "risk_flags" (JList []) data in
      let confidence :=
        _normalize_confidence
          (Json.get_default "confidence" (JFloat 0.0) data) in
      let risk_flags :=
        match risk_flags with
        | JList l => l
        | v => [JStr (Py.str v)]
        end in
      let reason :=
        match risk_flags with
        | [] => reason
        | _ =>
            let flags_str := PyStr.join ", " (map Py.str risk_flags) in
            PyStr.strip (warning_sign ++ " [" ++ flags_str ++ "] " ++ reason)
        end in
      let forward_to_str :=
        match forward_to with
        | JNull => ""
        | v =>
            let s := PyStr.strip (Py.str v) in
            if String.eqb (PyStr.lower s) "null" then "" else s
        end in
      if String.eqb action "spam" then
        let fwd :=
          if PyStr.truthy forward_to_str then forward_to_str
          else "spam@mail.local" in
        Ret (AnalysisResult.mk fwd "spam" confidence
               (if PyStr.truthy reason
                then PyStr.strip (alarm ++ " " ++ reason)
                else alarm ++ " Phishing/scam detected")
               [] "")
      else if String.eqb action "forward" && PyStr.truthy forward_to_str then
        Ret (AnalysisResult.mk forward_to_str category confidence
               (if PyStr.truthy reason then reason else "Forwarded by policy")
               [] "")
      else if String.eqb action "no_forward" then
        Ret (AnalysisResult.mk "" category confidence
               (if PyStr.truthy reason then reason
                else "No forwarding required")
               [] "")
      else if String.eqb action "needs_review"
              || String.eqb action "needs-review" then
        Ret (AnalysisResult.mk forward_to_str category confidence
               (if PyStr.truthy reason then reason else "Needs manual review")
               [] "")
      else
        Ret (AnalysisResult.mk "" "review" 0.0%float
               ("Unrecognized action '" ++ action
                  ++ "'. Needs manual review.")
               [] "")
  | v => Py.no_attribute v "get"
  end.

(** [(result.get(field) or "").strip()] *)
Definition reply_text (result : json) (field : string) : py string :=
  match result with
  | JDict d =>
      match Json.get field d with
      | None => Ret ""
      | Some (JStr s) => Ret (PyStr.strip s)
      | Some v => if Py.truthy v then Py.no_attribute v "strip" else Ret ""
      end
  | v => Py.no_attribute v "get"
  end.

Definition user_prompt (email_data : gmap string string) : string :=
  let subject := PyStr.strip (get_str email_data "subject") in
  let body := PyStr.strip (get_str email_data "body") in
  let from_addr :=
    PyStr.strip
      (if PyStr.truthy (get_str email_data "from")
       then get_str email_data "from"
       else if PyStr.truthy (get_str email_data "from_addr")
       then get_str email_data "from_addr"
       else "Unknown") in
  "Classify this email. Output ONLY the JSON object." ++ PyStr.nl ++ PyStr.nl
    ++ "From: " ++ from_addr ++ PyStr.nl
    ++ "Subject: " ++ subject ++ PyStr.nl
    ++ "Body:" ++ PyStr.nl
    ++ PyStr.take 1200 body.

(** The body of the [try] of one attempt: the parsed result or the exception
    raised, together with the value [last_raw] has afterwards. *)
Definition attempt_once `{PyRuntime} (self : t) (prompt : string)
    (attempt : nat) (last_raw : string) : py AnalysisResult.t * string :=
  match _call_ollama self attempt prompt with
  | Raise e => (Raise e, last_raw)
  | Ret result =>
      match reply_text result "response" with
      | Raise e => (Raise e, last_raw)
      | Ret raw =>
          let fallback :=
            if negb (PyStr.truthy raw) && debug_accept_thinking_field self
            then reply_text result "thinking" else Ret raw in
          match fallback with
          | Raise e => (Raise e, raw)
          | Ret raw =>
              if negb (PyStr.truthy raw)
              then (Raise "Empty LLM output (response was blank)", raw)
              else
                match _parse_response raw with
                | Ret parsed =>
                    (Ret (AnalysisResult.set_raw_response parsed raw), raw)
                | Raise e => (Raise e, raw)
                end
          end
      end
  end.

(** The [for attempt in range(self.max_retries + 1)] loop with [todo]
    iterations left, and the statement after it. *)
Fixpoint attempts `{PyRuntime} (self : t) (prompt : string) (todo : nat)
    (attempt : nat) (last_err : option string) (last_raw : string)
  : AnalysisResult.t :=
  match todo with
  | O =>
      AnalysisResult.mk "" "review" 0.0%float
        ("LLM/parse error after retries: " ++ default "None" last_err)
        [] last_raw
  | S todo' =>
      match attempt_once self prompt attempt last_raw with
      | (Ret parsed, _) => parsed
      | (Raise e, last_raw') =>
          attempts self prompt todo' (S attempt) (Some e) last_raw'
      end
  end.

Definition analyze `{PyRuntime} (self : t) (email_data : gmap string string)
  : AnalysisResult.t :=
  attempts self (user_prompt email_data)
    (Z.to_nat (max_retries self + 1)) 0 None "".

End OllamaAnalyzer.

(** ** analyzer/gemini.py *)

Module GeminiAnalyzer.

Record destination := { email : string; description : string }.

(** The analyzer object. [generate_content prompt] is the text of the hosted
    model's reply, or the exception of the client library. *)
Record t := mk {
  destinations : list destination;
  generate_content : string -> py string
}.

(** The four fields [_parse_response] accumulates while it reads the lines. *)
Record fields := {
  f_forward_to : string;
  f_category : string;
  f_confidence : float;
  f_reasoning : string
}.

Definition value_of (line : string) : string :=
  PyStr.strip (PyStr.after_first ":" line).

Definition read_line (acc : fields) (line : string) : fields :=
  let line := PyStr.strip line in
  if PyStr.startswith line "FORWARD_TO:" then
    Build_fields (value_of line) (f_category acc) (f_confidence acc)
      (f_reasoning acc)
  else if PyStr.startswith line "CATEGORY:" then
    Build_fields (f_forward_to acc) (PyStr.lower (value_of line))
      (f_confidence acc) (f_reasoning acc)
  else if PyStr.startswith line "CONFIDENCE:" then
    Build_fields (f_forward_to acc) (f_category acc)
      (match PyFloat.of_str (value_of line) with
       | Some x => x
       | None => 0.5%float
       end)
      (f_reasoning acc)
  else if PyStr.startswith line "REASONING:" then
    Build_fields (f_forward_to acc) (f_category acc) (f_confidence acc)
      (value_of line)
  else acc.

Definition _parse_response (response : string) : AnalysisResult.t :=
  let lines := PyStr.split_char (ascii_of_nat 10) (PyStr.strip response) in
  let r := fold_left read_line lines (Build_fields "" "unknown" 0.5%float "") in
  AnalysisResult.mk (f_forward_to r) (f_category r) (f_confidence r)
    (f_reasoning r) [] "".

Definition prompt (self : t) (email_data : gmap string string) : string :=
  let destinations_text :=
    PyStr.join PyStr.nl
      (map (fun d => "- " ++ email d ++ ": " ++ description d)
           (destinations self)) in
  "Analyze this email and determine which destination address it should be forwarded to."
    ++ PyStr.nl ++ PyStr.nl
    ++ "EMAIL DETAILS:" ++ PyStr.nl
    ++ "From: " ++ default "Unknown" (email_data !! "from") ++ PyStr.nl
    ++ "Subject: " ++ default "No subject" (email_data !! "subject") ++ PyStr.nl
    ++ "Body:" ++ PyStr.nl
    ++ PyStr.take 2000 (get_str email_data "body") ++ PyStr.nl ++ PyStr.nl
    ++ "AVAILABLE DESTINATIONS:" ++ PyStr.nl
    ++ destinations_text ++ PyStr.nl ++ PyStr.nl
    ++ "Respond in EXACTLY this format (no markdown, just plain text):" ++ PyStr.nl
    ++ "FORWARD_TO: <email address from the list above>" ++ PyStr.nl
    ++ "CATEGORY: <one word category like: personal, work, newsletter, spam, urgent, social>" ++ PyStr.nl
    ++ "CONFIDENCE: <number between 0.0 and 1.0>" ++ PyStr.nl
    ++ "REASONING: <brief one-line explanation>" ++ PyStr.nl.

Definition analyze (self : t) (email_data : gmap string string)
  : AnalysisResult.t :=
  match destinations self with
  | [] =>
      AnalysisResult.mk "" "unknown" 0.0%float
        "No destinations configured for AI routing" [] ""
  | _ =>
      match generate_content self (prompt self email_data) with
      | Ret text => _parse_response text
      | Raise e =>
          AnalysisResult.mk "" "error" 0.0%float
            ("AI analysis failed: " ++ e) [] ""
      end
  end.

End GeminiAnalyzer.

(** ** router/models.py *)

Module Rule.

Record t := mk {
  name : string;
  match_from : option string;
  match_subject : option (list string);
  match_keywords : option (list string);
  forward_to : string
}.

(** [any(kw.lower() in text for kw in keywords)] *)
Definition any_keyword (keywords : list string) (text : string) : bool :=
  existsb (fun kw => PyStr.contains (PyStr.lower kw) text) keywords.

(** The three guarded tests of [matches]; each is [true] when its [if]
    does not return [False]. *)
Definition from_ok (self : t) (email_data : gmap string string) : bool :=
  match match_from self with
  | Some (String c p) =>
      let sender := PyStr.lower (get_str email_data "from") in
      let pattern := PyStr.lower (PyStr.replace "*" "" (String c p)) in
      PyStr.contains pattern sender
  | _ => true
  end.

Definition subject_ok (self : t) (email_data : gmap string string) : bool :=
  match match_subject self with
  | Some (kw :: kws) =>
      let subject := PyStr.lower (get_str email_data "subject") in
      any_keyword (kw :: kws) subject
  | _ => true
  end.

Definition keywords_ok (self : t) (email_data : gmap string string) : bool :=
  match match_keywords self with
  | Some (kw :: kws) =>
      let body := PyStr.lower (get_str email_data "body") in
      let subject := PyStr.lower (get_str email_data "subject") in
      let text := subject ++ " " ++ body in
      any_keyword (kw :: kws) text
  | _ => true
  end.

Definition matches (self : t) (email_data : gmap string string) : bool :=
  if negb (from_ok self email_data) then false
  else if negb (subject_ok self email_data) then false
  else if negb (keywords_ok self email_data) then false
  else true.

End Rule.

Module RoutingDecision.

Record t := mk {
  forward_to : string;
  matched_rule : option string;
  ai_result : option AnalysisResult.t;
  should_forward : bool;
  additional_destinations : list string
}.

Definition all_destinations (self : t) : list string :=
  ((if PyStr.truthy (forward_to self) then [forward_to self] else [])
     ++ additional_destinations self)%list.

End RoutingDecision.

(** ** router/engine.py *)

Module Router.

(** [Union[GeminiAnalyzer, OllamaAnalyzer]] *)
Inductive analyzer :=
| Ollama (a : OllamaAnalyzer.t)
| Gemini (a : GeminiAnalyzer.t).

Definition analyze `{PyRuntime} (a : analyzer)
    (email_data : gmap string string) : AnalysisResult.t :=
  match a with
  | Ollama o => OllamaAnalyzer.analyze o email_data
  | Gemini g => GeminiAnalyzer.analyze g email_data
  end.

Record t := mk {
  rules : list Rule.t;
  default_action : string;
  _analyzer : option analyzer
}.

(** The two model services the constructor can attach an analyzer to. *)
Record backends := {
  ollama_call : nat -> string -> py json;
  gemini_call : string -> py string
}.

(** [Router.__init__]: the local model is preferred, then the hosted one. *)
Definition init (env : backends) (rules : list Rule.t) (ai_enabled : bool)
    (gemini_api_key ollama_model : string)
    (ai_destinations : list GeminiAnalyzer.destination)
    (default_action : string) : t :=
  mk rules default_action
    (if ai_enabled then
       if PyStr.truthy ollama_model
       then Some (Ollama (OllamaAnalyzer.mk 2 false (ollama_call env)))
       else if PyStr.truthy gemini_api_key
       then Some (Gemini (GeminiAnalyzer.mk ai_destinations (gemini_call env)))
       else None
     else None).

(** The [for rule in self.rules] loop of [decide]: the rule it returns on. *)
Fixpoint first_match (rules : list Rule.t) (email_data : gmap string string)
  : option Rule.t :=
  match rules with
  | [] => None
  | rule :: rest =>
      if Rule.matches rule email_data then Some rule
      else first_match rest email_data
  end.

Definition ai_actions (default_action : string) : bool :=
  String.eqb default_action "analyze" || String.eqb default_action "ai_route".

Definition decide `{PyRuntime} (self : t) (email : Email.t)
  : RoutingDecision.t :=
  let email_data := Email.to_dict email in
  match first_match (rules self) email_data with
  | Some rule =>
      RoutingDecision.mk (Rule.forward_to rule) (Some (Rule.name rule)) None
        (PyStr.truthy (Rule.forward_to rule)) []
  | None =>
      match _analyzer self with
      | Some a =>
          if ai_actions (default_action self) then
            let ai_result := analyze a email_data in
            RoutingDecision.mk (AnalysisResult.forward_to ai_result) None
              (Some ai_result)
              (PyStr.truthy (AnalysisResult.forward_to ai_result)
                 && PyFloat.ge (AnalysisResult.confidence ai_result) 0.7)
              (AnalysisResult.additional_destinations ai_result)
          else RoutingDecision.mk "" None None false []
      | None => RoutingDecision.mk "" None None false []
      end
  end.

End Router.

(** ** web_dashboard.py *)

Module EmailStatus.

Record t := mk {
  uid : Z;
  from_addr : string;
  subject : string;
  body : string;
  status : string;
  forward_to : list string;
  category : string;
  confidence : float;
  reasoning : string;
  needs_review : bool
}.

(** [EmailStatus(uid=, from_addr=, subject=, body=, status=, needs_review=)]
    with the dataclass defaults for the rest. *)
Definition new (uid : Z) (from_addr subject body status : string)
    (needs_review : bool) : t :=
  mk uid from_addr subject body status [] "" 0.0%float "" needs_review.

Definition set_status (s : string) (e : t) : t :=
  mk (uid e) (from_addr e) (subject e) (body e) s (forward_to e)
     (category e) (confidence e) (reasoning e) (needs_review e).

Definition set_needs_review (b : bool) (e : t) : t :=
  mk (uid e) (from_addr e) (subject e) (body e) (status e) (forward_to e)
     (category e) (confidence e) (reasoning e) b.

Definition set_forward_to (l : list string) (e : t) : t :=
  mk (uid e) (from_addr e) (subject e) (body e) (status e) l
     (category e) (confidence e) (reasoning e) (needs_review e).

Definition set_analysis (a : AnalysisResult.t) (e : t) : t :=
  mk (uid e) (from_addr e) (subject e) (body e) (status e) (forward_to e)
     (AnalysisResult.category a) (AnalysisResult.confidence a)
     (AnalysisResult.reasoning a) (needs_review e).

End EmailStatus.

Module Dashboard.

(** What the dashboard does to the outside, in the order it does it. *)
Inductive effect :=
| FetchFolder (folder : string)
| FetchUnread
| Forward (uid : Z) (dest : string)
| Move (uid : Z) (source dest : string)
| LogEmail (uid : Z) (ai_action final_action : string) (dests : list string)
| LogAction (uid : Z) (action : string) (dests : list string).

(** The mail store and the record of effects. A message keeps its uid when
    it changes folder, as the dashboard assumes; [seen] holds the uids that
    a fetch of unread mail has delivered. *)
Record world := {
  mailbox : gmap string (list Email.t);
  seen : gset Z;
  effects : list effect
}.

(** The failures of the collaborators: the IMAP connection, one SMTP send,
    one IMAP move. A failed operation leaves the mail store as it was. *)
Record faults := {
  connect_fails : bool;
  send_fails : Z -> string -> bool;
  move_fails : Z -> string -> string -> bool
}.

(** An entry of [pending_reviews]; the stored client handles are not used
    again and are left out. *)
Record pending := { p_email : Email.t; p_decision : option RoutingDecision.t }.

(** The module globals [emails_data] and [pending_reviews]. *)
Record memory := {
  emails_data : list EmailStatus.t;
  pending_reviews : gmap Z pending
}.

(** The part of the loaded configuration [process_emails] reads. *)
Record config := {
  rules : list Rule.t;
  ai_enabled : bool;
  gemini_api_key : string;
  ollama_model : string;
  ai_destinations : list GeminiAnalyzer.destination;
  default_action : string
}.

Definition folder (w : world) (name : string) : list Email.t :=
  default [] (mailbox w !! name).

Definition log (ev : effect) (w : world) : world :=
  Build_world (mailbox w) (seen w) (effects w ++ [ev])%list.

Definition has_uid (uid : Z) (e : Email.t) : bool := (Email.uid e =? uid)%Z.

(** [imap.fetch_from_folder(name)] *)
Definition fetch_from_folder (name : string) (w : world)
  : list Email.t * world :=
  (folder w name, log (FetchFolder name) w).

(** [imap.fetch_unread()] *)
Definition fetch_unread (w : world) : list Email.t * world :=
  let unread :=
    filter (fun e => Email.uid e ∉ seen w) (folder w "INBOX") in
  (unread,
   Build_world (mailbox w)
     (seen w ∪ list_to_set (map Email.uid unread))
     (effects w ++ [FetchUnread])%list).

(** [imap.move_email(uid, dest, source_folder=source)] *)
Definition move_email (f : faults) (uid : Z) (dest source : string)
    (w : world) : py world :=
  if move_fails f uid dest source then Raise "IMAP move failed"
  else
    let moved := List.filter (has_uid uid) (folder w source) in
    let kept := List.filter (fun e => negb (has_uid uid e)) (folder w source) in
    let mb := <[source := kept]> (mailbox w) in
    let mb := <[dest := (default [] (mb !! dest) ++ moved)%list]> mb in
    Ret (Build_world mb (seen w) (effects w ++ [Move uid source dest])%list).

(** [smtp.forward_email(email, dest)] *)
Definition forward_email (f : faults) (email : Email.t) (dest : string)
    (w : world) : py world :=
  if send_fails f (Email.uid email) dest then Raise "SMTP send failed"
  else Ret (log (Forward (Email.uid email) dest) w).

(** [for dest in destinations: smtp.forward_email(email, dest)]: on a
    failure the sends already made stay made. *)
Fixpoint forward_all (f : faults) (email : Email.t) (dests : list string)
    (w : world) : py world * world :=
  match dests with
  | [] => (Ret w, w)
  | dest :: rest =>
      match forward_email f email dest w with
      | Ret w' => forward_all f email rest w'
      | Raise e => (Raise e, w)
      end
  end.

Definition known (uid : Z) (data : list EmailStatus.t) : bool :=
  existsb (fun e => (EmailStatus.uid e =? uid)%Z) data.

(** [next(i for i, e in enumerate(emails_data) if e.uid == uid)] *)
Fixpoint index_of (uid : Z) (data : list EmailStatus.t) : option nat :=
  match data with
  | [] => None
  | e :: rest =>
      if (EmailStatus.uid e =? uid)%Z then Some 0
      else option_map S (index_of uid rest)
  end.

(** [for e in emails_data: if e.uid == uid: <update e>; break] *)
Fixpoint update_first (uid : Z) (upd : EmailStatus.t -> EmailStatus.t)
    (data : list EmailStatus.t) : list EmailStatus.t :=
  match data with
  | [] => []
  | e :: rest =>
      if (EmailStatus.uid e =? uid)%Z then upd e :: rest
      else e :: update_first uid upd rest
  end.

(** The loop over the Review folder at the start of a poll: a record is
    appended for a uid that has none, and the message is entered in
    [pending_reviews] unless it is there already. [existing_uids] is the set
    computed before the loop and extended by it; it is represented by the
    list of uids it holds. *)
Fixpoint rehydrate (review_emails : list Email.t) (existing_uids : list Z)
    (m : memory) : list Z * memory :=
  match review_emails with
  | [] => (existing_uids, m)
  | e :: rest =>
      let '(existing_uids, data) :=
        if bool_decide (Email.uid e ∈ existing_uids)
        then (existing_uids, emails_data m)
        else ((existing_uids ++ [Email.uid e])%list,
              (emails_data m ++
                 [EmailStatus.new (Email.uid e) (Email.from_addr e)
                    (Email.subject e) (Email.body e) "Review" true])%list) in
      let pend :=
        match pending_reviews m !! Email.uid e with
        | Some _ => pending_reviews m
        | None => <[Email.uid e := Build_pending e None]> (pending_reviews m)
        end in
      rehydrate rest existing_uids (Build_memory data pend)
  end.

(** The start of a poll, up to the fetch of unread mail: the Review folder
    is read and its messages are rehydrated. *)
Definition load_review_folder (m : memory) (w : world)
  : list Z * memory * world :=
  let existing_uids := map EmailStatus.uid (emails_data m) in
  let '(review_emails, w) := fetch_from_folder "Review" w in
  let '(existing_uids, m) := rehydrate review_emails existing_uids m in
  (existing_uids, m, w).

(** The test of the auto-approve branch:
    [decision.ai_result and decision.ai_result.confidence > 0.80
     and decision.should_forward]. *)
Definition auto_approve (decision : RoutingDecision.t) : bool :=
  match RoutingDecision.ai_result decision with
  | Some a =>
      PyFloat.gt (AnalysisResult.confidence a) 0.80
        && RoutingDecision.should_forward decision
  | None => false
  end.

(** The body of the loop over [new_emails] for one message. The result is
    [Raise] when an exception leaves the loop, which happens when the move
    to the Review folder fails; memory and world are returned as they are at
    that point. *)
Definition process_one `{PyRuntime} (f : faults) (router : Router.t)
    (email : Email.t) (m : memory) (w : world) : py unit * memory * world :=
  match index_of (Email.uid email) (emails_data m) with
  | None => (Raise "StopIteration", m, w)
  | Some email_idx =>
      let upd g (m : memory) :=
        Build_memory (alter g email_idx (emails_data m)) (pending_reviews m) in
      let m := upd (EmailStatus.set_status "Processing") m in
      let decision := Router.decide router email in
      let m :=
        match RoutingDecision.ai_result decision with
        | Some a => upd (EmailStatus.set_analysis a) m
        | None => m
        end in
      if auto_approve decision then
        let is_quarantine :=
          match RoutingDecision.ai_result decision with
          | Some a => String.eqb (AnalysisResult.category a) "quarantine"
          | None => false
          end in
        let all_destinations := RoutingDecision.all_destinations decision in
        match forward_all f email all_destinations w with
        | (Raise _, w) => (Ret tt, upd (EmailStatus.set_status "Error") m, w)
        | (Ret _, w) =>
            let target := if is_quarantine then "Quarantine" else "Processed" in
            match move_email f (Email.uid email) target "INBOX" w with
            | Raise _ => (Ret tt, upd (EmailStatus.set_status "Error") m, w)
            | Ret w =>
                let m :=
                  upd (EmailStatus.set_status
                         (if is_quarantine then "Quarantined" else "Forwarded"))
                      m in
                let m := upd (EmailStatus.set_forward_to all_destinations) m in
                let w :=
                  log (LogEmail (Email.uid email)
                         (if is_quarantine then "spam" else "forward")
                         (if is_quarantine then "quarantined" else "forwarded")
                         all_destinations) w in
                (Ret tt, m, w)
            end
        end
      else
        let m := upd (EmailStatus.set_status "Review") m in
        let m := upd (EmailStatus.set_needs_review true) m in
        let m :=
          upd (EmailStatus.set_forward_to
                 (if RoutingDecision.should_forward decision
                  then RoutingDecision.all_destinations decision else [])) m in
        match move_email f (Email.uid email) "Review" "INBOX" w with
        | Raise e => (Raise e, m, w)
        | Ret w =>
            (Ret tt,
             Build_memory (emails_data m)
               (<[Email.uid email := Build_pending email (Some decision)]>
                  (pending_reviews m)),
             w)
        end
  end.

(** [for idx, email in enumerate(new_emails): ...] *)
Fixpoint process_all `{PyRuntime} (f : faults) (router : Router.t)
    (new_emails : list Email.t) (m : memory) (w : world) : memory * world :=
  match new_emails with
  | [] => (m, w)
  | email :: rest =>
      match process_one f router email m w with
      | (Ret _, m, w) => process_all f router rest m w
      | (Raise _, m, w) => (m, w)
      end
  end.

(** [process_emails]: one poll. An exception that reaches the outer [try]
    ends the poll with memory and mail store as they are at that point.
    Folders need not be created first: one that is absent reads as empty
    and comes into being when a message is moved to it. Messages to the
    terminal and to the browser are left out; the two file logs are kept as
    effects and are taken not to fail. *)
Definition process_emails `{PyRuntime} (env : Router.backends) (cfg : config)
    (f : faults) (m : memory) (w : world) : memory * world :=
  let router :=
    Router.init env (rules cfg) (ai_enabled cfg) (gemini_api_key cfg)
      (ollama_model cfg) (ai_destinations cfg) (default_action cfg) in
  if connect_fails f then (m, w)
  else
    let '(existing_uids, m, w) := load_review_folder m w in
    let '(emails, w) := fetch_unread w in
    match emails with
    | [] => (m, w)
    | _ =>
        let new_emails :=
          List.filter
            (fun e => negb (bool_decide (Email.uid e ∈ existing_uids))) emails in
        match new_emails with
        | [] => (m, w)
        | _ =>
            let m :=
              Build_memory
                (emails_data m ++
                   map (fun e =>
                          EmailStatus.new (Email.uid e) (Email.from_addr e)
                            (Email.subject e) (Email.body e) "Pending" false)
                       new_emails)%list
                (pending_reviews m) in
            process_all f router new_emails m w
        end
    end.

(** [approve_email], for a uid that [int()] has accepted. *)
Definition approve_email (f : faults) (uid : Z) (m : memory) (w : world)
  : memory * world :=
  match pending_reviews m !! uid with
  | None => (m, w)
  | Some review =>
      let email := p_email review in
      let destinations :=
        match p_decision review with
        | Some decision =>
            if RoutingDecision.should_forward decision
            then RoutingDecision.all_destinations decision else []
        | None => []
        end in
      let destinations :=
        match destinations with
        | [] =>
            match
              List.find
                (fun e => (EmailStatus.uid e =? uid)%Z
                          && match EmailStatus.forward_to e with
                             | [] => false
                             | _ => true
                             end)
                (emails_data m)
            with
            | Some e => EmailStatus.forward_to e
            | None => []
            end
        | _ => destinations
        end in
      let sent :=
        match destinations with
        | [] => (Ret w, w)
        | _ =>
            match forward_all f email destinations w with
            | (Raise e, w) => (Raise e, w)
            | (Ret _, w) =>
                if connect_fails f then (Raise "IMAP connection failed", w)
                else
                  match move_email f uid "Processed" "Review" w with
                  | Raise e => (Raise e, w)
                  | Ret w => (Ret w, w)
                  end
            end
        end in
      match sent with
      | (Raise _, w) => (m, w)
      | (Ret _, w) =>
          let data :=
            update_first uid
              (fun e =>
                 EmailStatus.set_forward_to destinations
                   (EmailStatus.set_needs_review false
                      (EmailStatus.set_status "Forwarded" e)))
              (emails_data m) in
          let w := log (LogAction uid "approved" destinations) w in
          (Build_memory data (delete uid (pending_reviews m)), w)
      end
  end.

(** [reject_email], for a uid that [int()] has accepted. *)
Definition reject_email (f : faults) (uid : Z) (m : memory) (w : world)
  : memory * world :=
  match pending_reviews m !! uid with
  | None => (m, w)
  | Some _ =>
      let w :=
        if connect_fails f then w
        else
          match move_email f uid "Skipped" "Review" w with
          | Ret w' => w'
          | Raise _ => w
          end in
      let data :=
        update_first uid
          (fun e =>
             EmailStatus.set_needs_review false
               (EmailStatus.set_status "Skipped" e))
          (emails_data m) in
      let w := log (LogAction uid "rejected" []) w in
      (Build_memory data (delete uid (pending_reviews m)), w)
  end.

End Dashboard.

(** * Specification-side notions

    The predicates of a rule in the words of the specification, to be
    compared with what [Rule.matches] computes. *)

Module Spec.


(** A pattern with every asterisk taken out. *)
Fixpoint without_stars (s : string) : string :=
  match s with
  | EmptyString => EmptyString
  | String c t =>
      if Ascii.eqb "*" c then without_stars t else String c (without_stars t)
  end.






(** The ways one attempt of the local-model adapter fails, with the text of
    the exception: the backend call raises; the reply has an empty body; the
    body does not parse. *)
Inductive attempt_fails `{PyRuntime} (self : OllamaAnalyzer.t)
    (prompt : string) (k : nat) : string -> Prop :=
| backend_error (e : string) :
    OllamaAnalyzer._call_ollama self k prompt = Raise e ->
    attempt_fails self prompt k e
| empty_body (result : json) :
    OllamaAnalyzer._call_ollama self k prompt = Ret result ->
    OllamaAnalyzer.reply_text result "response" = Ret "" ->
    (OllamaAnalyzer.debug_accept_thinking_field self = false \/
     OllamaAnalyzer.reply_text result "thinking" = Ret "") ->
    attempt_fails self prompt k "Empty LLM output (response was blank)"
| parse_failure (result : json) (raw e : string) :
    OllamaAnalyzer._call_ollama self k prompt = Ret result ->
    OllamaAnalyzer.reply_text result "response" = Ret raw ->
    raw <> "" ->
    OllamaAnalyzer._parse_response raw = Raise e ->
    attempt_fails self prompt k e.

(** The set of uids the rehydration loop maintains holds the uids of the
    records. *)
Definition tracks (existing_uids : list Z) (m : Dashboard.memory) : Prop :=
  forall u, u ∈ existing_uids <->
            In u (map EmailStatus.uid (Dashboard.emails_data m)).

(** A record as the rehydration loop creates it for a message of the Review
    folder. *)
Definition rehydrated (review_emails : list Email.t) (r : EmailStatus.t)
  : Prop :=
  EmailStatus.status r = "Review" /\
  EmailStatus.needs_review r = true /\
  exists e, In e review_emails /\ EmailStatus.uid r = Email.uid e.

(** The later world has the effects of the earlier one and then more. *)
Definition extends (w w' : Dashboard.world) : Prop :=
  exists later,
    Dashboard.effects w' = (Dashboard.effects w ++ later)%list.

(** The value lies in [0.0, 1.0]; false for NaN. *)
Definition in_unit_interval (x : float) : bool :=
  PrimFloat.leb 0 x && PrimFloat.leb x 1.

(** No opening or closing brace occurs in the text. *)
Fixpoint brace_free (s : string) : bool :=
  match s with
  | EmptyString => true
  | String c t =>
      negb (Ascii.eqb c "{") && negb (Ascii.eqb c "}") && brace_free t
  end.

End Spec.

(** * Concrete messages, replies and states

    The inputs at which the scenarios of the specification, the witnesses
    and the counterexamples are evaluated. *)

Module Scenario.

(** A runtime for closed evaluations; its decoder message is the one the
    interpreter gives for the sanitized [quoted_object] below. No statement
    over all runtimes depends on it. *)
Definition runtime : PyRuntime := {|
  repr := fun _ => "<object>";
  json_error := fun _ => "Expecting ',' delimiter: line 1 column 38 (char 37)"
|}.

Definition mail (uid : Z) (sender subject : string) : Email.t :=
  Email.mk uid sender "agent@mail.local" subject "Please see below." "" "".

Definition phishing_mail : Email.t :=
  mail 7 "security@paypa1.example" "Verify your account".

Definition vendor_mail : Email.t :=
  mail 8 "billing@supplier.example" "Updated bank details".

Definition quote_mail : Email.t :=
  mail 9 "buyer@customer.example" "Request for quote".

Definition spam_reply : string :=
  PyStr.sq "{'category':'spam','action':'spam','forward_to':null,'confidence':0.97,'risk_flags':['phishing_link'],'reason':'credential theft attempt'}".

Definition vendor_reply : string :=
  PyStr.sq "{'category':'vendors','action':'needs_review','forward_to':'vendors@mail.local','confidence':0.55,'risk_flags':['wire_transfer'],'reason':'bank change request'}".

Definition sales_reply : string :=
  PyStr.sq "{'category':'sales','action':'forward','forward_to':'sales@mail.local','confidence':0.75,'risk_flags':[],'reason':'quote request'}".

Definition nan_reply : string :=
  PyStr.sq "{'category':'sales','action':'forward','forward_to':'sales@mail.local','confidence':NaN,'risk_flags':[],'reason':'quote request'}".

Definition hosted_reply : string :=
  "FORWARD_TO: sales@mail.local" ++ PyStr.nl
    ++ "CATEGORY: work" ++ PyStr.nl
    ++ "CONFIDENCE: 95" ++ PyStr.nl
    ++ "REASONING: quote request".

Definition quoted_object : string :=
  PyStr.sq "{'category':'spam','reason':'marked “urgent” by sender'}".

Definition plain_fields : string :=
  PyStr.sq "'category':'spam','confidence':0.97".

Definition chatter_before : string := "Here is the classification: ".
Definition chatter_after : string := " Let me know if you need more.".

(** A local model that answers every call with the same text, and one that
    answers with an empty body. *)
Definition local_model (reply : string) : Router.backends := {|
  Router.ollama_call := fun _ _ => Ret (JDict [("response", JStr reply)]);
  Router.gemini_call := fun _ => Raise "no hosted model"
|}.

Definition local_analyzer (reply : string) : OllamaAnalyzer.t :=
  OllamaAnalyzer.mk 2 false (Router.ollama_call (local_model reply)).

Definition silent_analyzer : OllamaAnalyzer.t :=
  OllamaAnalyzer.mk 2 false (fun _ _ => Ret (JDict [("response", JStr "")])).

Definition hosted_analyzer : GeminiAnalyzer.t :=
  GeminiAnalyzer.mk
    [{| GeminiAnalyzer.email := "sales@mail.local";
        GeminiAnalyzer.description := "Sales enquiries" |}]
    (fun _ => Ret hosted_reply).

(** No rules, the local model enabled. *)
Definition cfg : Dashboard.config := {|
  Dashboard.rules := [];
  Dashboard.ai_enabled := true;
  Dashboard.gemini_api_key := "";
  Dashboard.ollama_model := "qwen3:14b";
  Dashboard.ai_destinations := [];
  Dashboard.default_action := "analyze"
|}.

Definition router (reply : string) : Router.t :=
  Router.init (local_model reply) [] true "" "qwen3:14b" [] "analyze".

Definition no_faults : Dashboard.faults := {|
  Dashboard.connect_fails := false;
  Dashboard.send_fails := fun _ _ => false;
  Dashboard.move_fails := fun _ _ _ => false
|}.

Definition skipped_unreachable : Dashboard.faults := {|
  Dashboard.connect_fails := false;
  Dashboard.send_fails := fun _ _ => false;
  Dashboard.move_fails := fun _ dest _ => String.eqb dest "Skipped"
|}.

(** A fresh process and a mail store with one unread message. *)
Definition fresh : Dashboard.memory :=
  {| Dashboard.emails_data := []; Dashboard.pending_reviews := ∅ |}.

Definition inbox (e : Email.t) : Dashboard.world :=
  {| Dashboard.mailbox := {[ "INBOX" := [e] ]};
     Dashboard.seen := ∅;
     Dashboard.effects := [] |}.

(** The vendor message parked for review: the memory and the mail store
    that a poll of [inbox vendor_mail] leaves behind. *)
Definition parked_decision : RoutingDecision.t :=
  RoutingDecision.mk "vendors@mail.local" None
    (Some (AnalysisResult.mk "vendors@mail.local" "vendors" 0.55%float
             "⚠️ [wire_transfer] bank change request" [] vendor_reply))
    false [].

Definition parked_memory : Dashboard.memory :=
  {| Dashboard.emails_data :=
       [EmailStatus.mk 8 "billing@supplier.example" "Updated bank details"
          "Please see below." "Review" [] "vendors" 0.55%float
          "⚠️ [wire_transfer] bank change request" true];
     Dashboard.pending_reviews :=
       {[ 8%Z := {| Dashboard.p_email := vendor_mail;
                    Dashboard.p_decision := Some parked_decision |} ]} |}.

Definition parked_world : Dashboard.world :=
  {| Dashboard.mailbox := <["Review" := [vendor_mail]]> {[ "INBOX" := [] ]};
     Dashboard.seen := {[ 8%Z ]};
     Dashboard.effects :=
       [Dashboard.FetchFolder "Review"; Dashboard.FetchUnread;
        Dashboard.Move 8 "INBOX" "Review"] |}.

(** The first record the dashboard holds for a uid. *)
Definition record (uid : Z) (m : Dashboard.memory) : option EmailStatus.t :=
  List.find (fun r => (EmailStatus.uid r =? uid)%Z) (Dashboard.emails_data m).

Definition uids (l : list Email.t) : list Z := map Email.uid l.

End Scenario.

(** * Further code: the mock mail server, the command line and the GUI *)

(** ** testserver/server.py *)

Module StoredEmail.

Record t := mk {
  uid : Z;
  raw : string;
  flags : gset string
}.

(** The flag [mark_as_read] sets. *)
Definition seen : string := "\Seen".

Definition add_flag (flag : string) (e : t) : t :=
  mk (uid e) (raw e) ({[ flag ]} ∪ flags e).

End StoredEmail.

Module TestMailServer.

(** The part of the server object its mail operations use. *)
Record t := mk {
  emails : list StoredEmail.t;
  uid_counter : Z
}.

(** [TestMailServer()] *)
Definition new : t := mk [] 1.

(** [add_test_email]; [raw] is the serialized message that the e-mail
    library builds from the four arguments and the clock. *)
Definition add_test_email (self : t) (raw : string) : Z * t :=
  let stored := StoredEmail.mk (uid_counter self) raw ∅ in
  (StoredEmail.uid stored,
   mk (emails self ++ [stored])%list (uid_counter self + 1)).

Definition get_email (self : t) (uid : Z) : option StoredEmail.t :=
  List.find (fun e => (StoredEmail.uid e =? uid)%Z) (emails self).

(** The stored object that [get_email] returns is the one in the list, so
    the flag is added in place: to the first entry with that uid. *)
Fixpoint add_seen (uid : Z) (l : list StoredEmail.t) : list StoredEmail.t :=
  match l with
  | [] => []
  | e :: rest =>
      if (StoredEmail.uid e =? uid)%Z
      then StoredEmail.add_flag StoredEmail.seen e :: rest
      else e :: add_seen uid rest
  end.

Definition mark_as_read (self : t) (uid : Z) : bool * t :=
  match get_email self uid with
  | Some _ => (true, mk (add_seen uid (emails self)) (uid_counter self))
  | None => (false, self)
  end.

Definition unread (e : StoredEmail.t) : bool :=
  negb (bool_decide (StoredEmail.seen ∈ StoredEmail.flags e)).

Definition get_unread (self : t) : list StoredEmail.t :=
  List.filter unread (emails self).

Definition clear (self : t) : t := mk [] 1.

End TestMailServer.

Module TestIMAPClient.

(** What the e-mail library reads back from a serialized message. *)
Record parsed := {
  p_from : string;
  p_to : string;
  p_subject : string;
  p_body : string;
  p_date : string
}.

(** [fetch_unread], with [message_from_bytes] standing for the parser of the
    e-mail library together with [_get_body]; the generator reads the list
    of unread messages once, when it starts. *)
Definition fetch_unread (message_from_bytes : string -> parsed)
    (connected : bool) (server : TestMailServer.t) : py (list Email.t) :=
  if negb connected then Raise "Not connected"
  else
    Ret (map (fun stored =>
                let msg := message_from_bytes (StoredEmail.raw stored) in
                Email.mk (StoredEmail.uid stored) (p_from msg) (p_to msg)
                  (p_subject msg) (p_body msg) (p_date msg)
                  (StoredEmail.raw stored))
             (TestMailServer.get_unread server)).

Definition mark_as_read (connected : bool) (server : TestMailServer.t)
    (uid : Z) : py TestMailServer.t :=
  if negb connected then Raise "Not connected"
  else Ret (snd (TestMailServer.mark_as_read server uid)).

End TestIMAPClient.

Module TestSMTPClient.

Record sent := {
  original_from : string;
  original_subject : string;
  forwarded_to : string
}.

(** [forward_email] appends to [sent_emails]. *)
Definition forward_email (sent_emails : list sent) (original : Email.t)
    (to_addr : string) : list sent :=
  (sent_emails
     ++ [Build_sent (Email.from_addr original) (Email.subject original)
           to_addr])%list.

End TestSMTPClient.

(** ** cli.py *)

Module Cli.

(** What the commands do to the mail servers. *)
Inductive effect :=
| Sent (uid : Z) (dest : string)
| MarkedRead (uid : Z).

(** The failures of one SMTP send and of one IMAP flag update. *)
Record faults := {
  send_fails : Z -> string -> bool;
  mark_fails : Z -> bool
}.





(** The loop of [test_local] over the messages the mock client has fetched,
    inside the [with] block that keeps the client connected: the mock server
    and the list of captured mails afterwards. *)
Fixpoint test_local_loop `{PyRuntime} (router : Router.t)
    (emails : list Email.t) (server : TestMailServer.t)
    (sent_emails : list TestSMTPClient.sent)
  : TestMailServer.t * list TestSMTPClient.sent :=
  match emails with
  | [] => (server, sent_emails)
  | email :: rest =>
      let decision := Router.decide router email in
      if RoutingDecision.should_forward decision then
        let sent_emails :=
          TestSMTPClient.forward_email sent_emails email
            (RoutingDecision.forward_to decision) in
        match TestIMAPClient.mark_as_read true server (Email.uid email) with
        | Ret server => test_local_loop router rest server sent_emails
        | Raise _ => (server, sent_emails)
        end
      else test_local_loop router rest server sent_emails
  end.

(** [test_local] from the point where the mock server holds its messages:
    the router has the configured rules and no analyzer. *)
Definition test_local `{PyRuntime} (env : Router.backends)
    (message_from_bytes : string -> TestIMAPClient.parsed)
    (rules : list Rule.t) (server : TestMailServer.t)
    (sent_emails : list TestSMTPClient.sent)
  : TestMailServer.t * list TestSMTPClient.sent :=
  let router := Router.init env rules false "" "" [] "skip" in
  match TestIMAPClient.fetch_unread message_from_bytes true server with
  | Ret emails => test_local_loop router emails server sent_emails
  | Raise _ => (server, sent_emails)
  end.

End Cli.

(** ** gui.py *)

Module Gui.

Module EmailStatus.

Record t := mk {
  uid : Z;
  from_addr : string;
  subject : string;
  status : string;
  forward_to : list string;
  category : string;
  confidence : float
}.

(** [EmailStatus(uid=, from_addr=, subject=, status="Pending")] *)
Definition pending (e : Email.t) : t :=
  mk (Email.uid e) (Email.from_addr e) (Email.subject e) "Pending" [] ""
     0.0%float.

Definition set_status (s : string) (r : t) : t :=
  mk (uid r) (from_addr r) (subject r) s (forward_to r) (category r)
     (confidence r).

Definition set_forward_to (l : list string) (r : t) : t :=
  mk (uid r) (from_addr r) (subject r) (status r) l (category r)
     (confidence r).

Definition set_analysis (a : AnalysisResult.t) (r : t) : t :=
  mk (uid r) (from_addr r) (subject r) (status r) (forward_to r)
     (AnalysisResult.category a) (AnalysisResult.confidence a).

End EmailStatus.

(** [for dest in all_destinations: smtp.forward_email(email, dest)] and then
    [imap.mark_as_read(email.uid)]: whether all of it completed, and what it
    did. *)
Fixpoint forward_all_and_mark (f : Cli.faults) (email : Email.t)
    (dests : list string) : py unit * list Cli.effect :=
  match dests with
  | [] =>
      if Cli.mark_fails f (Email.uid email) then (Raise "IMAP store failed", [])
      else (Ret tt, [Cli.MarkedRead (Email.uid email)])
  | dest :: rest =>
      if Cli.send_fails f (Email.uid email) dest
      then (Raise "SMTP send failed", [])
      else
        let '(r, done) := forward_all_and_mark f email rest in
        (r, Cli.Sent (Email.uid email) dest :: done)
  end.

(** The loop [for i, email in enumerate(emails)] from index [i] on. *)
Fixpoint process_from `{PyRuntime} (router : Router.t) (f : Cli.faults)
    (i : nat) (emails : list Email.t) (rows : list EmailStatus.t)
    (done : list Cli.effect) : list EmailStatus.t * list Cli.effect :=
  match emails with
  | [] => (rows, done)
  | email :: rest =>
      let rows := alter (EmailStatus.set_status "Processing") i rows in
      let decision := Router.decide router email in
      let '(rows, done) :=
        if RoutingDecision.should_forward decision then
          let all_destinations := RoutingDecision.all_destinations decision in
          match forward_all_and_mark f email all_destinations with
          | (Ret _, eff) =>
              (alter (EmailStatus.set_forward_to all_destinations) i
                 (alter (EmailStatus.set_status "Forwarded") i rows),
               (done ++ eff)%list)
          | (Raise _, eff) =>
              (alter (EmailStatus.set_status "Error") i rows,
               (done ++ eff)%list)
          end
        else (alter (EmailStatus.set_status "Skipped") i rows, done) in
      let rows :=
        match RoutingDecision.ai_result decision with
        | Some a => alter (EmailStatus.set_analysis a) i rows
        | None => rows
        end in
      process_from router f (S i) rest rows done
  end.

(** [_process_emails]: [self.emails] and the effects afterwards. A failed
    connection and an empty fetch leave the table as it was. *)
Definition _process_emails `{PyRuntime} (router : Router.t) (f : Cli.faults)
    (connect_fails : bool) (self_emails : list EmailStatus.t)
    (unread : list Email.t) : list EmailStatus.t * list Cli.effect :=
  if connect_fails then (self_emails, [])
  else
    match unread with
    | [] => (self_emails, [])
    | _ => process_from router f 0 unread (map EmailStatus.pending unread) []
    end.

End Gui.

(** * Notions used by the further properties *)

Module Props.

(** A message with sender, subject and body in lower case, and a rule with
    its patterns in lower case. *)
Definition lower_mail (e : Email.t) : Email.t :=
  Email.mk (Email.uid e) (PyStr.lower (Email.from_addr e)) (Email.to_addr e)
    (PyStr.lower (Email.subject e)) (PyStr.lower (Email.body e))
    (Email.date e) (Email.raw e).

Definition lower_rule (r : Rule.t) : Rule.t :=
  Rule.mk (Rule.name r)
    (option_map PyStr.lower (Rule.match_from r))
    (option_map (map PyStr.lower) (Rule.match_subject r))
    (option_map (map PyStr.lower) (Rule.match_keywords r))
    (Rule.forward_to r).

(** What every result of the local adapter satisfies: no additional
    destinations, a reasoning text, and a confidence that is NaN or lies in
    the unit interval. *)
Definition well_formed (r : AnalysisResult.t) : Prop :=
  AnalysisResult.additional_destinations r = [] /\
  AnalysisResult.reasoning r <> "" /\
  (PrimFloat.is_nan (AnalysisResult.confidence r) = true \/
   Spec.in_unit_interval (AnalysisResult.confidence r) = true).

(** No comma of the text is followed, after optional white space, by a
    closing brace or bracket. *)
Fixpoint comma_closer_free (s : string) : bool :=
  match s with
  | EmptyString => true
  | String c t =>
      negb (Ascii.eqb c "," && bool_decide (is_Some (OllamaAnalyzer.ws_closer t)))
      && comma_closer_free t
  end.

(** The text has none of the patterns the sanitizer rewrites. *)
Definition sanitizer_clean (s : string) : bool :=
  negb (PyStr.startswith s OllamaAnalyzer.bom)
  && negb (PyStr.contains OllamaAnalyzer.left_smart_quote s)
  && negb (PyStr.contains OllamaAnalyzer.right_smart_quote s)
  && negb (PyStr.contains OllamaAnalyzer.smart_apostrophe s)
  && comma_closer_free s.

(** The uids of the dashboard's records, in the order of the records. *)
Definition record_uids (m : Dashboard.memory) : list Z :=
  map EmailStatus.uid (Dashboard.emails_data m).

(** One of the steps an approval with destinations needs fails: a send, the
    IMAP connection, or the move out of the Review folder. *)
Definition approve_blocked (f : Dashboard.faults) (email : Email.t) (uid : Z)
    (dests : list string) : bool :=
  existsb (Dashboard.send_fails f (Email.uid email)) dests
  || Dashboard.connect_fails f
  || Dashboard.move_fails f uid "Processed" "Review".

(** The shape of the memory after one message of the batch: the records
    before the batch's own are untouched, the records of the batch keep
    their uids, and no pending entry is lost. *)
Definition keeps (prefix : list EmailStatus.t) (uids : list Z)
    (m0 m : Dashboard.memory) : Prop :=
  (exists rest, Dashboard.emails_data m = (prefix ++ rest)%list /\
                map EmailStatus.uid rest = uids) /\
  (forall u, is_Some (Dashboard.pending_reviews m0 !! u) ->
             is_Some (Dashboard.pending_reviews m !! u)).

(** The operations of the mock mail server, and a server after one. *)
Inductive server_op :=
| Add (raw : string)
| Mark (uid : Z)
| Clear.

Definition apply_op (s : TestMailServer.t) (o : server_op)
  : TestMailServer.t :=
  match o with
  | Add raw => (TestMailServer.add_test_email s raw).2
  | Mark uid => (TestMailServer.mark_as_read s uid).2
  | Clear => TestMailServer.clear s
  end.

(** The stored uids are distinct, positive and below the counter. *)
Definition server_wf (s : TestMailServer.t) : Prop :=
  NoDup (map StoredEmail.uid (TestMailServer.emails s)) /\
  (1 <= TestMailServer.uid_counter s)%Z /\
  Forall (fun e => (1 <= StoredEmail.uid e < TestMailServer.uid_counter s)%Z)
         (TestMailServer.emails s).

(** The message the mock IMAP client yields for a stored one. *)
Definition to_email (message_from_bytes : string -> TestIMAPClient.parsed)
    (stored : StoredEmail.t) : Email.t :=
  let msg := message_from_bytes (StoredEmail.raw stored) in
  Email.mk (StoredEmail.uid stored) (TestIMAPClient.p_from msg)
    (TestIMAPClient.p_to msg) (TestIMAPClient.p_subject msg)
    (TestIMAPClient.p_body msg) (TestIMAPClient.p_date msg)
    (StoredEmail.raw stored).

(** What the mock SMTP client captures for a message the router forwards. *)
Definition captured `{PyRuntime} (router : Router.t) (e : Email.t)
  : TestSMTPClient.sent :=
  TestSMTPClient.Build_sent (Email.from_addr e) (Email.subject e)
    (RoutingDecision.forward_to (Router.decide router e)).

Definition forwards `{PyRuntime} (router : Router.t) (e : Email.t) : bool :=
  RoutingDecision.should_forward (Router.decide router e).

(** One of the steps the GUI takes for a forwarded message fails: a send to
    one of the destinations, or the flag update. *)
Definition gui_blocked (f : Cli.faults) (e : Email.t) (dests : list string)
  : bool :=
  existsb (Cli.send_fails f (Email.uid e)) dests
  || Cli.mark_fails f (Email.uid e).

(** The row the GUI shows for a message once the pass is over. *)
Definition gui_row `{PyRuntime} (router : Router.t) (f : Cli.faults)
    (e : Email.t) : Gui.EmailStatus.t :=
  let d := Router.decide router e in
  let dests := RoutingDecision.all_destinations d in
  let forwarded :=
    RoutingDecision.should_forward d && negb (gui_blocked f e dests) in
  Gui.EmailStatus.mk (Email.uid e) (Email.from_addr e) (Email.subject e)
    (if negb (RoutingDecision.should_forward d) then "Skipped"
     else if forwarded then "Forwarded" else "Error")
    (if forwarded then dests else [])
    (match RoutingDecision.ai_result d with
     | Some a => AnalysisResult.category a
     | None => ""
     end)
    (match RoutingDecision.ai_result d with
     | Some a => AnalysisResult.confidence a
     | None => 0.0%float
     end).

(** What the GUI does to the mail servers for one message. *)
Definition gui_effects `{PyRuntime} (router : Router.t) (f : Cli.faults)
    (e : Email.t) : list Cli.effect :=
  let d := Router.decide router e in
  if RoutingDecision.should_forward d
  then (Gui.forward_all_and_mark f e (RoutingDecision.all_destinations d)).2
  else [].

End Props.

(** * Further scenarios *)

Module Examples.

(** The sales enquiry parked for review: the analysis has confidence 0.75,
    which sets the should-forward flag and stays below the auto-approve
    test. *)
Definition sales_decision : RoutingDecision.t :=
  RoutingDecision.mk "sales@mail.local" None
    (Some (AnalysisResult.mk "sales@mail.local" "sales" 0.75%float
             "quote request" [] Scenario.sales_reply))
    true [].

Definition sales_review : Dashboard.pending :=
  {| Dashboard.p_email := Scenario.quote_mail;
     Dashboard.p_decision := Some sales_decision |}.

Definition sales_memory : Dashboard.memory :=
  {| Dashboard.emails_data :=
       [EmailStatus.mk 9 "buyer@customer.example" "Request for quote"
          "Please see below." "Review" ["sales@mail.local"] "sales"
          0.75%float "quote request" true];
     Dashboard.pending_reviews := {[ 9%Z := sales_review ]} |}.

Definition sales_world : Dashboard.world :=
  {| Dashboard.mailbox :=
       <["Review" := [Scenario.quote_mail]]> {[ "INBOX" := [] ]};
     Dashboard.seen := {[ 9%Z ]};
     Dashboard.effects :=
       [Dashboard.FetchFolder "Review"; Dashboard.FetchUnread;
        Dashboard.Move 9 "INBOX" "Review"] |}.

(** Every send fails. *)
Definition smtp_down : Dashboard.faults := {|
  Dashboard.connect_fails := false;
  Dashboard.send_fails := fun _ _ => true;
  Dashboard.move_fails := fun _ _ _ => false
|}.

(** A mock server that holds two messages, a parser that reads the whole
    text as the sender, and a rule for the first sender. *)
Definition demo_server : TestMailServer.t :=
  fold_left Props.apply_op
    [Props.Add "boss@company.com"; Props.Add "newsletter@news.com"]
    TestMailServer.new.

Definition headers_only (raw : string) : TestIMAPClient.parsed :=
  {| TestIMAPClient.p_from := raw;
     TestIMAPClient.p_to := "";
     TestIMAPClient.p_subject := "";
     TestIMAPClient.p_body := "";
     TestIMAPClient.p_date := "" |}.

Definition demo_rules : list Rule.t :=
  [Rule.mk "boss" (Some "boss@") None None "ceo@mail.local"].

(** Mail servers of the command line and the GUI on which nothing fails. *)
Definition servers_up : Cli.faults := {|
  Cli.send_fails := fun _ _ => false;
  Cli.mark_fails := fun _ => false
|}.

(** A hosted model that is out of quota, and one that names an address
    which is not among the configured destinations. *)
Definition sales_desk : list GeminiAnalyzer.destination :=
  [{| GeminiAnalyzer.email := "sales@mail.local";
      GeminiAnalyzer.description := "Sales enquiries" |}].

Definition hosted_out_of_quota : GeminiAnalyzer.t :=
  GeminiAnalyzer.mk sales_desk (fun _ => Raise "quota exceeded").

Definition hosted_elsewhere : GeminiAnalyzer.t :=
  GeminiAnalyzer.mk sales_desk
    (fun _ =>
       Ret ("FORWARD_TO: " ++ "desk@elsewhere.example" ++ PyStr.nl
              ++ "CONFIDENCE: 0.9")).

End Examples.

(** * Facts about the string primitives *)

#[local] Arguments String.append !s1 s2 : simpl nomatch.
#[local] Arguments Ascii.eqb : simpl never.
#[local] Arguments PyStr.isspace : simpl never.

Section StringFacts.

Lemma startswith_nil (s : string) : PyStr.startswith s "" = true.
Proof. now destruct s. Qed.


Lemma replace_star_without_stars (s : string) :
  PyStr.replace "*" "" s = Spec.without_stars s.
Proof.
  unfold PyStr.replace.
  induction s as [|c s IH]; simpl; [reflexivity|].
  rewrite startswith_nil, andb_true_r.
  destruct (Ascii.eqb "*" c); simpl.
  - exact IH.
  - now rewrite IH.
Qed.

Lemma without_stars_star_free (s : string) :
  PyStr.contains "*" (Spec.without_stars s) = false.
Proof.
  induction s as [|c s IH]; simpl; [reflexivity|].
  destruct (Ascii.eqb "*" c) eqn:E; [exact IH|].
  simpl. rewrite E. simpl. exact IH.
Qed.


Lemma to_dict_from (e : Email.t) :
  get_str (Email.to_dict e) "from" = Email.from_addr e.
Proof. reflexivity. Qed.

Lemma to_dict_subject (e : Email.t) :
  get_str (Email.to_dict e) "subject" = Email.subject e.
Proof. reflexivity. Qed.

Lemma to_dict_body (e : Email.t) :
  get_str (Email.to_dict e) "body" = Email.body e.
Proof. reflexivity. Qed.

End StringFacts.

(** * The rule matcher *)

Section RuleMatcher.

Lemma any_keyword_spec (kws : list string) (text : string) :
  Rule.any_keyword kws text = true <->
  exists kw, In kw kws /\ PyStr.contains (PyStr.lower kw) text = true.
Proof. unfold Rule.any_keyword. apply existsb_exists. Qed.









End RuleMatcher.

(** * The sender pattern *)

Section SenderPattern.

Lemma matches_conjunction (r : Rule.t) (ed : gmap string string) :
  Rule.matches r ed
  = Rule.from_ok r ed && Rule.subject_ok r ed && Rule.keywords_ok r ed.
Proof.
  unfold Rule.matches.
  now destruct (Rule.from_ok r ed), (Rule.subject_ok r ed),
    (Rule.keywords_ok r ed).
Qed.

Lemma from_ok_without_stars (r : Rule.t) (e : Email.t) :
  Rule.from_ok r (Email.to_dict e)
  = match Rule.match_from r with
    | Some p =>
        negb (PyStr.truthy p)
        || PyStr.contains (PyStr.lower (Spec.without_stars p))
             (PyStr.lower (Email.from_addr e))
    | None => true
    end.
Proof.
  unfold Rule.from_ok. rewrite to_dict_from.
  destruct (Rule.match_from r) as [[|c p]|]; try reflexivity.
  now rewrite replace_star_without_stars.
Qed.

Lemma sender_only_rule (name pattern fwd : string) (e : Email.t) :
  Rule.matches (Rule.mk name (Some pattern) None None fwd) (Email.to_dict e)
  = negb (PyStr.truthy pattern)
    || PyStr.contains (PyStr.lower (Spec.without_stars pattern))
         (PyStr.lower (Email.from_addr e)).
Proof.
  rewrite matches_conjunction, from_ok_without_stars. simpl.
  unfold Rule.subject_ok, Rule.keywords_ok. simpl.
  now rewrite !andb_true_r.
Qed.

(** C9. The sender test of [Rule.matches] removes every asterisk from the
    configured pattern and then tests case-insensitive containment: what is
    searched for is the pattern without its asterisks, in which no asterisk
    remains; [*@company.com] matches exactly the senders that contain
    [@company.com]; [a*b] matches exactly the senders that contain the
    contiguous [ab], so a sender with text between [a] and [b] does not
    match. *)
Theorem sender_pattern_drops_every_star :
  (forall r ed,
     Rule.matches r ed
     = Rule.from_ok r ed && Rule.subject_ok r ed && Rule.keywords_ok r ed) /\
  (forall r e,
     Rule.from_ok r (Email.to_dict e)
     = match Rule.match_from r with
       | Some p =>
           negb (PyStr.truthy p)
           || PyStr.contains (PyStr.lower (Spec.without_stars p))
                (PyStr.lower (Email.from_addr e))
       | None => true
       end) /\
  (forall p, PyStr.contains "*" (Spec.without_stars p) = false) /\
  (forall name fwd e,
     Rule.matches (Rule.mk name (Some "*@company.com") None None fwd)
       (Email.to_dict e)
     = PyStr.contains "@company.com" (PyStr.lower (Email.from_addr e))) /\
  (forall name fwd e,
     Rule.matches (Rule.mk name (Some "a*b") None None fwd) (Email.to_dict e)
     = PyStr.contains "ab" (PyStr.lower (Email.from_addr e))) /\
  Rule.matches (Rule.mk "wild" (Some "a*b") None None "x@mail.local")
    (Email.to_dict (Scenario.mail 1 "a-to-b@mail.local" "hello")) = false /\
  Rule.matches (Rule.mk "wild" (Some "a*b") None None "x@mail.local")
    (Email.to_dict (Scenario.mail 1 "Abel@mail.local" "hello")) = true.
Proof.
  split; [exact matches_conjunction|].
  split; [exact from_ok_without_stars|].
  split; [exact without_stars_star_free|].
  split; [intros; now rewrite sender_only_rule|].
  split; [intros; now rewrite sender_only_rule|].
  split; vm_compute; reflexivity.
Qed.

End SenderPattern.

(** * The confidence policy *)

Section ConfidencePolicy.

Lemma truthy_nonempty (s : string) : PyStr.truthy s = true <-> s <> "".
Proof. destruct s; simpl; split; congruence. Qed.

(** Above 0.80 is at least 0.7, on binary64 values. *)
Lemma gt_080_ge_07 (x : float) :
  PyFloat.gt x 0.80 = true -> PyFloat.ge x 0.7 = true.
Proof.
  unfold PyFloat.gt, PyFloat.ge.
  rewrite FloatAxioms.ltb_spec, FloatAxioms.leb_spec.
  change (Prim2SF 0.7) with (S754_finite false 6305039478318694 (-53)).
  change (Prim2SF 0.80) with (S754_finite false 7205759403792794 (-53)).
  generalize (Prim2SF x). intros y.
  unfold SFleb, SFltb, SFcompare.
  destruct y as [s|s| |s my ey]; try discriminate.
  - now destruct s.
  - destruct s; try discriminate.
    destruct (-53 ?= ey)%Z; try discriminate; try reflexivity.
    rewrite !Pos.compare_cont_spec. simpl Pos.switch_Eq.
    destruct (Pos.compare_spec 7205759403792794 my) as [E1|E1|E1];
      try discriminate.
    intros _.
    destruct (Pos.compare_spec 6305039478318694 my) as [E2|E2|E2];
      try reflexivity.
    exfalso. pose proof (Pos.lt_trans _ _ _ E1 E2) as E3.
    vm_compute in E3. discriminate.
Qed.

Lemma review_effects `{PyRuntime} (f : Dashboard.faults) (router : Router.t)
    (e : Email.t) (m : Dashboard.memory) (w : Dashboard.world) :
  Dashboard.auto_approve (Router.decide router e) = false ->
  let w' := snd (Dashboard.process_one f router e m w) in
  Dashboard.effects w' = Dashboard.effects w \/
  Dashboard.effects w'
  = (Dashboard.effects w ++ [Dashboard.Move (Email.uid e) "INBOX" "Review"])%list.
Proof.
  intros Hauto. unfold Dashboard.process_one.
  destruct (Dashboard.index_of _ _); [|now left].
  rewrite Hauto. unfold Dashboard.move_email.
  destruct (Dashboard.move_fails _ _ _ _); [now left | now right].
Qed.

Lemma forward_all_succeeds (f : Dashboard.faults) (e : Email.t)
    (dests : list string) :
  forall w,
    (forall dest, In dest dests ->
                  Dashboard.send_fails f (Email.uid e) dest = false) ->
    exists w',
      Dashboard.forward_all f e dests w = (Ret w', w') /\
      Dashboard.mailbox w' = Dashboard.mailbox w /\
      Dashboard.effects w'
      = (Dashboard.effects w
           ++ map (Dashboard.Forward (Email.uid e)) dests)%list.
Proof.
  induction dests as [|dest rest IH]; intros w Hok.
  - exists w. cbn. now rewrite app_nil_r.
  - cbn [Dashboard.forward_all]. unfold Dashboard.forward_email.
    rewrite (Hok dest ltac:(now left)).
    destruct (IH (Dashboard.log (Dashboard.Forward (Email.uid e) dest) w))
      as (w' & Hfa & Hmb & Heff).
    { intros x Hx. apply Hok. now right. }
    exists w'. split; [exact Hfa|]. split; [exact Hmb|].
    rewrite Heff. cbn. now rewrite <- app_assoc.
Qed.

(** The auto-approve branch of the poll loop when nothing fails: the
    message is sent to every destination of the decision, in order, then
    moved out of the inbox, then logged; its record shows the outcome and
    the destinations, and nothing is entered for review. *)
Lemma auto_approve_sends `{PyRuntime} (f : Dashboard.faults)
    (router : Router.t) (e : Email.t) (m : Dashboard.memory)
    (w : Dashboard.world) (i : nat) (r0 : EmailStatus.t)
    (a : AnalysisResult.t) :
  Dashboard.index_of (Email.uid e) (Dashboard.emails_data m) = Some i ->
  Dashboard.emails_data m !! i = Some r0 ->
  RoutingDecision.ai_result (Router.decide router e) = Some a ->
  Dashboard.auto_approve (Router.decide router e) = true ->
  let dests := RoutingDecision.all_destinations (Router.decide router e) in
  let quarantine := String.eqb (AnalysisResult.category a) "quarantine" in
  (forall dest, In dest dests ->
                Dashboard.send_fails f (Email.uid e) dest = false) ->
  Dashboard.move_fails f (Email.uid e)
    (if quarantine then "Quarantine" else "Processed") "INBOX" = false ->
  let res := Dashboard.process_one f router e m w in
  res.1.1 = Ret tt /\
  Dashboard.effects res.2
  = (Dashboard.effects w
       ++ map (Dashboard.Forward (Email.uid e)) dests
       ++ [Dashboard.Move (Email.uid e) "INBOX"
             (if quarantine then "Quarantine" else "Processed");
           Dashboard.LogEmail (Email.uid e)
             (if quarantine then "spam" else "forward")
             (if quarantine then "quarantined" else "forwarded") dests])%list /\
  (exists r',
     Dashboard.emails_data res.1.2 !! i = Some r' /\
     EmailStatus.status r'
     = (if quarantine then "Quarantined" else "Forwarded") /\
     EmailStatus.forward_to r' = dests /\
     EmailStatus.needs_review r' = EmailStatus.needs_review r0) /\
  Dashboard.pending_reviews res.1.2 = Dashboard.pending_reviews m.
Proof.
  intros Hi Hr0 Ha Hauto dests quarantine Hsend Hmove res.
  subst res. unfold Dashboard.process_one. rewrite Hi. cbv zeta.
  rewrite Hauto, Ha. fold dests. fold quarantine.
  destruct (forward_all_succeeds f e dests w Hsend) as (w1 & -> & Hmb & Heff).
  unfold Dashboard.move_email. rewrite Hmove.
  cbn [fst snd Dashboard.log Dashboard.effects Dashboard.emails_data
       Dashboard.pending_reviews].
  split; [reflexivity|]. split; [now rewrite Heff, <- !app_assoc|].
  split; [|reflexivity].
  rewrite !list_lookup_alter_eq, Hr0. cbn [fmap option_fmap option_map].
  eexists. split; [reflexivity|]. now repeat split.
Qed.

(** The other branch when the move to the Review folder does not fail: the
    message is moved there and nothing else is done to the mail store; its
    record shows Review and needs-review, with the destinations of the
    decision when should-forward is set and none otherwise; and the message
    is entered for review with its decision. *)
Lemma review_parks `{PyRuntime} (f : Dashboard.faults)
    (router : Router.t) (e : Email.t) (m : Dashboard.memory)
    (w : Dashboard.world) (i : nat) (r0 : EmailStatus.t) :
  Dashboard.index_of (Email.uid e) (Dashboard.emails_data m) = Some i ->
  Dashboard.emails_data m !! i = Some r0 ->
  Dashboard.auto_approve (Router.decide router e) = false ->
  Dashboard.move_fails f (Email.uid e) "Review" "INBOX" = false ->
  let d := Router.decide router e in
  let res := Dashboard.process_one f router e m w in
  res.1.1 = Ret tt /\
  Dashboard.effects res.2
  = (Dashboard.effects w
       ++ [Dashboard.Move (Email.uid e) "INBOX" "Review"])%list /\
  (exists r',
     Dashboard.emails_data res.1.2 !! i = Some r' /\
     EmailStatus.status r' = "Review" /\
     EmailStatus.needs_review r' = true /\
     EmailStatus.forward_to r'
     = (if RoutingDecision.should_forward d
        then RoutingDecision.all_destinations d else [])) /\
  Dashboard.pending_reviews res.1.2 !! Email.uid e
  = Some (Dashboard.Build_pending e (Some d)).
Proof.
  intros Hi Hr0 Hauto Hmove d res.
  subst res. unfold Dashboard.process_one. rewrite Hi. cbv zeta.
  rewrite Hauto. fold d.
  unfold Dashboard.move_email. rewrite Hmove.
  cbn [fst snd Dashboard.effects Dashboard.emails_data
       Dashboard.pending_reviews].
  split; [reflexivity|]. split; [reflexivity|].
  split; [|apply lookup_insert_eq].
  destruct (RoutingDecision.ai_result d);
    cbn [Dashboard.emails_data];
    rewrite !list_lookup_alter_eq, Hr0; cbn [fmap option_fmap option_map];
    eexists; (split; [reflexivity|]); now repeat split.
Qed.

(** C1, as the code has it. For a message that no rule matches, with an
    analyzer configured and a default action that enables it, the decision
    carries the analysis result; its should-forward flag is true exactly
    when the primary destination is non-empty and the confidence is at least
    0.7; the auto-approve test of the poll loop passes exactly when the
    primary destination is non-empty and the confidence is strictly greater
    than 0.80. When the test fails the poll loop sends nothing and at most
    moves the message to the Review folder, and when that move does not
    fail the message is parked: its record shows Review and needs-review
    and it is entered for review with the decision. When the test passes
    and no send and no move fails, the poll loop sends the message to every
    destination of the decision (there is at least one), moves it out of
    the inbox and logs it, and its record shows the outcome with those
    destinations. *)
Theorem decide_and_auto_approve_thresholds `{PyRuntime}
    (router : Router.t) (e : Email.t) (a : Router.analyzer) :
  Router.first_match (Router.rules router) (Email.to_dict e) = None ->
  Router._analyzer router = Some a ->
  Router.ai_actions (Router.default_action router) = true ->
  let r := Router.analyze a (Email.to_dict e) in
  let d := Router.decide router e in
  RoutingDecision.ai_result d = Some r /\
  (RoutingDecision.should_forward d = true <->
   AnalysisResult.forward_to r <> "" /\
   PyFloat.ge (AnalysisResult.confidence r) 0.7 = true) /\
  (Dashboard.auto_approve d = true <->
   AnalysisResult.forward_to r <> "" /\
   PyFloat.gt (AnalysisResult.confidence r) 0.80 = true) /\
  (Dashboard.auto_approve d = false ->
   forall f m w,
     let w' := snd (Dashboard.process_one f router e m w) in
     Dashboard.effects w' = Dashboard.effects w \/
     Dashboard.effects w'
     = (Dashboard.effects w
          ++ [Dashboard.Move (Email.uid e) "INBOX" "Review"])%list) /\
  (Dashboard.auto_approve d = false ->
   forall f m w i r0,
     Dashboard.index_of (Email.uid e) (Dashboard.emails_data m) = Some i ->
     Dashboard.emails_data m !! i = Some r0 ->
     Dashboard.move_fails f (Email.uid e) "Review" "INBOX" = false ->
     let res := Dashboard.process_one f router e m w in
     res.1.1 = Ret tt /\
     Dashboard.effects res.2
     = (Dashboard.effects w
          ++ [Dashboard.Move (Email.uid e) "INBOX" "Review"])%list /\
     (exists r',
        Dashboard.emails_data res.1.2 !! i = Some r' /\
        EmailStatus.status r' = "Review" /\
        EmailStatus.needs_review r' = true /\
        EmailStatus.forward_to r'
        = (if RoutingDecision.should_forward d
           then RoutingDecision.all_destinations d else [])) /\
     Dashboard.pending_reviews res.1.2 !! Email.uid e
     = Some (Dashboard.Build_pending e (Some d))) /\
  (Dashboard.auto_approve d = true ->
   let dests := RoutingDecision.all_destinations d in
   let quarantine := String.eqb (AnalysisResult.category r) "quarantine" in
   In (AnalysisResult.forward_to r) dests /\
   forall f m w i r0,
     Dashboard.index_of (Email.uid e) (Dashboard.emails_data m) = Some i ->
     Dashboard.emails_data m !! i = Some r0 ->
     (forall dest, In dest dests ->
                   Dashboard.send_fails f (Email.uid e) dest = false) ->
     Dashboard.move_fails f (Email.uid e)
       (if quarantine then "Quarantine" else "Processed") "INBOX" = false ->
     let res := Dashboard.process_one f router e m w in
     res.1.1 = Ret tt /\
     Dashboard.effects res.2
     = (Dashboard.effects w
          ++ map (Dashboard.Forward (Email.uid e)) dests
          ++ [Dashboard.Move (Email.uid e) "INBOX"
                (if quarantine then "Quarantine" else "Processed");
              Dashboard.LogEmail (Email.uid e)
                (if quarantine then "spam" else "forward")
                (if quarantine then "quarantined" else "forwarded")
                dests])%list /\
     (exists r',
        Dashboard.emails_data res.1.2 !! i = Some r' /\
        EmailStatus.status r'
        = (if quarantine then "Quarantined" else "Forwarded") /\
        EmailStatus.forward_to r' = dests /\
        EmailStatus.needs_review r' = EmailStatus.needs_review r0) /\
     Dashboard.pending_reviews res.1.2 = Dashboard.pending_reviews m).
Proof.
  intros Hrules Han Hact r d.
  assert (Hd : d = RoutingDecision.mk (AnalysisResult.forward_to r) None
                     (Some r)
                     (PyStr.truthy (AnalysisResult.forward_to r)
                        && PyFloat.ge (AnalysisResult.confidence r) 0.7)
                     (AnalysisResult.additional_destinations r)).
  { unfold d, Router.decide. now rewrite Hrules, Han, Hact. }
  split; [now rewrite Hd|].
  split; [|split].
  - rewrite Hd. simpl. rewrite andb_true_iff, truthy_nonempty. reflexivity.
  - rewrite Hd. unfold Dashboard.auto_approve. simpl.
    rewrite !andb_true_iff, truthy_nonempty. split.
    + intros (Hgt & Hne & _). now split.
    + intros (Hne & Hgt). repeat split; try assumption.
      now apply gt_080_ge_07.
  - split; [|split].
    + intros Hauto f m w. now apply review_effects.
    + intros Hauto f m w i r0 Hi Hr0 Hmove.
      exact (review_parks f router e m w i r0 Hi Hr0 Hauto Hmove).
    + intros Hauto dests quarantine. split.
      * subst dests. rewrite Hd. unfold RoutingDecision.all_destinations.
        cbn [RoutingDecision.forward_to
             RoutingDecision.additional_destinations].
        unfold Dashboard.auto_approve in Hauto. rewrite Hd in Hauto.
        cbn in Hauto. apply andb_true_iff in Hauto as [_ Hsf].
        apply andb_true_iff in Hsf as [Hne _]. rewrite Hne. now left.
      * intros f m w i r0 Hi Hr0 Hsend Hmove.
        assert (Hai : RoutingDecision.ai_result (Router.decide router e)
                      = Some r) by (fold d; now rewrite Hd).
        exact (auto_approve_sends f router e m w i r0 r Hi Hr0 Hai Hauto
                 Hsend Hmove).
Qed.

End ConfidencePolicy.

Section ConfidencePolicyExamples.

#[local] Existing Instance Scenario.runtime.

(** A quote request classified with confidence 0.75, which is flagged and
    parked, and the phishing message classified with confidence 0.97, which
    is sent: witnesses for the hypotheses of the two-threshold theorem and
    of its conjuncts. *)
Lemma decide_and_auto_approve_thresholds_witness :
  Router.first_match (Router.rules (Scenario.router Scenario.sales_reply))
    (Email.to_dict Scenario.quote_mail) = None /\
  RoutingDecision.should_forward
    (Router.decide (Scenario.router Scenario.sales_reply) Scenario.quote_mail)
  = true /\
  Dashboard.auto_approve
    (Router.decide (Scenario.router Scenario.sales_reply) Scenario.quote_mail)
  = false /\
  Dashboard.effects
    (Dashboard.process_one Scenario.no_faults
       (Scenario.router Scenario.sales_reply) Scenario.quote_mail
       (Dashboard.Build_memory
          [EmailStatus.new 9 "buyer@customer.example" "Request for quote"
             "Please see below." "Pending" false] ∅)
       (Scenario.inbox Scenario.quote_mail)).2
  = [Dashboard.Move 9 "INBOX" "Review"] /\
  Dashboard.effects
    (Dashboard.process_one Scenario.no_faults
       (Scenario.router Scenario.spam_reply) Scenario.phishing_mail
       (Dashboard.Build_memory
          [EmailStatus.new 7 "security@paypa1.example" "Verify your account"
             "Please see below." "Pending" false] ∅)
       (Scenario.inbox Scenario.phishing_mail)).2
  = [Dashboard.Forward 7 "spam@mail.local";
     Dashboard.Move 7 "INBOX" "Processed";
     Dashboard.LogEmail 7 "forward" "forwarded" ["spam@mail.local"]].
Proof.
  pose proof
    (decide_and_auto_approve_thresholds
       (Scenario.router Scenario.sales_reply) Scenario.quote_mail
       (Router.Ollama
          (OllamaAnalyzer.mk 2 false
             (Router.ollama_call (Scenario.local_model Scenario.sales_reply))))
       eq_refl eq_refl eq_refl) as (_ & Hfwd & Hauto & _ & Hpark & _).
  pose proof
    (decide_and_auto_approve_thresholds
       (Scenario.router Scenario.spam_reply) Scenario.phishing_mail
       (Router.Ollama
          (OllamaAnalyzer.mk 2 false
             (Router.ollama_call (Scenario.local_model Scenario.spam_reply))))
       eq_refl eq_refl eq_refl) as (_ & _ & _ & _ & _ & Hsend).
  split; [reflexivity|]. split; [|split; [|split]].
  - apply Hfwd. split; [discriminate | vm_compute; reflexivity].
  - apply not_true_is_false. intros E.
    apply Hauto in E as [_ E]. vm_compute in E. discriminate.
  - destruct (Hpark ltac:(vm_compute; reflexivity) Scenario.no_faults
                (Dashboard.Build_memory
                   [EmailStatus.new 9 "buyer@customer.example"
                      "Request for quote" "Please see below." "Pending"
                      false] ∅)
                (Scenario.inbox Scenario.quote_mail) 0%nat _
                eq_refl eq_refl eq_refl) as (_ & Heff & _).
    exact Heff.
  - destruct (Hsend ltac:(vm_compute; reflexivity)) as [_ Hsend'].
    destruct (Hsend' Scenario.no_faults
                (Dashboard.Build_memory
                   [EmailStatus.new 7 "security@paypa1.example"
                      "Verify your account" "Please see below." "Pending"
                      false] ∅)
                (Scenario.inbox Scenario.phishing_mail) 0%nat _
                eq_refl eq_refl ltac:(reflexivity) eq_refl)
      as (_ & Heff & _).
    rewrite Heff. vm_compute. reflexivity.
Defined.

(** C1 fails as stated, in two ways. With the local model answering 0.75
    for a sales destination, no threshold makes both the decision's flag and
    the auto-approve step of the poll loop follow the rule "destination
    non-empty and confidence at least the threshold": the flag is set and
    the poll loop parks the message for review. And with that same analyzer
    configured, no threshold makes the decision's flag follow the rule
    under every default action: under "analyze" the flag is set at 0.75,
    under "skip" the analyzer is configured but not consulted and the flag
    is not set. *)
Lemma single_threshold_counterexample :
  (~ exists threshold : float,
      let d := Router.decide (Scenario.router Scenario.sales_reply)
                 Scenario.quote_mail in
      forall r,
        RoutingDecision.ai_result d = Some r ->
        (RoutingDecision.should_forward d = true <->
         AnalysisResult.forward_to r <> "" /\
         PyFloat.ge (AnalysisResult.confidence r) threshold = true) /\
        (Dashboard.auto_approve d = true <->
         AnalysisResult.forward_to r <> "" /\
         PyFloat.ge (AnalysisResult.confidence r) threshold = true)) /\
  (~ exists threshold : float,
      forall default_action a,
        let router :=
          Router.init (Scenario.local_model Scenario.sales_reply) [] true ""
            "qwen3:14b" [] default_action in
        Router.first_match (Router.rules router)
          (Email.to_dict Scenario.quote_mail) = None ->
        Router._analyzer router = Some a ->
        let r := Router.analyze a (Email.to_dict Scenario.quote_mail) in
        RoutingDecision.should_forward
          (Router.decide router Scenario.quote_mail) = true <->
        AnalysisResult.forward_to r <> "" /\
        PyFloat.ge (AnalysisResult.confidence r) threshold = true).
Proof.
  split.
  2:{ intros [t H].
      pose proof (H "analyze" _ eq_refl eq_refl) as Hon.
      pose proof (H "skip" _ eq_refl eq_refl) as Hoff.
      cbv zeta in Hon, Hoff.
      assert (Hs : RoutingDecision.should_forward
                     (Router.decide
                        (Router.init
                           (Scenario.local_model Scenario.sales_reply) []
                           true "" "qwen3:14b" [] "analyze")
                        Scenario.quote_mail) = true)
        by (vm_compute; reflexivity).
      apply Hon in Hs. apply Hoff in Hs. vm_compute in Hs. discriminate. }
  intros [t H]. cbv zeta in H.
  destruct (RoutingDecision.ai_result
              (Router.decide (Scenario.router Scenario.sales_reply)
                 Scenario.quote_mail)) as [r|] eqn:Er;
    [|vm_compute in Er; discriminate].
  destruct (H r eq_refl) as [H1 H2].
  assert (Hs : RoutingDecision.should_forward
                 (Router.decide (Scenario.router Scenario.sales_reply)
                    Scenario.quote_mail) = true)
    by (vm_compute; reflexivity).
  apply H1 in Hs. apply H2 in Hs. vm_compute in Hs. discriminate.
Qed.

End ConfidencePolicyExamples.

(** * Bounded retries of the local-model adapter *)

Section Retries.

Context `{PyRuntime}.

Lemma attempt_once_fails (self : OllamaAnalyzer.t) (prompt : string)
    (k : nat) (e last_raw : string) :
  Spec.attempt_fails self prompt k e ->
  exists raw, OllamaAnalyzer.attempt_once self prompt k last_raw = (Raise e, raw).
Proof.
  intros Hf. unfold OllamaAnalyzer.attempt_once.
  destruct Hf as [e Hc | result Hc Hr Hd | result raw e Hc Hr Hne Hp];
    rewrite Hc.
  - now exists last_raw.
  - rewrite Hr. simpl.
    destruct Hd as [-> | ->]; simpl.
    + now exists "".
    + destruct (OllamaAnalyzer.debug_accept_thinking_field self);
        now exists "".
  - rewrite Hr. destruct raw as [|c raw]; [congruence|]. simpl.
    rewrite Hp. now eexists.
Qed.

Lemma attempts_all_fail (self : OllamaAnalyzer.t) (prompt : string)
    (todo : nat) :
  forall (k : nat) (last_err : option string) (last_raw : string),
    (forall j, (k <= j < k + todo)%nat ->
               exists e, Spec.attempt_fails self prompt j e) ->
    exists (err : option string) (raw : string),
      OllamaAnalyzer.attempts self prompt todo k last_err last_raw
      = AnalysisResult.mk "" "review" 0.0%float
          ("LLM/parse error after retries: " ++ default "None" err) [] raw /\
      match todo with
      | O => err = last_err
      | S n =>
          exists e, err = Some e /\ Spec.attempt_fails self prompt (k + n) e
      end.
Proof.
  induction todo as [|todo IH]; intros k last_err last_raw Hall.
  - exists last_err, last_raw. now split.
  - destruct (Hall k ltac:(lia)) as [e He].
    destruct (attempt_once_fails self prompt k e last_raw He) as [raw Hraw].
    destruct (IH (S k) (Some e) raw) as (err & raw' & Heq & Hlast).
    { intros j Hj. apply Hall. lia. }
    exists err, raw'. split.
    + simpl. rewrite Hraw. exact Heq.
    + destruct todo as [|n].
      * subst err. exists e. split; [reflexivity|].
        now replace (k + 0)%nat with k by lia.
      * destruct Hlast as (e' & -> & He'). exists e'. split; [reflexivity|].
        now replace (k + S n)%nat with (S k + n)%nat by lia.
Qed.

(** C5. If every attempt of the retry loop fails, by an error of the backend
    call, an empty reply body or a parse failure, then [analyze] returns a
    result (it does not raise) with category "review", confidence 0.0, an
    empty destination, no additional destinations, and a reasoning text
    that carries the error of the last attempt. *)
Theorem analyze_degrades_to_review (self : OllamaAnalyzer.t)
    (email_data : gmap string string) :
  (0 <= OllamaAnalyzer.max_retries self)%Z ->
  (forall k, (k <= Z.to_nat (OllamaAnalyzer.max_retries self))%nat ->
     exists e,
       Spec.attempt_fails self (OllamaAnalyzer.user_prompt email_data) k e) ->
  exists last_err,
    Spec.attempt_fails self (OllamaAnalyzer.user_prompt email_data)
      (Z.to_nat (OllamaAnalyzer.max_retries self)) last_err /\
    let r := OllamaAnalyzer.analyze self email_data in
    AnalysisResult.category r = "review" /\
    AnalysisResult.confidence r = 0.0%float /\
    AnalysisResult.forward_to r = "" /\
    AnalysisResult.additional_destinations r = [] /\
    AnalysisResult.reasoning r
    = "LLM/parse error after retries: " ++ last_err.
Proof.
  intros Hpos Hall. unfold OllamaAnalyzer.analyze.
  replace (Z.to_nat (OllamaAnalyzer.max_retries self + 1))
    with (S (Z.to_nat (OllamaAnalyzer.max_retries self))) by lia.
  destruct (attempts_all_fail self (OllamaAnalyzer.user_prompt email_data)
              (S (Z.to_nat (OllamaAnalyzer.max_retries self))) 0 None "")
    as (err & raw & Heq & e & -> & He).
  { intros j Hj. apply Hall. lia. }
  exists e. split; [exact He|].
  rewrite Heq. simpl. repeat split.
Qed.

End Retries.

Section RetriesExample.

#[local] Existing Instance Scenario.runtime.

(** A backend that answers every call with an empty body. *)
Lemma analyze_degrades_to_review_witness :
  AnalysisResult.category
    (OllamaAnalyzer.analyze Scenario.silent_analyzer
       (Email.to_dict Scenario.phishing_mail)) = "review" /\
  AnalysisResult.reasoning
    (OllamaAnalyzer.analyze Scenario.silent_analyzer
       (Email.to_dict Scenario.phishing_mail))
  = "LLM/parse error after retries: Empty LLM output (response was blank)".
Proof.
  assert (Hall : forall k,
             (k <= Z.to_nat (OllamaAnalyzer.max_retries Scenario.silent_analyzer))%nat ->
             exists e,
               Spec.attempt_fails Scenario.silent_analyzer
                 (OllamaAnalyzer.user_prompt
                    (Email.to_dict Scenario.phishing_mail)) k e).
  { intros k _. eexists.
    apply Spec.empty_body with (result := JDict [("response", JStr "")]);
      [reflexivity | reflexivity | now left]. }
  destruct (analyze_degrades_to_review Scenario.silent_analyzer
              (Email.to_dict Scenario.phishing_mail)
              ltac:(simpl; lia) Hall)
    as (e & He & Hc & _ & _ & _ & Hr).
  split; [exact Hc|].
  rewrite Hr. f_equal.
  inversion He as [e' Hc' | result Hc' Hr' Hd' | result raw e' Hc' Hr' Hne Hp'].
  - discriminate Hc'.
  - reflexivity.
  - simpl in Hc'. injection Hc' as <-. vm_compute in Hr'.
    injection Hr' as <-. now destruct Hne.
Defined.

End RetriesExample.

(** * Extraction of the JSON object from surrounding text *)

Section Extraction.

Lemma app_assoc_str (a b c : string) : (a ++ b) ++ c = a ++ (b ++ c).
Proof. induction a as [|x a IH]; simpl; [reflexivity | now f_equal]. Qed.

Lemma lstrip_app_nonspace (a : string) (c : ascii) (t : string) :
  PyStr.isspace c = false ->
  PyStr.lstrip (a ++ String c t) = PyStr.lstrip a ++ String c t.
Proof.
  intros Hc. induction a as [|x a IH]; simpl.
  - now rewrite Hc.
  - destruct (PyStr.isspace x); [exact IH | reflexivity].
Qed.

Lemma rstrip_cons_nonspace (c : ascii) (t : string) :
  PyStr.isspace c = false ->
  PyStr.rstrip (String c t) = String c (PyStr.rstrip t).
Proof.
  intros Hc. simpl. rewrite Hc. now destruct (PyStr.rstrip t).
Qed.

Lemma rstrip_app_kept (a z : string) :
  PyStr.rstrip z <> "" -> PyStr.rstrip (a ++ z) = a ++ PyStr.rstrip z.
Proof.
  intros Hz. induction a as [|x a IH]; simpl; [reflexivity|].
  rewrite IH. destruct (a ++ PyStr.rstrip z) eqn:E; [|reflexivity].
  destruct a; simpl in E; [contradiction | discriminate].
Qed.

Lemma brace_free_lstrip (s : string) :
  Spec.brace_free s = true -> Spec.brace_free (PyStr.lstrip s) = true.
Proof.
  induction s as [|c s IH]; simpl; [reflexivity|].
  intros Hs. destruct (PyStr.isspace c); [|exact Hs].
  apply IH. now apply andb_true_iff in Hs as [_ Hs].
Qed.

Lemma brace_free_rstrip (s : string) :
  Spec.brace_free s = true -> Spec.brace_free (PyStr.rstrip s) = true.
Proof.
  induction s as [|c s IH]; simpl; [reflexivity|].
  intros Hs. apply andb_true_iff in Hs as [Hc Hs].
  specialize (IH Hs).
  destruct (PyStr.rstrip s) eqn:E.
  - destruct (PyStr.isspace c); simpl; [reflexivity|].
    now rewrite Hc.
  - simpl in *. now rewrite Hc, IH.
Qed.

Lemma rev_onto_app (a b acc : string) :
  PyStr.rev_onto (a ++ b) acc = PyStr.rev_onto b (PyStr.rev_onto a acc).
Proof.
  revert acc. induction a as [|x a IH]; intros acc; simpl;
    [reflexivity | apply IH].
Qed.

(** [s.endswith("}")] looks at the last byte. *)
Lemma endswith_last (x : string) (c : ascii) :
  PyStr.endswith (x ++ String c "") "}" = Ascii.eqb "}" c.
Proof.
  unfold PyStr.endswith, PyStr.rev. rewrite rev_onto_app. simpl.
  now rewrite startswith_nil, andb_true_r.
Qed.

Lemma last_byte (s : string) :
  s <> "" -> exists x c, s = x ++ String c "".
Proof.
  induction s as [|a s IH]; [congruence|]. intros _.
  destruct s as [|b s].
  - now exists "", a.
  - destruct IH as (x & c & E); [discriminate|].
    exists (String a x), c. simpl. now rewrite E.
Qed.

Lemma brace_free_app (a b : string) :
  Spec.brace_free (a ++ b) = Spec.brace_free a && Spec.brace_free b.
Proof.
  induction a as [|x a IH]; simpl; [reflexivity|].
  rewrite IH. now rewrite !andb_assoc.
Qed.

Lemma endswith_brace_free (x s : string) :
  s <> "" -> Spec.brace_free s = true -> PyStr.endswith (x ++ s) "}" = false.
Proof.
  intros Hne Hs. destruct (last_byte s Hne) as (y & c & ->).
  rewrite <- app_assoc_str, endswith_last.
  rewrite brace_free_app in Hs. apply andb_true_iff in Hs as [_ Hc].
  simpl in Hc. rewrite andb_true_r in Hc.
  apply andb_true_iff in Hc as [_ Hc].
  rewrite Ascii.eqb_sym. now apply negb_true_iff in Hc.
Qed.

Lemma startswith_brace_free (p rest : string) :
  p <> "" -> Spec.brace_free p = true ->
  PyStr.startswith (p ++ rest) "{" = false.
Proof.
  destruct p as [|c p]; [congruence|]. intros _ Hp. simpl in *.
  apply andb_true_iff in Hp as [Hc _]. apply andb_true_iff in Hc as [Hc _].
  rewrite Ascii.eqb_sym. apply negb_true_iff in Hc. now rewrite Hc.
Qed.

Lemma from_first_open_app (p t : string) :
  Spec.brace_free p = true ->
  OllamaAnalyzer.from_first_open (p ++ String "{" t) = Some t.
Proof.
  induction p as [|c p IH]; simpl; [reflexivity|].
  intros Hp. apply andb_true_iff in Hp as [Hc Hp].
  apply andb_true_iff in Hc as [Hc _]. apply negb_true_iff in Hc.
  rewrite Hc. now apply IH.
Qed.

Lemma through_last_close_none (s : string) :
  Spec.brace_free s = true -> OllamaAnalyzer.through_last_close s = None.
Proof.
  induction s as [|c s IH]; simpl; [reflexivity|].
  intros Hs. apply andb_true_iff in Hs as [Hc Hs].
  apply andb_true_iff in Hc as [_ Hc]. apply negb_true_iff in Hc.
  now rewrite (IH Hs), Hc.
Qed.

Lemma through_last_close_app (mid s : string) :
  Spec.brace_free s = true ->
  OllamaAnalyzer.through_last_close (mid ++ String "}" s)
  = Some (mid ++ "}").
Proof.
  intros Hs. induction mid as [|c mid IH]; simpl.
  - now rewrite (through_last_close_none s Hs).
  - now rewrite IH.
Qed.

Lemma search_braces_object (p mid s : string) :
  Spec.brace_free p = true -> Spec.brace_free s = true ->
  OllamaAnalyzer.search_braces (p ++ String "{" (mid ++ String "}" s))
  = Some (String "{" (mid ++ "}")).
Proof.
  intros Hp Hs. unfold OllamaAnalyzer.search_braces.
  rewrite (from_first_open_app p _ Hp).
  now rewrite (through_last_close_app mid s Hs).
Qed.

Lemma strip_object (mid : string) :
  PyStr.strip (String "{" (mid ++ "}")) = String "{" (mid ++ "}").
Proof.
  unfold PyStr.strip.
  change (PyStr.lstrip (String "{" (mid ++ "}"))) with (String "{" (mid ++ "}")).
  change (String "{" (mid ++ "}")) with ((String "{" mid) ++ "}").
  now rewrite rstrip_app_kept.
Qed.

Lemma strip_around_object (prefix mid suffix : string) :
  PyStr.strip (prefix ++ String "{" (mid ++ "}") ++ suffix)
  = PyStr.lstrip prefix ++ String "{" (mid ++ String "}" (PyStr.rstrip suffix)).
Proof.
  unfold PyStr.strip. simpl.
  rewrite app_assoc_str. simpl.
  rewrite lstrip_app_nonspace by reflexivity.
  change (String "{" (mid ++ String "}" suffix))
    with ((String "{" mid) ++ String "}" suffix).
  rewrite <- app_assoc_str.
  rewrite rstrip_app_kept.
  - rewrite rstrip_cons_nonspace by reflexivity.
    now rewrite app_assoc_str.
  - now rewrite rstrip_cons_nonspace by reflexivity.
Qed.

Lemma startswith_object (t : string) :
  PyStr.startswith (String "{" t) "{" = true.
Proof. simpl. now rewrite startswith_nil. Qed.

Lemma endswith_object (mid : string) :
  PyStr.endswith (String "{" (mid ++ "}")) "}" = true.
Proof.
  change (String "{" (mid ++ "}")) with ((String "{" mid) ++ String "}" "").
  now rewrite endswith_last.
Qed.

Context `{PyRuntime}.

Lemma extract_bare_object (mid : string) (data : json) :
  Json.loads (String "{" (mid ++ "}")) = Some data ->
  OllamaAnalyzer._extract_json_object (String "{" (mid ++ "}")) = Ret data.
Proof.
  intros Hl. unfold OllamaAnalyzer._extract_json_object.
  rewrite strip_object, startswith_object, endswith_object.
  simpl. now rewrite Hl.
Qed.

(** X26. What does hold of extraction with surrounding text. For a text
    [{...}] that the JSON decoder accepts and that the sanitizer leaves
    unchanged, and for brace-free text before and after it, extraction from
    the concatenation returns the same parsed object as extraction from the
    bare text. *)
Theorem extraction_ignores_brace_free_context
    (prefix mid suffix : string) (data : json) :
  Spec.brace_free prefix = true ->
  Spec.brace_free suffix = true ->
  Json.loads ("{" ++ mid ++ "}") = Some data ->
  OllamaAnalyzer._sanitize_common_json_issues ("{" ++ mid ++ "}")
  = "{" ++ mid ++ "}" ->
  OllamaAnalyzer._extract_json_object (prefix ++ ("{" ++ mid ++ "}") ++ suffix)
  = Ret data /\
  OllamaAnalyzer._extract_json_object ("{" ++ mid ++ "}") = Ret data.
Proof.
  change ("{" ++ mid ++ "}") with (String "{" (mid ++ "}")).
  intros Hp Hs Hl Hsan.
  split; [|now apply extract_bare_object].
  unfold OllamaAnalyzer._extract_json_object.
  rewrite strip_around_object.
  pose proof (brace_free_lstrip prefix Hp) as Hp'.
  pose proof (brace_free_rstrip suffix Hs) as Hs'.
  destruct (PyStr.lstrip prefix) as [|pc p'] eqn:Ep.
  - destruct (PyStr.rstrip suffix) as [|sc s'] eqn:Es.
    + simpl String.append.
      rewrite startswith_object, endswith_object. simpl andb. cbv iota.
      now rewrite Hl.
    + simpl String.append.
      assert (He : PyStr.endswith
                     (String "{" (mid ++ String "}" (String sc s'))) "}"
                   = false).
      { change (String "{" (mid ++ String "}" (String sc s')))
          with ((String "{" mid) ++ String "}" "" ++ String sc s').
        rewrite <- app_assoc_str.
        now apply endswith_brace_free. }
      rewrite He, andb_false_r.
      pose proof (search_braces_object "" mid (String sc s') eq_refl Hs')
        as Hsearch.
      simpl String.append in Hsearch. rewrite Hsearch.
      now rewrite strip_object, Hsan, Hl.
  - rewrite startswith_brace_free by (assumption || discriminate).
    simpl andb. cbv iota.
    rewrite (search_braces_object (String pc p') mid _ Hp' Hs').
    now rewrite strip_object, Hsan, Hl.
Qed.

End Extraction.

Section ExtractionExamples.

#[local] Existing Instance Scenario.runtime.

(** A plain object between two pieces of chatter. *)
Lemma extraction_ignores_brace_free_context_witness :
  OllamaAnalyzer._extract_json_object
    (Scenario.chatter_before ++ ("{" ++ Scenario.plain_fields ++ "}")
       ++ Scenario.chatter_after)
  = Ret (JDict [("category", JStr "spam"); ("confidence", JFloat 0.97)]) /\
  OllamaAnalyzer._extract_json_object ("{" ++ Scenario.plain_fields ++ "}")
  = Ret (JDict [("category", JStr "spam"); ("confidence", JFloat 0.97)]).
Proof.
  apply (extraction_ignores_brace_free_context
           Scenario.chatter_before Scenario.plain_fields
           Scenario.chatter_after);
    vm_compute; reflexivity.
Defined.

(** C8 at its failing input. The object below is valid JSON and the text
    before it has no brace. Extraction from the bare object takes the fast
    path and returns the parsed dictionary. Extraction from the same object
    after the chatter takes the slow path, which sanitizes the matched
    region before it decodes it: the curly quotes inside the string value
    become plain quotes, the string ends early, and the decoder rejects the
    text, so the function raises "Invalid JSON" with the decoder's message,
    whatever that message is. The last conjunct gives the message for the
    runtime of the scenarios. *)
Theorem extraction_with_prefix_corrupts_valid_object :
  Spec.brace_free Scenario.chatter_before = true /\
  Spec.brace_free "" = true /\
  Json.loads Scenario.quoted_object
  = Some (JDict [("category", JStr "spam");
                 ("reason", JStr "marked “urgent” by sender")]) /\
  OllamaAnalyzer._sanitize_common_json_issues Scenario.quoted_object
  = PyStr.sq "{'category':'spam','reason':'marked 'urgent' by sender'}" /\
  Json.loads
    (OllamaAnalyzer._sanitize_common_json_issues Scenario.quoted_object)
  = None /\
  (forall rt : PyRuntime,
     @OllamaAnalyzer._extract_json_object rt Scenario.quoted_object
     = Ret (JDict [("category", JStr "spam");
                   ("reason", JStr "marked “urgent” by sender")]) /\
     @OllamaAnalyzer._extract_json_object rt
       (Scenario.chatter_before ++ Scenario.quoted_object ++ "")
     = Raise ("Invalid JSON: "
                ++ @json_error rt
                     (OllamaAnalyzer._sanitize_common_json_issues
                        Scenario.quoted_object)) /\
     @OllamaAnalyzer._extract_json_object rt
       (Scenario.chatter_before ++ Scenario.quoted_object ++ "")
     <> @OllamaAnalyzer._extract_json_object rt Scenario.quoted_object) /\
  OllamaAnalyzer._extract_json_object
    (Scenario.chatter_before ++ Scenario.quoted_object ++ "")
  = Raise "Invalid JSON: Expecting ',' delimiter: line 1 column 38 (char 37)".
Proof.
  repeat split; try (vm_compute; reflexivity).
  vm_compute. discriminate.
Qed.

End ExtractionExamples.

(** * Scenarios of the specification, evaluated *)

Section Scenarios.

#[local] Existing Instance Scenario.runtime.

(** C4 at two backend replies. The hosted adapter returns the number it
    reads after [CONFIDENCE:] as it is, here 95; the local adapter lets the
    JSON literal [NaN] through its numeric branch. *)
Theorem confidence_is_not_always_clamped :
  AnalysisResult.confidence
    (GeminiAnalyzer.analyze Scenario.hosted_analyzer
       (Email.to_dict Scenario.quote_mail)) = 95%float /\
  PyFloat.gt
    (AnalysisResult.confidence
       (GeminiAnalyzer.analyze Scenario.hosted_analyzer
          (Email.to_dict Scenario.quote_mail))) 1.0 = true /\
  PrimFloat.is_nan
    (AnalysisResult.confidence
       (OllamaAnalyzer.analyze (Scenario.local_analyzer Scenario.nan_reply)
          (Email.to_dict Scenario.quote_mail))) = true /\
  OllamaAnalyzer._normalize_confidence (JStr "nan") = 1.0%float /\
  OllamaAnalyzer._normalize_confidence (JFloat 95) = 0.95%float.
Proof. repeat split; vm_compute; reflexivity. Qed.

(** C2 at its scenario. The reply is parsed as the claim says and the
    decision has should-forward set, but the poll loop compares the category
    with "quarantine": the message is forwarded to the spam mailbox, moved
    to the Processed folder and its record ends in state Forwarded; the
    Quarantine folder stays empty. *)
Theorem spam_scenario_ends_forwarded :
  OllamaAnalyzer._parse_response Scenario.spam_reply
  = Ret (AnalysisResult.mk "spam@mail.local" "spam" 0.97%float
           "🚨 ⚠️ [phishing_link] credential theft attempt" [] "") /\
  PyStr.contains "phishing_link"
    "🚨 ⚠️ [phishing_link] credential theft attempt" = true /\
  RoutingDecision.should_forward
    (Router.decide (Scenario.router Scenario.spam_reply)
       Scenario.phishing_mail) = true /\
  let '(m, w) :=
    Dashboard.process_emails (Scenario.local_model Scenario.spam_reply)
      Scenario.cfg Scenario.no_faults Scenario.fresh
      (Scenario.inbox Scenario.phishing_mail) in
  option_map EmailStatus.status (Scenario.record 7 m) = Some "Forwarded" /\
  Scenario.uids (Dashboard.folder w "Processed") = [7%Z] /\
  Scenario.uids (Dashboard.folder w "Quarantine") = [] /\
  Dashboard.effects w
  = [Dashboard.FetchFolder "Review"; Dashboard.FetchUnread;
     Dashboard.Forward 7 "spam@mail.local";
     Dashboard.Move 7 "INBOX" "Processed";
     Dashboard.LogEmail 7 "forward" "forwarded" ["spam@mail.local"]].
Proof. repeat split; vm_compute; reflexivity. Qed.

(** C3 at its scenario. The decision has should-forward unset and the
    message is parked for review, as the claim says. The approval that
    follows sends nothing and moves nothing: the destination list kept for
    the record is empty because should-forward was unset, so the message
    stays in the Review folder while its record is set to Forwarded with no
    destination and its pending entry is dropped. *)
Theorem vendor_scenario_approve_sends_nothing :
  RoutingDecision.should_forward
    (Router.decide (Scenario.router Scenario.vendor_reply)
       Scenario.vendor_mail) = false /\
  RoutingDecision.forward_to
    (Router.decide (Scenario.router Scenario.vendor_reply)
       Scenario.vendor_mail) = "vendors@mail.local" /\
  let '(m, w) :=
    Dashboard.process_emails (Scenario.local_model Scenario.vendor_reply)
      Scenario.cfg Scenario.no_faults Scenario.fresh
      (Scenario.inbox Scenario.vendor_mail) in
  (option_map EmailStatus.status (Scenario.record 8 m) = Some "Review" /\
   option_map EmailStatus.needs_review (Scenario.record 8 m) = Some true /\
   option_map EmailStatus.forward_to (Scenario.record 8 m) = Some [] /\
   Scenario.uids (Dashboard.folder w "Review") = [8%Z] /\
   is_Some (Dashboard.pending_reviews m !! 8%Z)) /\
  let '(m', w') := Dashboard.approve_email Scenario.no_faults 8 m w in
  option_map EmailStatus.status (Scenario.record 8 m') = Some "Forwarded" /\
  option_map EmailStatus.forward_to (Scenario.record 8 m') = Some [] /\
  Scenario.uids (Dashboard.folder w' "Review") = [8%Z] /\
  Scenario.uids (Dashboard.folder w' "Processed") = [] /\
  Dashboard.pending_reviews m' !! 8%Z = None /\
  Dashboard.effects w'
  = [Dashboard.FetchFolder "Review"; Dashboard.FetchUnread;
     Dashboard.Move 8 "INBOX" "Review";
     Dashboard.LogAction 8 "approved" []].
Proof.
  split; [vm_compute; reflexivity|].
  split; [vm_compute; reflexivity|].
  destruct (Dashboard.process_emails _ _ _ _ _) as [m w] eqn:E1.
  vm_compute in E1. injection E1 as <- <-.
  split.
  - repeat split; try (vm_compute; reflexivity).
    vm_compute. eexists. reflexivity.
  - destruct (Dashboard.approve_email _ _ _ _) as [m' w'] eqn:E2.
    vm_compute in E2. injection E2 as <- <-.
    repeat split; vm_compute; reflexivity.
Qed.

End Scenarios.

(** * Operator reject *)

Section Reject.

Lemma update_first_at (uid : Z) (g : EmailStatus.t -> EmailStatus.t)
    (data : list EmailStatus.t) (i : nat) (r : EmailStatus.t) :
  Dashboard.index_of uid data = Some i ->
  data !! i = Some r ->
  Dashboard.update_first uid g data !! i = Some (g r)
  /\ EmailStatus.uid r = uid.
Proof.
  revert i. induction data as [|e data IH]; intros i Hi Hr; [discriminate|].
  simpl in *. destruct (EmailStatus.uid e =? uid)%Z eqn:E.
  - injection Hi as <-. simpl in *. injection Hr as <-.
    split; [reflexivity | now apply Z.eqb_eq].
  - destruct (Dashboard.index_of uid data) as [j|]; [|discriminate].
    injection Hi as <-. simpl in *. now apply IH.
Qed.

Lemma update_first_elsewhere (uid : Z) (g : EmailStatus.t -> EmailStatus.t)
    (data : list EmailStatus.t) (j : nat) (r' : EmailStatus.t) :
  Dashboard.update_first uid g data !! j = Some r' ->
  data !! j = Some r' \/
  exists r, data !! j = Some r /\ r' = g r /\ EmailStatus.uid r = uid.
Proof.
  revert j. induction data as [|e data IH]; intros j Hj; [discriminate|].
  simpl in Hj. destruct (EmailStatus.uid e =? uid)%Z eqn:E.
  - destruct j as [|j]; simpl in *.
    + injection Hj as <-. right. exists e.
      repeat split. now apply Z.eqb_eq.
    + now left.
  - destruct j as [|j]; simpl in *; [now left | now apply IH].
Qed.

(** C10. When an operator rejects a message that is pending review and the
    move to the Skipped folder fails (the connection cannot be opened or the
    move itself raises), the reject still completes: the first record of
    that uid is marked Skipped with needs-review cleared, no record is set
    to Error, the uid is dropped from the pending-review map, the rejection
    is logged, and the mail store is left as it was, so the message stays in
    the Review folder. *)
Theorem reject_completes_when_move_fails (f : Dashboard.faults) (uid : Z)
    (m : Dashboard.memory) (w : Dashboard.world) (entry : Dashboard.pending) :
  Dashboard.pending_reviews m !! uid = Some entry ->
  Dashboard.connect_fails f = true \/
  Dashboard.move_fails f uid "Skipped" "Review" = true ->
  let '(m', w') := Dashboard.reject_email f uid m w in
  Dashboard.pending_reviews m' !! uid = None /\
  (forall i r,
     Dashboard.index_of uid (Dashboard.emails_data m) = Some i ->
     Dashboard.emails_data m !! i = Some r ->
     exists r',
       Dashboard.emails_data m' !! i = Some r' /\
       EmailStatus.uid r' = uid /\
       EmailStatus.status r' = "Skipped" /\
       EmailStatus.needs_review r' = false) /\
  (forall j r',
     Dashboard.emails_data m' !! j = Some r' ->
     Dashboard.emails_data m !! j = Some r' \/
     EmailStatus.status r' = "Skipped" /\ EmailStatus.needs_review r' = false) /\
  Dashboard.mailbox w' = Dashboard.mailbox w /\
  Dashboard.effects w'
  = (Dashboard.effects w ++ [Dashboard.LogAction uid "rejected" []])%list.
Proof.
  intros Hpend Hfail. unfold Dashboard.reject_email. rewrite Hpend.
  set (w1 := if Dashboard.connect_fails f then w else _).
  assert (Hw1 : w1 = w).
  { unfold w1. destruct Hfail as [-> | Hmv]; [reflexivity|].
    destruct (Dashboard.connect_fails f); [reflexivity|].
    unfold Dashboard.move_email. now rewrite Hmv. }
  rewrite Hw1. simpl.
  split; [apply lookup_delete_eq|].
  split; [|split; [|split; reflexivity]].
  - intros i r Hi Hr.
    destruct (update_first_at uid
                (fun e => EmailStatus.set_needs_review false
                            (EmailStatus.set_status "Skipped" e))
                _ i r Hi Hr) as [Hu Huid].
    eexists. split; [exact Hu|]. now repeat split.
  - intros j r' Hj. apply update_first_elsewhere in Hj as [Hj|(r & Hj & -> & _)].
    + now left.
    + right. now split.
Qed.

(** The vendor message parked for review, rejected while the Skipped folder
    cannot be reached. *)
Lemma reject_completes_when_move_fails_witness :
  let '(m', w') :=
    Dashboard.reject_email Scenario.skipped_unreachable 8
      Scenario.parked_memory Scenario.parked_world in
  Dashboard.pending_reviews m' !! 8%Z = None /\
  option_map EmailStatus.status (Scenario.record 8 m') = Some "Skipped" /\
  Scenario.uids (Dashboard.folder w' "Review") = [8%Z].
Proof.
  pose proof
    (reject_completes_when_move_fails Scenario.skipped_unreachable 8
       Scenario.parked_memory Scenario.parked_world
       {| Dashboard.p_email := Scenario.vendor_mail;
          Dashboard.p_decision := Some Scenario.parked_decision |}
       ltac:(vm_compute; reflexivity)
       ltac:(right; reflexivity)) as Hthm.
  destruct (Dashboard.reject_email _ _ _ _) as [m' w'] eqn:E.
  destruct Hthm as (Hp & _ & _ & Hmb & _).
  split; [exact Hp|]. split.
  - vm_compute in E. injection E as <- _. vm_compute. reflexivity.
  - unfold Dashboard.folder. rewrite Hmb. vm_compute. reflexivity.
Defined.

End Reject.

(** * Rehydration of the Review folder *)

Section Rehydration.

Lemma rehydrate_spec (review_emails : list Email.t) :
  forall (existing_uids : list Z) (m : Dashboard.memory),
    Spec.tracks existing_uids m ->
    let existing_uids' := fst (Dashboard.rehydrate review_emails existing_uids m) in
    let m' := snd (Dashboard.rehydrate review_emails existing_uids m) in
    Spec.tracks existing_uids' m' /\
    (exists added,
       Dashboard.emails_data m' = (Dashboard.emails_data m ++ added)%list /\
       Forall (Spec.rehydrated review_emails) added) /\
    (forall e, In e review_emails ->
               is_Some (Dashboard.pending_reviews m' !! Email.uid e) /\
               In (Email.uid e)
                 (map EmailStatus.uid (Dashboard.emails_data m'))) /\
    (forall u p, Dashboard.pending_reviews m !! u = Some p ->
                 Dashboard.pending_reviews m' !! u = Some p).
Proof.
  induction review_emails as [|e rest IH]; intros ex m Htr.
  - simpl. split; [exact Htr|]. split; [|split].
    + exists []. now rewrite app_nil_r.
    + intros e [].
    + auto.
  - cbn [Dashboard.rehydrate].
    set (step :=
           if bool_decide (Email.uid e ∈ ex)
           then (ex, Dashboard.emails_data m)
           else ((ex ++ [Email.uid e])%list,
                 (Dashboard.emails_data m ++
                    [EmailStatus.new (Email.uid e) (Email.from_addr e)
                       (Email.subject e) (Email.body e) "Review" true])%list)).
    set (pend :=
           match Dashboard.pending_reviews m !! Email.uid e with
           | Some _ => Dashboard.pending_reviews m
           | None =>
               <[Email.uid e := Dashboard.Build_pending e None]>
                 (Dashboard.pending_reviews m)
           end).
    destruct step as [ex1 data1] eqn:Estep.
    set (m1 := Dashboard.Build_memory data1 pend).
    assert (Hadd1 : exists added1,
               data1 = (Dashboard.emails_data m ++ added1)%list /\
               Forall (Spec.rehydrated (e :: rest)) added1).
    { unfold step in Estep. destruct (bool_decide _); injection Estep as <- <-.
      - exists []. now rewrite app_nil_r.
      - eexists. split; [reflexivity|]. constructor; [|constructor].
        repeat split. exists e. split; [now left | reflexivity]. }
    assert (Htr1 : Spec.tracks ex1 m1).
    { unfold step in Estep. destruct (bool_decide _); injection Estep as <- <-.
      - exact Htr.
      - intros u. unfold m1. simpl. rewrite elem_of_app, map_app, in_app_iff.
        rewrite (Htr u). simpl. rewrite list_elem_of_singleton.
        intuition congruence. }
    assert (Hin1 : In (Email.uid e) (map EmailStatus.uid data1)).
    { unfold step in Estep.
      destruct (bool_decide (Email.uid e ∈ ex)) eqn:Eb;
        injection Estep as <- <-.
      - apply bool_decide_eq_true in Eb. now apply Htr.
      - rewrite map_app, in_app_iff. right. now left. }
    assert (Hpend1 : is_Some (pend !! Email.uid e)).
    { unfold pend. destruct (Dashboard.pending_reviews m !! Email.uid e) eqn:Ep.
      - now rewrite Ep.
      - rewrite lookup_insert_eq. now eexists. }
    assert (Hkeep1 : forall u p, Dashboard.pending_reviews m !! u = Some p ->
                                 pend !! u = Some p).
    { intros u p Hu. unfold pend.
      destruct (Dashboard.pending_reviews m !! Email.uid e) eqn:Ep;
        [exact Hu|].
      rewrite lookup_insert_ne; [exact Hu | congruence]. }
    destruct (IH ex1 m1 Htr1) as (Htr' & (added2 & Hdata2 & Hadd2) & Hall & Hkeep).
    split; [exact Htr'|]. split; [|split].
    + destruct Hadd1 as (added1 & -> & Hadd1).
      exists (added1 ++ added2)%list. split.
      * rewrite Hdata2. unfold m1. simpl. now rewrite app_assoc.
      * apply Forall_app. split; [exact Hadd1|].
        eapply Forall_impl; [exact Hadd2|].
        intros r (Hs & Hn & e' & He' & Hu). repeat split; try assumption.
        exists e'. split; [now right | assumption].
    + intros e' [<- | He'].
      * split.
        -- destruct Hpend1 as [p Hp]. exists p. now apply Hkeep.
        -- rewrite Hdata2, map_app, in_app_iff. now left.
      * now apply Hall.
    + intros u p Hu. apply Hkeep. unfold m1. simpl. now apply Hkeep1.
Qed.

Lemma tracks_initial (m : Dashboard.memory) :
  Spec.tracks (map EmailStatus.uid (Dashboard.emails_data m)) m.
Proof. intros u. apply list_elem_of_In. Qed.

End Rehydration.

Section PollOrder.

Lemma extends_refl (w : Dashboard.world) : Spec.extends w w.
Proof. exists []. now rewrite app_nil_r. Qed.

Lemma extends_trans (w1 w2 w3 : Dashboard.world) :
  Spec.extends w1 w2 -> Spec.extends w2 w3 -> Spec.extends w1 w3.
Proof.
  intros [l1 H1] [l2 H2]. exists (l1 ++ l2)%list.
  now rewrite H2, H1, app_assoc.
Qed.

Lemma log_extends (ev : Dashboard.effect) (w : Dashboard.world) :
  Spec.extends w (Dashboard.log ev w).
Proof. now exists [ev]. Qed.

Lemma move_email_extends (f : Dashboard.faults) (uid : Z)
    (dest source : string) (w w' : Dashboard.world) :
  Dashboard.move_email f uid dest source w = Ret w' -> Spec.extends w w'.
Proof.
  unfold Dashboard.move_email.
  destruct (Dashboard.move_fails f uid dest source); [discriminate|].
  intros [= <-]. now eexists.
Qed.

Lemma forward_all_extends (f : Dashboard.faults) (email : Email.t)
    (dests : list string) :
  forall w, Spec.extends w (snd (Dashboard.forward_all f email dests w)).
Proof.
  induction dests as [|d dests IH]; intros w; simpl.
  - apply extends_refl.
  - unfold Dashboard.forward_email.
    destruct (Dashboard.send_fails f (Email.uid email) d).
    + apply extends_refl.
    + eapply extends_trans; [apply log_extends | apply IH].
Qed.

Context `{PyRuntime}.

Lemma process_one_extends (f : Dashboard.faults) (router : Router.t)
    (email : Email.t) (m : Dashboard.memory) (w : Dashboard.world) :
  Spec.extends w (snd (Dashboard.process_one f router email m w)).
Proof.
  unfold Dashboard.process_one.
  destruct (Dashboard.index_of _ _); [|apply extends_refl].
  destruct (Dashboard.auto_approve _).
  - pose proof (forward_all_extends f email
                  (RoutingDecision.all_destinations
                     (Router.decide router email)) w) as Hfw.
    destruct (Dashboard.forward_all _ _ _ _) as [[w1|e] w2]; simpl in Hfw.
    + destruct (Dashboard.move_email _ _ _ _ w2) as [w3|e] eqn:Em;
        simpl; [|exact Hfw].
      eapply extends_trans; [exact Hfw|].
      eapply extends_trans; [eapply move_email_extends; exact Em|].
      apply log_extends.
    + exact Hfw.
  - destruct (Dashboard.move_email _ _ _ _ w) as [w3|e] eqn:Em; simpl.
    + eapply move_email_extends; exact Em.
    + apply extends_refl.
Qed.

Lemma process_all_extends (f : Dashboard.faults) (router : Router.t)
    (new_emails : list Email.t) :
  forall m w,
    Spec.extends w (snd (Dashboard.process_all f router new_emails m w)).
Proof.
  induction new_emails as [|e rest IH]; intros m w; simpl.
  - apply extends_refl.
  - pose proof (process_one_extends f router e m w) as H1.
    destruct (Dashboard.process_one f router e m w) as [[[u|err] m1] w1];
      simpl in *.
    + eapply extends_trans; [exact H1 | apply IH].
    + exact H1.
Qed.

(** C7, as the code has it. At the start of a poll, before unread mail is
    fetched, every message of the Review folder is entered in the
    pending-review map (entries already there are kept) and has an
    in-memory record; the record is a new one in state Review with
    needs-review set when the uid had no record, and records that existed
    are left as they were. In every poll that opens the mail store the
    Review folder is read first and unread mail is fetched next. *)
Theorem review_folder_is_rehydrated_first
    (env : Router.backends) (cfg : Dashboard.config) (f : Dashboard.faults)
    (m : Dashboard.memory) (w : Dashboard.world) :
  let '(existing_uids, m1, w1) := Dashboard.load_review_folder m w in
  (forall e, In e (Dashboard.folder w "Review") ->
     is_Some (Dashboard.pending_reviews m1 !! Email.uid e) /\
     exists r,
       In r (Dashboard.emails_data m1) /\
       EmailStatus.uid r = Email.uid e /\
       (~ In (Email.uid e) (map EmailStatus.uid (Dashboard.emails_data m)) ->
        EmailStatus.status r = "Review" /\
        EmailStatus.needs_review r = true)) /\
  (exists added,
     Dashboard.emails_data m1 = (Dashboard.emails_data m ++ added)%list /\
     Forall (Spec.rehydrated (Dashboard.folder w "Review")) added) /\
  (forall u p, Dashboard.pending_reviews m !! u = Some p ->
               Dashboard.pending_reviews m1 !! u = Some p) /\
  Dashboard.mailbox w1 = Dashboard.mailbox w /\
  Dashboard.effects w1
  = (Dashboard.effects w ++ [Dashboard.FetchFolder "Review"])%list /\
  (Dashboard.connect_fails f = false ->
   exists later,
     Dashboard.effects (snd (Dashboard.process_emails env cfg f m w))
     = (Dashboard.effects w
          ++ [Dashboard.FetchFolder "Review"; Dashboard.FetchUnread]
          ++ later)%list).
Proof.
  pose proof (rehydrate_spec (Dashboard.folder w "Review")
                (map EmailStatus.uid (Dashboard.emails_data m)) m
                (tracks_initial m)) as Hspec.
  cbv zeta in Hspec.
  assert (Hload : Dashboard.load_review_folder m w
                  = (fst (Dashboard.rehydrate (Dashboard.folder w "Review")
                            (map EmailStatus.uid (Dashboard.emails_data m)) m),
                     snd (Dashboard.rehydrate (Dashboard.folder w "Review")
                            (map EmailStatus.uid (Dashboard.emails_data m)) m),
                     Dashboard.log (Dashboard.FetchFolder "Review") w)).
  { unfold Dashboard.load_review_folder, Dashboard.fetch_from_folder.
    now destruct (Dashboard.rehydrate _ _ _). }
  destruct (Dashboard.load_review_folder m w) as [[ex m1] w1] eqn:El.
  injection Hload as -> -> ->.
  destruct Hspec as (_ & (added & Hdata & Hadded) & Hall & Hkeep).
  split; [|split; [|split; [|split; [|split]]]].
  - intros e He. destruct (Hall e He) as [Hp Hin]. split; [exact Hp|].
    apply in_map_iff in Hin as (r & Hr & Hrin). exists r.
    split; [exact Hrin|]. split; [exact Hr|]. intros Hnew.
    rewrite Hdata in Hrin. apply in_app_iff in Hrin as [Hold|Hfresh].
    + exfalso. apply Hnew. rewrite <- Hr. now apply in_map.
    + rewrite Forall_forall in Hadded.
      apply list_elem_of_In in Hfresh.
      destruct (Hadded r Hfresh) as (Hs & Hn & _). now split.
  - now exists added.
  - exact Hkeep.
  - reflexivity.
  - reflexivity.
  - intros Hconn. unfold Dashboard.process_emails. rewrite Hconn, El.
    unfold Dashboard.fetch_unread.
    set (w2 := Dashboard.Build_world _ _ _).
    assert (Hw2 : Dashboard.effects w2
                  = (Dashboard.effects w
                       ++ [Dashboard.FetchFolder "Review"; Dashboard.FetchUnread])%list).
    { unfold w2. simpl. now rewrite <- app_assoc. }
    clearbody w2.
    destruct (filter _ (Dashboard.folder _ "INBOX")) as [|e0 emails];
      [exists []; simpl; rewrite Hw2, ?app_nil_r; reflexivity|].
    destruct (List.filter _ (e0 :: emails)) as [|n0 new_emails] eqn:En;
      [exists []; simpl; rewrite Hw2, ?app_nil_r; reflexivity|].
    match goal with
    | |- context [Dashboard.process_all ?f' ?r' ?l' ?m' ?w'] =>
        destruct (process_all_extends f' r' l' m' w') as [later Hl]
    end.
    exists later. rewrite Hl, Hw2. now rewrite <- app_assoc.
Qed.

End PollOrder.

Section RehydrationExample.

#[local] Existing Instance Scenario.runtime.

(** The parked state of the scenarios is the one a poll produces. *)
Lemma parked_state_reached :
  Dashboard.process_emails (Scenario.local_model Scenario.vendor_reply)
    Scenario.cfg Scenario.no_faults Scenario.fresh
    (Scenario.inbox Scenario.vendor_mail)
  = (Scenario.parked_memory, Scenario.parked_world).
Proof. vm_compute. reflexivity. Qed.

(** C7 fails as stated. The vendor message is parked for review and then
    rejected while the move to the Skipped folder fails, so it stays in the
    Review folder with a record in state Skipped. At the next poll the
    message is in the Review folder, yet the only record for its uid keeps
    state Skipped with needs-review unset: the loop creates a record only
    for a uid that has none. The message is entered in the pending-review
    map again. *)
Lemma rehydration_counterexample :
  let '(m1, w1) :=
    Dashboard.reject_email Scenario.skipped_unreachable 8
      Scenario.parked_memory Scenario.parked_world in
  let '(m2, w2) :=
    Dashboard.process_emails (Scenario.local_model Scenario.vendor_reply)
      Scenario.cfg Scenario.no_faults m1 w1 in
  Scenario.uids (Dashboard.folder w1 "Review") = [8%Z] /\
  map (fun r => (EmailStatus.uid r, EmailStatus.status r,
                 EmailStatus.needs_review r))
      (Dashboard.emails_data m2) = [(8%Z, "Skipped", false)] /\
  is_Some (Dashboard.pending_reviews m2 !! 8%Z) /\
  ~ exists r,
      In r (Dashboard.emails_data m2) /\
      EmailStatus.uid r = 8%Z /\
      EmailStatus.status r = "Review" /\
      EmailStatus.needs_review r = true.
Proof.
  destruct (Dashboard.reject_email _ _ _ _) as [m1 w1] eqn:E1.
  vm_compute in E1. injection E1 as <- <-.
  destruct (Dashboard.process_emails _ _ _ _ _) as [m2 w2] eqn:E2.
  vm_compute in E2. injection E2 as <- <-.
  split; [vm_compute; reflexivity|].
  split; [vm_compute; reflexivity|].
  split; [vm_compute; eexists; reflexivity|].
  intros (r & [<- | []] & _ & Hs & _). vm_compute in Hs. discriminate.
Qed.

End RehydrationExample.

(** * Normalization of the confidence by the local-model adapter *)

Section Normalization.

Lemma ltb_leb (a b : float) :
  PrimFloat.ltb a b = true -> PrimFloat.leb a b = true.
Proof.
  rewrite FloatAxioms.ltb_spec, FloatAxioms.leb_spec.
  unfold SFltb, SFleb. now destruct (SFcompare _ _) as [[]|].
Qed.

Lemma clamp_in_unit_interval (x : float) :
  Spec.in_unit_interval (PyFloat.max 0.0 (PyFloat.min 1.0 x)) = true.
Proof.
  unfold PyFloat.max, PyFloat.min, PyFloat.gt, PyFloat.lt, Spec.in_unit_interval.
  destruct (PrimFloat.ltb x 1) eqn:E1.
  - destruct (PrimFloat.ltb 0 x) eqn:E2; [|reflexivity].
    now rewrite (ltb_leb _ _ E1), (ltb_leb _ _ E2).
  - reflexivity.
Qed.

Lemma SFcompare_refl_or_nan (x : spec_float) :
  SFcompare x x = Some Eq \/ x = S754_nan.
Proof.
  destruct x as [s|s| |s m e]; simpl; auto.
  - left. now destruct s.
  - left. rewrite Z.compare_refl, Pos.compare_cont_refl. now destruct s.
Qed.

Lemma SFcompare_not_lt (x y : spec_float) :
  SFltb x y = false ->
  x = S754_nan \/ y = S754_nan \/ SFleb y x = true.
Proof.
  unfold SFltb, SFleb.
  destruct x as [sx|sx| |sx mx ex], y as [sy|sy| |sy my ey]; simpl; auto;
    try (destruct sx; simpl; auto; fail);
    try (destruct sy; simpl; auto; fail);
    try (destruct sx, sy; simpl; auto; fail).
  rewrite (Z.compare_antisym ex ey).
  rewrite !Pos.compare_cont_spec. simpl Pos.switch_Eq.
  rewrite (Pos.compare_antisym mx my).
  destruct sx, sy; simpl; auto;
    destruct (ex ?= ey)%Z; simpl; auto;
    destruct (mx ?= my)%positive; simpl; auto; discriminate.
Qed.

Lemma is_nan_spec (x : float) :
  Prim2SF x = S754_nan -> PrimFloat.is_nan x = true.
Proof.
  intros Hx. unfold PrimFloat.is_nan. rewrite FloatAxioms.eqb_spec, Hx.
  reflexivity.
Qed.

Lemma not_lt_cases (a b : float) :
  PrimFloat.ltb a b = false ->
  PrimFloat.is_nan a = true \/ PrimFloat.is_nan b = true \/
  PrimFloat.leb b a = true.
Proof.
  rewrite FloatAxioms.ltb_spec, FloatAxioms.leb_spec. intros H.
  destruct (SFcompare_not_lt _ _ H) as [Ha|[Hb|Hle]].
  - left. now apply is_nan_spec.
  - right; left. now apply is_nan_spec.
  - now right; right.
Qed.

(** What the numeric branch returns: a value of the unit interval, or NaN. *)
Lemma numeric_branch_range (x : float) :
  let r := OllamaAnalyzer._normalize_confidence (JFloat x) in
  PrimFloat.is_nan r = true \/ Spec.in_unit_interval r = true.
Proof.
  simpl. unfold PyFloat.gt, PyFloat.lt, Spec.in_unit_interval.
  set (y := if PrimFloat.ltb 1 x then PrimFloat.div x 100 else x).
  destruct (PrimFloat.ltb y 0) eqn:E1; [now right|].
  destruct (PrimFloat.ltb 1 y) eqn:E2; [now right|].
  destruct (not_lt_cases _ _ E1) as [H|[H|H]]; [now left | discriminate |].
  destruct (not_lt_cases _ _ E2) as [H'|[H'|H']]; [discriminate | now left |].
  right. now rewrite H, H'.
Qed.

(** The string branch always returns a value of the unit interval. *)
Lemma string_branch_range (s : string) :
  Spec.in_unit_interval (OllamaAnalyzer._normalize_confidence (JStr s)) = true.
Proof.
  simpl. destruct (PyFloat.of_str _); [|reflexivity].
  apply clamp_in_unit_interval.
Qed.

End Normalization.

(** * Further properties of the rule matcher and the decision engine *)

Section RuleProperties.

Lemma lower_char_idem (c : ascii) :
  PyStr.lower_char (PyStr.lower_char c) = PyStr.lower_char c.
Proof. destruct c as [[] [] [] [] [] [] [] []]; reflexivity. Qed.

Lemma lower_idem (s : string) : PyStr.lower (PyStr.lower s) = PyStr.lower s.
Proof.
  induction s as [|c s IH]; simpl; [reflexivity|].
  now rewrite lower_char_idem, IH.
Qed.

Lemma star_lower_char (c : ascii) :
  Ascii.eqb "*" (PyStr.lower_char c) = Ascii.eqb "*" c.
Proof. destruct c as [[] [] [] [] [] [] [] []]; reflexivity. Qed.

Lemma without_stars_lower (s : string) :
  Spec.without_stars (PyStr.lower s) = PyStr.lower (Spec.without_stars s).
Proof.
  induction s as [|c s IH]; simpl; [reflexivity|].
  rewrite star_lower_char. destruct (Ascii.eqb "*" c); simpl; now rewrite IH.
Qed.

Lemma any_keyword_lower (kws : list string) (text : string) :
  Rule.any_keyword (map PyStr.lower kws) text = Rule.any_keyword kws text.
Proof.
  unfold Rule.any_keyword. induction kws as [|k kws IH]; simpl; [reflexivity|].
  now rewrite lower_idem, IH.
Qed.

(** X1. Rule matching ignores the case of ASCII letters on both sides: a
    rule with its patterns in lower case decides a message with sender,
    subject and body in lower case exactly as the rule decides the
    message. *)
Theorem matches_ignores_case (r : Rule.t) (e : Email.t) :
  Rule.matches (Props.lower_rule r) (Email.to_dict (Props.lower_mail e))
  = Rule.matches r (Email.to_dict e).
Proof.
  rewrite !matches_conjunction. f_equal; [f_equal|].
  - rewrite !from_ok_without_stars.
    destruct r as [n [p|] ms mk fw]; simpl; [|reflexivity].
    rewrite without_stars_lower, !lower_idem.
    f_equal. now destruct p as [|c p].
  - unfold Rule.subject_ok. rewrite !to_dict_subject.
    destruct r as [n mf [[|k ks]|] mk fw];
      cbn [Props.lower_rule Rule.match_subject option_map map Email.subject
           Props.lower_mail]; try reflexivity.
    change (PyStr.lower k :: map PyStr.lower ks)
      with (map PyStr.lower (k :: ks)).
    now rewrite any_keyword_lower, lower_idem.
  - unfold Rule.keywords_ok. rewrite !to_dict_subject, !to_dict_body.
    destruct r as [n mf ms [[|k ks]|] fw];
      cbn [Props.lower_rule Rule.match_keywords option_map map Email.subject
           Email.body Props.lower_mail]; try reflexivity.
    change (PyStr.lower k :: map PyStr.lower ks)
      with (map PyStr.lower (k :: ks)).
    now rewrite any_keyword_lower, !lower_idem.
Qed.

Lemma first_match_app (before : list Rule.t) (r : Rule.t)
    (after : list Rule.t) (ed : gmap string string) :
  Rule.matches r ed = true ->
  Router.first_match (before ++ r :: after) ed
  = match Router.first_match before ed with
    | Some x => Some x
    | None => Some r
    end.
Proof.
  intros Hr. induction before as [|b before IH]; simpl.
  - now rewrite Hr.
  - destruct (Rule.matches b ed); [reflexivity | exact IH].
Qed.

(** X2. Rules that follow a matching rule have no influence: if [r] matches
    the message, the decision is the same whatever rules are listed after
    [r]. *)
Theorem later_rules_are_shadowed `{PyRuntime} (before : list Rule.t)
    (r : Rule.t) (after after' : list Rule.t) (default_action : string)
    (an : option Router.analyzer) (e : Email.t) :
  Rule.matches r (Email.to_dict e) = true ->
  Router.decide (Router.mk (before ++ r :: after) default_action an) e
  = Router.decide (Router.mk (before ++ r :: after') default_action an) e.
Proof.
  intros Hr. unfold Router.decide. simpl.
  now rewrite !(first_match_app before r _ _ Hr).
Qed.

Lemma startswith_app (a b k : string) :
  PyStr.startswith a k = true -> PyStr.startswith (a ++ b) k = true.
Proof.
  revert a. induction k as [|x k IH]; intros a Ha.
  - apply startswith_nil.
  - destruct a as [|y a]; [discriminate|]. simpl in *.
    apply andb_true_iff in Ha as [Hxy Ha]. now rewrite Hxy, (IH a Ha).
Qed.

Lemma contains_app_r (k a b : string) :
  PyStr.contains k a = true -> PyStr.contains k (a ++ b) = true.
Proof.
  induction a as [|x a IH]; intros Ha.
  - simpl in Ha. rewrite orb_false_r in Ha. destruct k; [|discriminate].
    destruct b; reflexivity.
  - simpl in Ha. apply orb_true_iff in Ha as [Ha|Ha].
    + change (String x a ++ b) with (String x (a ++ b)) in *.
      pose proof (startswith_app (String x a) b k Ha) as Hs.
      destruct k as [|y k]; [now destruct b|].
      simpl in Hs |- *. now rewrite Hs.
    + simpl. rewrite (IH Ha). apply orb_true_r.
Qed.

Lemma any_keyword_app_r (kws : list string) (a b : string) :
  Rule.any_keyword kws a = true -> Rule.any_keyword kws (a ++ b) = true.
Proof.
  rewrite !any_keyword_spec. intros (kw & Hin & Hc).
  exists kw. split; [assumption | now apply contains_app_r].
Qed.

(** X3. A keyword found in the subject is also found in subject-plus-body:
    if a rule with a subject keyword list matches, the rule that has the
    same list as combined keywords instead matches too. *)
Theorem subject_keywords_match_as_keywords (name : string)
    (from : option string) (kws : list string) (fwd : string) (e : Email.t) :
  Rule.matches (Rule.mk name from (Some kws) None fwd) (Email.to_dict e) = true ->
  Rule.matches (Rule.mk name from None (Some kws) fwd) (Email.to_dict e) = true.
Proof.
  rewrite !matches_conjunction.
  unfold Rule.from_ok, Rule.subject_ok, Rule.keywords_ok.
  cbn [Rule.match_from Rule.match_subject Rule.match_keywords].
  rewrite !to_dict_subject, !to_dict_body, ?andb_true_r.
  intros H. apply andb_true_iff in H as [Hf Hs]. rewrite Hf. cbn [andb].
  destruct kws as [|k ks]; [reflexivity|].
  now apply any_keyword_app_r.
Qed.

(** X4. Whatever the rules, the analyzer and the default action, a decision
    of [Router.decide] with should-forward set has a non-empty primary
    destination, which heads the list of all destinations; a decision that
    names a rule carries no analysis result; and a decision with neither a
    rule nor an analysis result forwards nowhere. *)
Theorem decide_never_forwards_to_nothing `{PyRuntime}
    (router : Router.t) (e : Email.t) :
  let d := Router.decide router e in
  (RoutingDecision.should_forward d = true ->
   RoutingDecision.forward_to d <> "" /\
   RoutingDecision.all_destinations d
   = RoutingDecision.forward_to d :: RoutingDecision.additional_destinations d) /\
  (RoutingDecision.matched_rule d <> None ->
   RoutingDecision.ai_result d = None) /\
  (RoutingDecision.matched_rule d = None ->
   RoutingDecision.ai_result d = None ->
   RoutingDecision.should_forward d = false /\
   RoutingDecision.forward_to d = "" /\
   RoutingDecision.all_destinations d = []).
Proof.
  unfold Router.decide.
  destruct (Router.first_match _ _) as [rule|].
  - simpl. split; [|split; [reflexivity | discriminate]].
    intros Hf. unfold RoutingDecision.all_destinations. simpl. rewrite Hf.
    split; [now apply truthy_nonempty | reflexivity].
  - destruct (Router._analyzer router) as [a|];
      [destruct (Router.ai_actions _)|]; simpl;
      try (split; [discriminate | split; [congruence | now repeat split]]).
    split; [|split; [congruence | discriminate]].
    intros Hf. apply andb_true_iff in Hf as [Hf _].
    unfold RoutingDecision.all_destinations. simpl. rewrite Hf.
    split; [now apply truthy_nonempty | reflexivity].
Qed.

Lemma decide_rule_has_no_analysis `{PyRuntime} (router : Router.t)
    (e : Email.t) :
  RoutingDecision.matched_rule (Router.decide router e) <> None ->
  RoutingDecision.ai_result (Router.decide router e) = None.
Proof.
  unfold Router.decide.
  destruct (Router.first_match _ _) as [rule|]; [reflexivity|].
  destruct (Router._analyzer router) as [a|];
    [destruct (Router.ai_actions _)|]; simpl; congruence.
Qed.

End RuleProperties.

Section RulePropertiesExamples.

#[local] Existing Instance Scenario.runtime.

(** A catch-all rule in front of a rule for the same sender. *)
Lemma later_rules_are_shadowed_witness :
  Router.decide
    (Router.mk
       [Rule.mk "all" None None None "inbox@mail.local";
        Rule.mk "boss" (Some "boss@") None None "ceo@mail.local"]
       "analyze" None)
    (Scenario.mail 1 "boss@company.com" "Report")
  = Router.decide
      (Router.mk [Rule.mk "all" None None None "inbox@mail.local"]
         "analyze" None)
      (Scenario.mail 1 "boss@company.com" "Report").
Proof.
  apply (later_rules_are_shadowed []
           (Rule.mk "all" None None None "inbox@mail.local")
           [Rule.mk "boss" (Some "boss@") None None "ceo@mail.local"] []).
  reflexivity.
Defined.

Lemma subject_keywords_match_as_keywords_witness :
  Rule.matches
    (Rule.mk "reports" None None (Some ["report"]) "ceo@mail.local")
    (Email.to_dict (Scenario.mail 1 "boss@company.com" "Q4 Report"))
  = true.
Proof.
  apply subject_keywords_match_as_keywords. vm_compute. reflexivity.
Defined.

End RulePropertiesExamples.

(** * Further properties of the local-model adapter *)

Section LocalAdapter.

Context `{PyRuntime}.

Lemma attempts_skip_failures (self : OllamaAnalyzer.t) (prompt : string)
    (n m : nat) :
  forall (k : nat) (last_err : option string) (last_raw : string),
    (forall j, (k <= j < k + n)%nat ->
               exists e, Spec.attempt_fails self prompt j e) ->
    exists (err : option string) (raw : string),
      OllamaAnalyzer.attempts self prompt (n + m) k last_err last_raw
      = OllamaAnalyzer.attempts self prompt m (k + n) err raw.
Proof.
  induction n as [|n IH]; intros k last_err last_raw Hall.
  - exists last_err, last_raw. now replace (k + 0)%nat with k by lia.
  - destruct (Hall k ltac:(lia)) as [e He].
    destruct (attempt_once_fails self prompt k e last_raw He) as [raw Hraw].
    destruct (IH (S k) (Some e) raw) as (err & raw' & Heq).
    { intros j Hj. apply Hall. lia. }
    exists err, raw'. simpl. rewrite Hraw, Heq.
    now replace (S k + n)%nat with (k + S n)%nat by lia.
Qed.

(** X5. The retry loop stops at the first attempt that succeeds: if the
    attempts before attempt [k] fail, [k] is within the retry budget, and
    attempt [k] gets a non-empty reply body that parses, then [analyze]
    returns that parsed result with the reply body as raw response. *)
Theorem analyze_returns_first_success (self : OllamaAnalyzer.t)
    (email_data : gmap string string) (k : nat) (result : json)
    (raw : string) (parsed : AnalysisResult.t) :
  let prompt := OllamaAnalyzer.user_prompt email_data in
  (Z.of_nat k <= OllamaAnalyzer.max_retries self)%Z ->
  (forall j, (j < k)%nat -> exists e, Spec.attempt_fails self prompt j e) ->
  OllamaAnalyzer._call_ollama self k prompt = Ret result ->
  OllamaAnalyzer.reply_text result "response" = Ret raw ->
  raw <> "" ->
  OllamaAnalyzer._parse_response raw = Ret parsed ->
  OllamaAnalyzer.analyze self email_data
  = AnalysisResult.set_raw_response parsed raw.
Proof.
  intros prompt Hk Hfail Hcall Hreply Hne Hparse.
  unfold OllamaAnalyzer.analyze. fold prompt.
  replace (Z.to_nat (OllamaAnalyzer.max_retries self + 1))
    with (k + S (Z.to_nat (OllamaAnalyzer.max_retries self) - k))%nat by lia.
  destruct (attempts_skip_failures self prompt k
              (S (Z.to_nat (OllamaAnalyzer.max_retries self) - k)) 0 None "")
    as (err & raw' & ->).
  { intros j Hj. apply Hfail. lia. }
  simpl. unfold OllamaAnalyzer.attempt_once.
  rewrite Hcall, Hreply.
  destruct raw as [|c raw]; [congruence|]. simpl.
  now rewrite Hparse.
Qed.

Lemma strip_nonspace_head (c : ascii) (t : string) :
  PyStr.isspace c = false -> PyStr.strip (String c t) <> "".
Proof.
  intros Hc. unfold PyStr.strip. simpl PyStr.lstrip. rewrite Hc.
  now rewrite (rstrip_cons_nonspace c t Hc).
Qed.

Lemma or_default_nonempty (s d : string) :
  d <> "" -> (if PyStr.truthy s then s else d) <> "".
Proof. intros Hd. now destruct s. Qed.

Lemma nan_or_unit_zero :
  PrimFloat.is_nan 0.0 = true \/ Spec.in_unit_interval 0.0 = true.
Proof. now right. Qed.

Lemma normalize_confidence_range (v : json) :
  let r := OllamaAnalyzer._normalize_confidence v in
  PrimFloat.is_nan r = true \/ Spec.in_unit_interval r = true.
Proof.
  destruct v as [|b|n|x|s|l|d]; try exact nan_or_unit_zero.
  - destruct b; now right.
  - cbv zeta. unfold OllamaAnalyzer._normalize_confidence.
    destruct (PyFloat.of_int n) as [x|e]; [|exact nan_or_unit_zero].
    exact (numeric_branch_range x).
  - exact (numeric_branch_range x).
  - right. exact (string_branch_range s).
Qed.

Lemma parse_response_well_formed (text : string) (r : AnalysisResult.t) :
  OllamaAnalyzer._parse_response text = Ret r -> Props.well_formed r.
Proof.
  unfold OllamaAnalyzer._parse_response.
  destruct (OllamaAnalyzer._extract_json_object text) as [data|e];
    [|discriminate].
  change (mbind ?f (Ret data)) with (f data). cbv beta.
  destruct data as [| | | | | |data]; try discriminate.
  cbv zeta.
  pose proof (normalize_confidence_range
                (Json.get_default "confidence" (JFloat 0.0) data)) as Hc.
  cbv zeta in Hc.
  set (conf := OllamaAnalyzer._normalize_confidence _) in *.
  set (reason := match _ : list json with [] => _ | _ => _ end).
  set (fwd := match Json.get_default "forward_to" JNull data with
              | JNull => _ | _ => _ end).
  set (action := PyStr.lower _).
  set (category := PyStr.lower _).
  destruct (String.eqb action "spam").
  { intros [= <-]. split; [reflexivity|]. split; [|exact Hc].
    cbn [AnalysisResult.reasoning].
    destruct (PyStr.truthy reason); [|discriminate].
    now apply strip_nonspace_head. }
  destruct (String.eqb action "forward" && PyStr.truthy fwd).
  { intros [= <-]. split; [reflexivity|]. split; [|exact Hc].
    now apply or_default_nonempty. }
  destruct (String.eqb action "no_forward").
  { intros [= <-]. split; [reflexivity|]. split; [|exact Hc].
    now apply or_default_nonempty. }
  destruct (String.eqb action "needs_review"
            || String.eqb action "needs-review").
  { intros [= <-]. split; [reflexivity|]. split; [|exact Hc].
    now apply or_default_nonempty. }
  intros [= <-]. split; [reflexivity|]. split; [discriminate|].
  exact nan_or_unit_zero.
Qed.

Lemma attempt_once_well_formed (self : OllamaAnalyzer.t) (prompt : string)
    (k : nat) (last_raw raw : string) (r : AnalysisResult.t) :
  OllamaAnalyzer.attempt_once self prompt k last_raw = (Ret r, raw) ->
  Props.well_formed r.
Proof.
  unfold OllamaAnalyzer.attempt_once.
  destruct (OllamaAnalyzer._call_ollama self k prompt) as [result|e];
    [|discriminate].
  destruct (OllamaAnalyzer.reply_text result "response") as [raw0|e];
    [|discriminate].
  destruct (if negb (PyStr.truthy raw0)
               && OllamaAnalyzer.debug_accept_thinking_field self
            then OllamaAnalyzer.reply_text result "thinking"
            else Ret raw0) as [raw1|e]; [|discriminate].
  destruct (negb (PyStr.truthy raw1)); [discriminate|].
  destruct (OllamaAnalyzer._parse_response raw1) as [parsed|e] eqn:Hp;
    [|discriminate].
  intros [= <- _]. apply parse_response_well_formed in Hp.
  exact Hp.
Qed.

Lemma attempts_well_formed (self : OllamaAnalyzer.t) (prompt : string)
    (todo : nat) :
  forall (k : nat) (last_err : option string) (last_raw : string),
    Props.well_formed
      (OllamaAnalyzer.attempts self prompt todo k last_err last_raw).
Proof.
  induction todo as [|todo IH]; intros k last_err last_raw.
  - split; [reflexivity|]. split; [discriminate | exact nan_or_unit_zero].
  - simpl.
    destruct (OllamaAnalyzer.attempt_once self prompt k last_raw)
      as [[r|e] raw] eqn:Ha.
    + exact (attempt_once_well_formed self prompt k last_raw raw r Ha).
    + apply IH.
Qed.

(** X6. Whatever the backend answers, on whichever attempt, the result of
    [analyze] has no additional destinations, a non-empty reasoning text,
    and a confidence that lies in [0.0, 1.0] or is NaN. *)
Theorem analyze_result_is_well_formed (self : OllamaAnalyzer.t)
    (email_data : gmap string string) :
  Props.well_formed (OllamaAnalyzer.analyze self email_data).
Proof. apply attempts_well_formed. Qed.

Lemma nan_not_ge (x y : float) :
  PrimFloat.is_nan x = true -> PyFloat.ge x y = false.
Proof.
  unfold PrimFloat.is_nan, PyFloat.ge. intros Hn.
  rewrite FloatAxioms.eqb_spec in Hn. rewrite FloatAxioms.leb_spec.
  unfold SFeqb in Hn. unfold SFleb.
  destruct (SFcompare_refl_or_nan (Prim2SF x)) as [E | E].
  - now rewrite E in Hn.
  - rewrite E. now destruct (Prim2SF y).
Qed.

(** X7. With the local adapter attached, a message that no rule matches is
    flagged for forwarding only on a confidence between 0.7 and 1.0 (never
    on NaN), and then it has exactly one destination, the non-empty one of
    the analysis result. *)
Theorem local_forwarding_needs_confidence (rules : list Rule.t)
    (default_action : string) (o : OllamaAnalyzer.t) (e : Email.t) :
  let d := Router.decide
             (Router.mk rules default_action (Some (Router.Ollama o))) e in
  RoutingDecision.matched_rule d = None ->
  RoutingDecision.should_forward d = true ->
  exists r,
    RoutingDecision.ai_result d = Some r /\
    r = OllamaAnalyzer.analyze o (Email.to_dict e) /\
    PrimFloat.leb 0.7 (AnalysisResult.confidence r) = true /\
    PrimFloat.leb (AnalysisResult.confidence r) 1.0 = true /\
    AnalysisResult.forward_to r <> "" /\
    RoutingDecision.all_destinations d = [AnalysisResult.forward_to r].
Proof.
  unfold Router.decide. cbn [Router.rules Router._analyzer Router.default_action].
  destruct (Router.first_match _ _) as [rule|]; [discriminate|].
  destruct (Router.ai_actions default_action); [|discriminate].
  cbn [Router.analyze]. cbv zeta.
  set (r := OllamaAnalyzer.analyze o (Email.to_dict e)).
  assert (Hwf : Props.well_formed r) by apply attempts_well_formed.
  destruct Hwf as (Hadd & _ & Hconf).
  unfold RoutingDecision.all_destinations.
  cbn [RoutingDecision.matched_rule RoutingDecision.should_forward
       RoutingDecision.ai_result RoutingDecision.forward_to
       RoutingDecision.additional_destinations].
  intros _ Hf. apply andb_true_iff in Hf as [Hfwd Hge].
  exists r. split; [reflexivity|]. split; [reflexivity|].
  split; [exact Hge|]. split.
  - destruct Hconf as [Hnan | Hunit].
    + rewrite (nan_not_ge _ 0.7 Hnan) in Hge. discriminate.
    + unfold Spec.in_unit_interval in Hunit.
      now apply andb_true_iff in Hunit as [_ Hle].
  - split; [now apply truthy_nonempty|].
    rewrite Hfwd, Hadd. reflexivity.
Qed.

Lemma lstrip_seq_absent (fuel : nat) (p s : string) :
  PyStr.startswith s p = false -> PyStr.lstrip_seq fuel p s = s.
Proof.
  intros Hs. destruct fuel as [|k]; [reflexivity|]. simpl.
  destruct p; [reflexivity|]. now rewrite Hs.
Qed.

Lemma replace_absent (old new s : string) :
  PyStr.contains old s = false -> PyStr.replace old new s = s.
Proof.
  unfold PyStr.replace. destruct old as [|o old]; [reflexivity|].
  induction s as [|c s IH]; [reflexivity|].
  intros Hc.
  change (PyStr.contains (String o old) (String c s))
    with (PyStr.startswith (String c s) (String o old)
          || PyStr.contains (String o old) s) in Hc.
  apply orb_false_iff in Hc as [Hs Hc].
  change (PyStr.replace_from (String o old) new 0 (String c s))
    with (if PyStr.startswith (String c s) (String o old)
          then new ++ PyStr.replace_from (String o old) new
                        (String.length (String o old) - 1) s
          else String c (PyStr.replace_from (String o old) new 0 s)).
  now rewrite Hs, (IH Hc).
Qed.

Lemma drop_trailing_commas_clean (fuel : nat) :
  forall s, Props.comma_closer_free s = true ->
            OllamaAnalyzer.drop_trailing_commas fuel s = s.
Proof.
  induction fuel as [|k IH]; intros s Hs; [reflexivity|].
  destruct s as [|c t]; [reflexivity|].
  cbn [Props.comma_closer_free] in Hs.
  apply andb_true_iff in Hs as [Hc Ht].
  cbn [OllamaAnalyzer.drop_trailing_commas].
  destruct (Ascii.eqb c ",").
  - destruct (OllamaAnalyzer.ws_closer t) as [w|] eqn:Hw.
    + exfalso. cbn [andb] in Hc.
      rewrite bool_decide_eq_true_2 in Hc; [discriminate | now eexists].
    + now rewrite (IH t Ht).
  - now rewrite (IH t Ht).
Qed.

(** X8. The sanitizer leaves a text as it is when the text does not start
    with a byte-order mark, holds no curly quotation mark or apostrophe, and
    has no comma that is followed (after optional white space) by a closing
    brace or bracket. *)
Theorem sanitizer_keeps_clean_text (s : string) :
  Props.sanitizer_clean s = true ->
  OllamaAnalyzer._sanitize_common_json_issues s = s.
Proof.
  unfold Props.sanitizer_clean. intros Hs.
  repeat (apply andb_true_iff in Hs as [Hs ?]).
  repeat match goal with
         | Hn : negb _ = true |- _ => apply negb_true_iff in Hn
         end.
  unfold OllamaAnalyzer._sanitize_common_json_issues. cbv zeta.
  rewrite (lstrip_seq_absent _ _ _ Hs).
  rewrite (replace_absent OllamaAnalyzer.left_smart_quote) by assumption.
  rewrite (replace_absent OllamaAnalyzer.right_smart_quote) by assumption.
  rewrite (replace_absent OllamaAnalyzer.smart_apostrophe) by assumption.
  now apply drop_trailing_commas_clean.
Qed.

Lemma contains_byte (b c : ascii) (t : string) :
  PyStr.contains (String b "") (String c t)
  = Ascii.eqb b c || PyStr.contains (String b "") t.
Proof.
  cbn [PyStr.contains PyStr.startswith].
  now rewrite startswith_nil, andb_true_r.
Qed.

Lemma contains_byte_lstrip (b : ascii) (s : string) :
  PyStr.contains (String b "") s = false ->
  PyStr.contains (String b "") (PyStr.lstrip s) = false.
Proof.
  induction s as [|c s IH]; [easy|]. intros Hc.
  cbn [PyStr.lstrip]. destruct (PyStr.isspace c); [|exact Hc].
  rewrite contains_byte in Hc. apply orb_false_iff in Hc as [_ Hc].
  exact (IH Hc).
Qed.

Lemma contains_byte_rstrip (b : ascii) (s : string) :
  PyStr.contains (String b "") s = false ->
  PyStr.contains (String b "") (PyStr.rstrip s) = false.
Proof.
  induction s as [|c s IH]; [easy|]. intros Hc.
  rewrite contains_byte in Hc. apply orb_false_iff in Hc as [Hb Hc].
  specialize (IH Hc). cbn [PyStr.rstrip].
  destruct (PyStr.rstrip s) as [|x r].
  - destruct (PyStr.isspace c); [reflexivity|].
    rewrite contains_byte, Hb. reflexivity.
  - rewrite contains_byte, Hb. exact IH.
Qed.

Lemma contains_byte_strip (b : ascii) (s : string) :
  PyStr.contains (String b "") s = false ->
  PyStr.contains (String b "") (PyStr.strip s) = false.
Proof.
  intros Hc. unfold PyStr.strip.
  now apply contains_byte_rstrip, contains_byte_lstrip.
Qed.

Lemma from_first_open_absent (s : string) :
  PyStr.contains "{" s = false -> OllamaAnalyzer.from_first_open s = None.
Proof.
  induction s as [|c s IH]; [reflexivity|]. intros Hc.
  rewrite contains_byte in Hc. apply orb_false_iff in Hc as [Hb Hc].
  cbn [OllamaAnalyzer.from_first_open].
  rewrite Ascii.eqb_sym, Hb. exact (IH Hc).
Qed.

Lemma from_first_open_suffix (s t : string) :
  OllamaAnalyzer.from_first_open s = Some t ->
  PyStr.contains "}" s = false -> PyStr.contains "}" t = false.
Proof.
  induction s as [|c s IH]; [discriminate|].
  cbn [OllamaAnalyzer.from_first_open]. intros Hs Hc.
  rewrite contains_byte in Hc. apply orb_false_iff in Hc as [_ Hc].
  destruct (Ascii.eqb c "{"); [now injection Hs as <- | exact (IH Hs Hc)].
Qed.

Lemma through_last_close_absent (s : string) :
  PyStr.contains "}" s = false -> OllamaAnalyzer.through_last_close s = None.
Proof.
  induction s as [|c s IH]; [reflexivity|]. intros Hc.
  rewrite contains_byte in Hc. apply orb_false_iff in Hc as [Hb Hc].
  cbn [OllamaAnalyzer.through_last_close].
  rewrite (IH Hc), Ascii.eqb_sym, Hb. reflexivity.
Qed.

Lemma startswith_byte_absent (b : ascii) (s : string) :
  PyStr.contains (String b "") s = false ->
  PyStr.startswith s (String b "") = false.
Proof.
  destruct s as [|c s]; [reflexivity|]. intros Hc.
  rewrite contains_byte in Hc. apply orb_false_iff in Hc as [Hb _].
  cbn [PyStr.startswith]. now rewrite Hb.
Qed.

Lemma rev_onto_contains (b : ascii) (s acc : string) :
  PyStr.contains (String b "") s = false ->
  PyStr.contains (String b "") acc = false ->
  PyStr.contains (String b "") (PyStr.rev_onto s acc) = false.
Proof.
  revert acc. induction s as [|c s IH]; intros acc Hs Hacc; [exact Hacc|].
  rewrite contains_byte in Hs. apply orb_false_iff in Hs as [Hb Hs].
  cbn [PyStr.rev_onto]. apply IH; [exact Hs|].
  rewrite contains_byte, Hb. exact Hacc.
Qed.

Lemma endswith_byte_absent (b : ascii) (s : string) :
  PyStr.contains (String b "") s = false ->
  PyStr.endswith s (String b "") = false.
Proof.
  intros Hc. unfold PyStr.endswith.
  change (PyStr.rev (String b "")) with (String b "").
  apply startswith_byte_absent. unfold PyStr.rev.
  now apply rev_onto_contains.
Qed.

(** X9. A reply text without an opening brace, or without a closing brace,
    never yields an object: [_extract_json_object] raises "No JSON found in
    response" on it, whatever else the text holds. *)
Theorem extraction_needs_both_braces (text : string) :
  PyStr.contains "{" text = false \/ PyStr.contains "}" text = false ->
  OllamaAnalyzer._extract_json_object text
  = Raise "No JSON found in response".
Proof.
  intros Hb. unfold OllamaAnalyzer._extract_json_object. cbv zeta.
  assert (Hs : PyStr.contains "{" (PyStr.strip text) = false \/
               PyStr.contains "}" (PyStr.strip text) = false).
  { destruct Hb as [Hb|Hb]; [left|right]; now apply contains_byte_strip. }
  clear Hb. set (s := PyStr.strip text) in *.
  assert (Hfast : PyStr.startswith s "{" && PyStr.endswith s "}" = false).
  { destruct Hs as [Hs|Hs].
    - now rewrite (startswith_byte_absent _ _ Hs).
    - rewrite (endswith_byte_absent _ _ Hs). apply andb_false_r. }
  rewrite Hfast. unfold OllamaAnalyzer.search_braces.
  destruct Hs as [Hs|Hs].
  - now rewrite (from_first_open_absent _ Hs).
  - destruct (OllamaAnalyzer.from_first_open s) as [t|] eqn:Ht; [|reflexivity].
    now rewrite (through_last_close_absent _ (from_first_open_suffix _ _ Ht Hs)).
Qed.

End LocalAdapter.

Section LocalAdapterExamples.

#[local] Existing Instance Scenario.runtime.

(** A backend that fails once and then answers the sales reply. *)
Lemma analyze_returns_first_success_witness :
  AnalysisResult.forward_to
    (OllamaAnalyzer.analyze
       (OllamaAnalyzer.mk 2 false
          (fun k _ =>
             match k with
             | O => Raise "connection refused"
             | _ => Ret (JDict [("response", JStr Scenario.sales_reply)])
             end))
       (Email.to_dict Scenario.quote_mail))
  = "sales@mail.local".
Proof.
  rewrite (analyze_returns_first_success _ _ 1
             (JDict [("response", JStr Scenario.sales_reply)])
             Scenario.sales_reply
             (AnalysisResult.mk "sales@mail.local" "sales" 0.75%float
                "quote request" [] "")).
  - reflexivity.
  - simpl. lia.
  - intros j Hj. assert (j = 0%nat) as -> by lia.
    exists "connection refused". now apply Spec.backend_error.
  - reflexivity.
  - vm_compute. reflexivity.
  - discriminate.
  - vm_compute. reflexivity.
Defined.

Lemma local_forwarding_needs_confidence_witness :
  PrimFloat.leb 0.7
    (AnalysisResult.confidence
       (OllamaAnalyzer.analyze (Scenario.local_analyzer Scenario.sales_reply)
          (Email.to_dict Scenario.quote_mail))) = true.
Proof.
  destruct (local_forwarding_needs_confidence [] "analyze"
              (Scenario.local_analyzer Scenario.sales_reply)
              Scenario.quote_mail
              ltac:(vm_compute; reflexivity) ltac:(vm_compute; reflexivity))
    as (r & _ & -> & Hge & _).
  exact Hge.
Defined.

Lemma sanitizer_keeps_clean_text_witness :
  OllamaAnalyzer._sanitize_common_json_issues Scenario.sales_reply
  = Scenario.sales_reply.
Proof.
  apply sanitizer_keeps_clean_text. vm_compute. reflexivity.
Defined.

Lemma extraction_needs_both_braces_witness :
  OllamaAnalyzer._extract_json_object "I cannot classify this message."
  = Raise "No JSON found in response".
Proof.
  apply extraction_needs_both_braces. left. vm_compute. reflexivity.
Defined.

End LocalAdapterExamples.

(** * Further properties of the dashboard *)

Section DashboardProperties.

Context `{PyRuntime}.

Lemma forward_all_spec (f : Dashboard.faults) (email : Email.t)
    (dests : list string) :
  forall w,
    let r := Dashboard.forward_all f email dests w in
    Dashboard.mailbox r.2 = Dashboard.mailbox w /\
    Dashboard.seen r.2 = Dashboard.seen w /\
    if existsb (Dashboard.send_fails f (Email.uid email)) dests
    then (exists e, r.1 = Raise e) /\
         exists sent rest,
           dests = (sent ++ rest)%list /\ rest <> [] /\
           Dashboard.effects r.2
           = (Dashboard.effects w
                ++ map (Dashboard.Forward (Email.uid email)) sent)%list
    else r.1 = Ret r.2 /\
         Dashboard.effects r.2
         = (Dashboard.effects w
              ++ map (Dashboard.Forward (Email.uid email)) dests)%list.
Proof.
  induction dests as [|dest rest IH]; intros w; cbn [Dashboard.forward_all].
  - cbn. now rewrite app_nil_r.
  - unfold Dashboard.forward_email. cbn [existsb].
    destruct (Dashboard.send_fails f (Email.uid email) dest); cbn [orb].
    + cbn. split; [reflexivity|]. split; [reflexivity|].
      split; [now eexists|]. exists [], (dest :: rest).
      cbn. now rewrite app_nil_r.
    + specialize (IH (Dashboard.log (Dashboard.Forward (Email.uid email) dest) w)).
      cbv zeta in IH. destruct IH as (Hmb & Hseen & IH).
      split; [exact Hmb|]. split; [exact Hseen|].
      destruct (existsb _ rest).
      * destruct IH as (Hr & sent & rest' & -> & Hne & Heff).
        split; [exact Hr|]. exists (dest :: sent), rest'.
        split; [reflexivity|]. split; [exact Hne|].
        rewrite Heff. cbn. now rewrite <- app_assoc.
      * destruct IH as (Hr & Heff). split; [exact Hr|].
        rewrite Heff. cbn. now rewrite <- app_assoc.
Qed.

Lemma forward_all_in (f : Dashboard.faults) (email : Email.t)
    (dests : list string) (w : Dashboard.world) (u : Z) (d : string) :
  In (Dashboard.Forward u d)
     (Dashboard.effects (Dashboard.forward_all f email dests w).2) ->
  In (Dashboard.Forward u d) (Dashboard.effects w) \/
  (u = Email.uid email /\ In d dests).
Proof.
  destruct (forward_all_spec f email dests w) as (_ & _ & Hs).
  destruct (existsb _ dests).
  - destruct Hs as (_ & sent & rest & -> & _ & ->). intros Hin.
    apply in_app_or in Hin as [Hin|Hin]; [now left | right].
    apply in_map_iff in Hin as (x & [= <- <-] & Hx).
    split; [reflexivity|]. apply in_or_app. now left.
  - destruct Hs as (_ & ->). intros Hin.
    apply in_app_or in Hin as [Hin|Hin]; [now left | right].
    now apply in_map_iff in Hin as (x & [= <- <-] & Hx).
Qed.

Lemma move_email_effects (f : Dashboard.faults) (uid : Z)
    (dest source : string) (w w' : Dashboard.world) :
  Dashboard.move_email f uid dest source w = Ret w' ->
  Dashboard.effects w'
  = (Dashboard.effects w ++ [Dashboard.Move uid source dest])%list /\
  Dashboard.move_fails f uid dest source = false.
Proof.
  unfold Dashboard.move_email.
  destruct (Dashboard.move_fails f uid dest source); [discriminate|].
  now intros [= <-].
Qed.

Lemma in_forward_snoc (u : Z) (d : string) (l : list Dashboard.effect)
    (ev : Dashboard.effect) :
  (forall u' d', ev <> Dashboard.Forward u' d') ->
  In (Dashboard.Forward u d) (l ++ [ev])%list ->
  In (Dashboard.Forward u d) l.
Proof.
  intros Hev Hin. apply in_app_or in Hin as [Hin|[Hin|[]]]; [exact Hin|].
  now apply Hev in Hin.
Qed.

Ltac case_move Hmv :=
  match goal with
  | |- context [Dashboard.move_email ?a ?b ?c ?d ?e] =>
      destruct (Dashboard.move_email a b c d e) as [?w|?e] eqn:Hmv
  end.

Lemma process_one_forwards (f : Dashboard.faults) (router : Router.t)
    (email : Email.t) (m : Dashboard.memory) (w : Dashboard.world)
    (u : Z) (d : string) :
  In (Dashboard.Forward u d)
     (Dashboard.effects (Dashboard.process_one f router email m w).2) ->
  In (Dashboard.Forward u d) (Dashboard.effects w) \/
  (u = Email.uid email /\
   Dashboard.auto_approve (Router.decide router email) = true /\
   In d (RoutingDecision.all_destinations (Router.decide router email))).
Proof.
  unfold Dashboard.process_one.
  destruct (Dashboard.index_of _ _) as [idx|]; [|now left].
  cbv zeta.
  destruct (Dashboard.auto_approve (Router.decide router email)).
  - pose proof (forward_all_in f email
                  (RoutingDecision.all_destinations (Router.decide router email))
                  w u d) as Hfa.
    destruct (Dashboard.forward_all f email _ w) as [[w1|e1] w2];
      cbn [snd] in Hfa.
    + case_move Hmv; cbn [snd].
      * apply move_email_effects in Hmv as [Hmv _].
        unfold Dashboard.log. cbn [Dashboard.effects]. rewrite Hmv.
        intros Hin. do 2 (apply in_forward_snoc in Hin; [|discriminate]).
        destruct (Hfa Hin) as [Hw|[Hu Hd]]; [now left | now right].
      * intros Hin. destruct (Hfa Hin) as [Hw|[Hu Hd]]; [now left | now right].
    + cbn [snd]. intros Hin.
      destruct (Hfa Hin) as [Hw|[Hu Hd]]; [now left | now right].
  - case_move Hmv; cbn [snd]; [|now left].
    apply move_email_effects in Hmv as [Hmv _]. rewrite Hmv.
    intros Hin. apply in_forward_snoc in Hin; [now left | discriminate].
Qed.

Lemma process_all_forwards (f : Dashboard.faults) (router : Router.t)
    (new_emails : list Email.t) (u : Z) (d : string) :
  forall m w,
    In (Dashboard.Forward u d)
       (Dashboard.effects (Dashboard.process_all f router new_emails m w).2) ->
    In (Dashboard.Forward u d) (Dashboard.effects w) \/
    exists email,
      In email new_emails /\ Email.uid email = u /\
      Dashboard.auto_approve (Router.decide router email) = true /\
      In d (RoutingDecision.all_destinations (Router.decide router email)).
Proof.
  induction new_emails as [|email rest IH]; intros m w; [now left|].
  cbn [Dashboard.process_all].
  pose proof (process_one_forwards f router email m w u d) as Hone.
  destruct (Dashboard.process_one f router email m w) as [[[[]|e] m1] w1];
    cbn [snd] in Hone |- *.
  - intros Hin. destruct (IH m1 w1 Hin) as [Hw|(x & Hx & Hrest)].
    + destruct (Hone Hw) as [Hw0|(Hu & Ha & Hd)]; [now left | right].
      exists email. split; [now left|]. now split.
    + right. exists x. split; [now right | exact Hrest].
  - intros Hin. destruct (Hone Hin) as [Hw0|(Hu & Ha & Hd)]; [now left | right].
    exists email. split; [now left|]. now split.
Qed.

(** X10. A poll sends a message only on an analysis the auto-approve test
    accepts: every forward that [process_emails] adds to the effects is the
    forward of a message of the inbox whose decision carries an analysis
    result with confidence above 0.80 and the should-forward flag, to one of
    the destinations of that decision. In particular a message routed by a
    rule is never sent by the poll. *)
Theorem poll_sends_only_auto_approved (env : Router.backends)
    (cfg : Dashboard.config) (f : Dashboard.faults) (m : Dashboard.memory)
    (w : Dashboard.world) (u : Z) (d : string) :
  let router :=
    Router.init env (Dashboard.rules cfg) (Dashboard.ai_enabled cfg)
      (Dashboard.gemini_api_key cfg) (Dashboard.ollama_model cfg)
      (Dashboard.ai_destinations cfg) (Dashboard.default_action cfg) in
  In (Dashboard.Forward u d)
     (Dashboard.effects (Dashboard.process_emails env cfg f m w).2) ->
  ~ In (Dashboard.Forward u d) (Dashboard.effects w) ->
  exists email a,
    In email (Dashboard.folder w "INBOX") /\ Email.uid email = u /\
    RoutingDecision.matched_rule (Router.decide router email) = None /\
    RoutingDecision.ai_result (Router.decide router email) = Some a /\
    PrimFloat.ltb 0.80 (AnalysisResult.confidence a) = true /\
    RoutingDecision.should_forward (Router.decide router email) = true /\
    In d (RoutingDecision.all_destinations (Router.decide router email)).
Proof.
  intros router. unfold Dashboard.process_emails. fold router.
  destruct (Dashboard.connect_fails f); [now intros Hin Hnot|].
  unfold Dashboard.load_review_folder, Dashboard.fetch_from_folder.
  destruct (Dashboard.rehydrate _ _ m) as [existing_uids m1].
  unfold Dashboard.fetch_unread.
  set (w1 := Dashboard.log (Dashboard.FetchFolder "Review") w).
  set (unread := filter _ (Dashboard.folder w1 "INBOX")).
  set (w2 := Dashboard.Build_world _ _ _).
  assert (Hw2 : forall u d, In (Dashboard.Forward u d) (Dashboard.effects w2) ->
                            In (Dashboard.Forward u d) (Dashboard.effects w)).
  { intros u' d' Hin. cbn in Hin.
    do 2 (apply in_forward_snoc in Hin; [|discriminate]). exact Hin. }
  destruct unread as [|e0 unread0] eqn:Hunread;
    [intros Hin Hnot; now apply Hw2 in Hin|].
  set (new_emails := List.filter _ (e0 :: unread0)).
  assert (Hnew : forall e, In e new_emails -> In e (Dashboard.folder w "INBOX")).
  { intros e He. apply filter_In in He as [He _]. rewrite <- Hunread in He.
    apply list_elem_of_In in He. subst unread.
    apply list_elem_of_filter in He as [_ He]. now apply list_elem_of_In. }
  destruct new_emails as [|n0 new0] eqn:Hnew_eq;
    [intros Hin Hnot; now apply Hw2 in Hin|].
  intros Hin Hnot.
  apply process_all_forwards in Hin as [Hin|(email & He & Hu & Ha & Hd)];
    [now apply Hw2 in Hin|].
  unfold Dashboard.auto_approve in Ha.
  destruct (RoutingDecision.ai_result (Router.decide router email))
    as [a|] eqn:Hai; [|discriminate].
  apply andb_true_iff in Ha as [Hc Hf].
  exists email, a. split; [now apply Hnew|]. split; [exact Hu|].
  split; [|now repeat split].
  pose proof (decide_rule_has_no_analysis router email) as Hrule.
  destruct (RoutingDecision.matched_rule (Router.decide router email));
    [|reflexivity].
  rewrite Hrule in Hai; [discriminate | discriminate].
Qed.

Lemma update_first_uids (uid : Z) (g : EmailStatus.t -> EmailStatus.t)
    (data : list EmailStatus.t) :
  (forall r, EmailStatus.uid (g r) = EmailStatus.uid r) ->
  map EmailStatus.uid (Dashboard.update_first uid g data)
  = map EmailStatus.uid data.
Proof.
  intros Hg. induction data as [|r data IH]; [reflexivity|].
  cbn [Dashboard.update_first].
  destruct (EmailStatus.uid r =? uid)%Z; cbn; [now rewrite Hg | now rewrite IH].
Qed.

Lemma index_of_some (uid : Z) (data : list EmailStatus.t) (i : nat) :
  Dashboard.index_of uid data = Some i -> is_Some (data !! i).
Proof.
  revert i. induction data as [|r data IH]; intros i; [discriminate|].
  cbn [Dashboard.index_of].
  destruct (EmailStatus.uid r =? uid)%Z; [now intros [= <-]|].
  destruct (Dashboard.index_of uid data) as [j|]; [|discriminate].
  intros [= <-]. exact (IH j eq_refl).
Qed.

(** X11. Approving a pending message whose stored decision has the
    should-forward flag and at least one destination, when no send, no
    connection and no move fails: the message is sent to each destination
    in order, then moved from Review to Processed, then the approval is
    logged; the pending entry is gone and the first record of the uid shows
    Forwarded with those destinations. *)
Theorem approve_forwards_then_files (f : Dashboard.faults) (uid : Z)
    (m : Dashboard.memory) (w : Dashboard.world) (review : Dashboard.pending)
    (d : RoutingDecision.t) :
  Dashboard.pending_reviews m !! uid = Some review ->
  Dashboard.p_decision review = Some d ->
  RoutingDecision.should_forward d = true ->
  RoutingDecision.all_destinations d <> [] ->
  Props.approve_blocked f (Dashboard.p_email review) uid
    (RoutingDecision.all_destinations d) = false ->
  let r := Dashboard.approve_email f uid m w in
  Dashboard.effects r.2
  = (Dashboard.effects w
       ++ map (Dashboard.Forward (Email.uid (Dashboard.p_email review)))
            (RoutingDecision.all_destinations d)
       ++ [Dashboard.Move uid "Review" "Processed";
           Dashboard.LogAction uid "approved"
             (RoutingDecision.all_destinations d)])%list /\
  Dashboard.pending_reviews r.1 !! uid = None /\
  (forall i rec,
     Dashboard.index_of uid (Dashboard.emails_data m) = Some i ->
     Dashboard.emails_data m !! i = Some rec ->
     exists rec',
       Dashboard.emails_data r.1 !! i = Some rec' /\
       EmailStatus.status rec' = "Forwarded" /\
       EmailStatus.needs_review rec' = false /\
       EmailStatus.forward_to rec' = RoutingDecision.all_destinations d) /\
  Props.record_uids r.1 = Props.record_uids m.
Proof.
  intros Hp Hd Hsf Hne Hok. unfold Props.approve_blocked in Hok.
  apply orb_false_iff in Hok as [Hok Hmove].
  apply orb_false_iff in Hok as [Hsend Hconn].
  unfold Dashboard.approve_email. rewrite Hp. cbv zeta. rewrite Hd, Hsf.
  pose proof (forward_all_spec f (Dashboard.p_email review)
                (RoutingDecision.all_destinations d) w) as Hfa.
  cbv zeta in Hfa. rewrite Hsend in Hfa.
  destruct Hfa as (_ & _ & Hret & Heff).
  destruct (RoutingDecision.all_destinations d) as [|d0 ds] eqn:Hdests;
    [congruence|].
  cbv beta iota.
  destruct (Dashboard.forward_all f (Dashboard.p_email review) (d0 :: ds) w)
    as [r1 w1]. cbn [fst snd] in Hret, Heff. subst r1.
  rewrite Hconn. unfold Dashboard.move_email. rewrite Hmove.
  cbn [fst snd Dashboard.log Dashboard.effects Dashboard.emails_data
       Dashboard.pending_reviews].
  split; [rewrite Heff; now rewrite <- !app_assoc|].
  split; [apply lookup_delete_eq|].
  split.
  - intros i rec Hi Hrec.
    destruct (update_first_at uid
                (fun e => EmailStatus.set_forward_to (d0 :: ds)
                            (EmailStatus.set_needs_review false
                               (EmailStatus.set_status "Forwarded" e)))
                (Dashboard.emails_data m) i rec Hi Hrec) as [Hupd _].
    eexists. split; [exact Hupd|]. now repeat split.
  - unfold Props.record_uids. cbn [Dashboard.emails_data].
    now apply update_first_uids.
Qed.

(** X12. Under the same conditions on the stored decision, when a send, the
    connection or the move fails, the approval changes nothing in memory:
    the records and the pending entry stay, so the message can be approved
    again; nothing is moved or logged, but the sends made before the failure
    stay made. *)
Theorem approve_failure_keeps_memory (f : Dashboard.faults) (uid : Z)
    (m : Dashboard.memory) (w : Dashboard.world) (review : Dashboard.pending)
    (d : RoutingDecision.t) :
  Dashboard.pending_reviews m !! uid = Some review ->
  Dashboard.p_decision review = Some d ->
  RoutingDecision.should_forward d = true ->
  RoutingDecision.all_destinations d <> [] ->
  Props.approve_blocked f (Dashboard.p_email review) uid
    (RoutingDecision.all_destinations d) = true ->
  let r := Dashboard.approve_email f uid m w in
  r.1 = m /\
  Dashboard.mailbox r.2 = Dashboard.mailbox w /\
  exists sent rest,
    RoutingDecision.all_destinations d = (sent ++ rest)%list /\
    Dashboard.effects r.2
    = (Dashboard.effects w
         ++ map (Dashboard.Forward (Email.uid (Dashboard.p_email review)))
              sent)%list.
Proof.
  intros Hp Hd Hsf Hne Hblocked. unfold Props.approve_blocked in Hblocked.
  unfold Dashboard.approve_email. rewrite Hp. cbv zeta. rewrite Hd, Hsf.
  pose proof (forward_all_spec f (Dashboard.p_email review)
                (RoutingDecision.all_destinations d) w) as Hfa.
  cbv zeta in Hfa. destruct Hfa as (Hmb & _ & Hfa).
  destruct (RoutingDecision.all_destinations d) as [|d0 ds] eqn:Hdests;
    [congruence|].
  cbv beta iota.
  destruct (Dashboard.forward_all f (Dashboard.p_email review) (d0 :: ds) w)
    as [r1 w1]. cbn [fst snd] in Hmb, Hfa.
  destruct (existsb _ (d0 :: ds)).
  - destruct Hfa as ([e ->] & sent & rest & Hsplit & _ & Heff).
    cbn [fst snd]. split; [reflexivity|]. split; [exact Hmb|].
    now exists sent, rest.
  - destruct Hfa as (-> & Heff). cbn [orb] in Hblocked.
    assert (Hall : exists sent rest,
               d0 :: ds = (sent ++ rest)%list /\
               Dashboard.effects w1
               = (Dashboard.effects w
                    ++ map (Dashboard.Forward
                              (Email.uid (Dashboard.p_email review)))
                         sent)%list).
    { exists (d0 :: ds), []. now rewrite app_nil_r. }
    destruct (Dashboard.connect_fails f); [now cbn [fst snd]|].
    cbn [orb] in Hblocked. unfold Dashboard.move_email. rewrite Hblocked.
    now cbn [fst snd].
Qed.


Lemma index_of_app_new (uid : Z) (prefix rest : list EmailStatus.t) :
  ~ In uid (map EmailStatus.uid prefix) ->
  Dashboard.index_of uid (prefix ++ rest)
  = option_map (Nat.add (length prefix)) (Dashboard.index_of uid rest).
Proof.
  induction prefix as [|r prefix IH]; intros Hnot.
  - cbn. now destruct (Dashboard.index_of uid rest).
  - cbn [app Dashboard.index_of length].
    destruct (Z.eqb_spec (EmailStatus.uid r) uid) as [Heq|Hneq].
    + exfalso. apply Hnot. now left.
    + rewrite IH by (intros Hin; apply Hnot; now right).
      now destruct (Dashboard.index_of uid rest).
Qed.

Lemma alter_uids (g : EmailStatus.t -> EmailStatus.t) (i : nat)
    (data : list EmailStatus.t) :
  (forall r, EmailStatus.uid (g r) = EmailStatus.uid r) ->
  map EmailStatus.uid (alter g i data) = map EmailStatus.uid data.
Proof.
  intros Hg. revert i. induction data as [|r data IH]; intros [|i];
    cbn; try reflexivity; [now rewrite Hg | now rewrite IH].
Qed.

Ltac solve_keeps email Hdata Hrest :=
  split;
  [ cbn [Dashboard.emails_data]; rewrite Hdata, ?alter_app_r;
    eexists; split; [reflexivity|];
    rewrite ?alter_uids by (now intros []); exact Hrest
  | cbn [Dashboard.pending_reviews]; intros u0 Hu0;
    try (destruct (decide (u0 = Email.uid email)) as [->|Hne];
         [rewrite lookup_insert_eq; now eexists
         | now rewrite lookup_insert_ne]);
    exact Hu0 ].

Lemma process_one_keeps (f : Dashboard.faults) (router : Router.t)
    (email : Email.t) (m : Dashboard.memory) (w : Dashboard.world)
    (prefix rest : list EmailStatus.t) :
  Dashboard.emails_data m = (prefix ++ rest)%list ->
  ~ In (Email.uid email) (map EmailStatus.uid prefix) ->
  Props.keeps prefix (map EmailStatus.uid rest) m
    (Dashboard.process_one f router email m w).1.2.
Proof.
  intros Hdata Hnot. unfold Dashboard.process_one.
  rewrite Hdata at 1. rewrite (index_of_app_new _ _ _ Hnot).
  assert (Hrest : map EmailStatus.uid rest = map EmailStatus.uid rest)
    by reflexivity.
  destruct (Dashboard.index_of (Email.uid email) rest) as [j|];
    cbn [option_map fst snd];
    [|split; [exists rest; now split | now intros u Hu]].
  cbv zeta.
  destruct (Dashboard.auto_approve (Router.decide router email)).
  - destruct (Dashboard.forward_all f email _ w) as [[w1|e1] w2].
    + case_move Hmv;
        destruct (RoutingDecision.ai_result (Router.decide router email));
        cbn [fst snd]; solve_keeps email Hdata Hrest.
    + destruct (RoutingDecision.ai_result (Router.decide router email));
        cbn [fst snd]; solve_keeps email Hdata Hrest.
  - case_move Hmv;
      destruct (RoutingDecision.ai_result (Router.decide router email));
      cbn [fst snd]; solve_keeps email Hdata Hrest.
Qed.

Lemma process_all_keeps (f : Dashboard.faults) (router : Router.t)
    (prefix : list EmailStatus.t) (new_emails : list Email.t) :
  forall (m : Dashboard.memory) (w : Dashboard.world)
         (rest : list EmailStatus.t),
    Dashboard.emails_data m = (prefix ++ rest)%list ->
    (forall e, In e new_emails ->
               ~ In (Email.uid e) (map EmailStatus.uid prefix)) ->
    Props.keeps prefix (map EmailStatus.uid rest) m
      (Dashboard.process_all f router new_emails m w).1.
Proof.
  induction new_emails as [|email more IH]; intros m w rest Hdata Hnew.
  - cbn. split; [now exists rest | now intros u Hu].
  - cbn [Dashboard.process_all].
    pose proof (process_one_keeps f router email m w prefix rest Hdata
                  (Hnew email ltac:(now left))) as Hone.
    destruct (Dashboard.process_one f router email m w) as [[[[]|e] m1] w1];
      cbn [fst snd] in Hone |- *; [|exact Hone].
    destruct Hone as [(rest1 & Hdata1 & Huids1) Hpend1].
    destruct (IH m1 w1 rest1 Hdata1) as [(rest2 & Hdata2 & Huids2) Hpend2].
    { intros e He. apply Hnew. now right. }
    split; [exists rest2; split; [exact Hdata2 | congruence]|].
    intros u Hu. apply Hpend2, Hpend1, Hu.
Qed.

Lemma rehydrate_step_tracks (e : Email.t) (existing_uids : list Z)
    (m : Dashboard.memory) :
  Spec.tracks existing_uids m ->
  Spec.tracks (Dashboard.rehydrate [e] existing_uids m).1
    (Dashboard.rehydrate [e] existing_uids m).2.
Proof.
  intros Ht. exact (proj1 (rehydrate_spec [e] existing_uids m Ht)).
Qed.

Lemma rehydrate_cons (e : Email.t) (rest : list Email.t)
    (existing_uids : list Z) (m : Dashboard.memory) :
  Dashboard.rehydrate (e :: rest) existing_uids m
  = Dashboard.rehydrate rest (Dashboard.rehydrate [e] existing_uids m).1
      (Dashboard.rehydrate [e] existing_uids m).2.
Proof.
  cbn [Dashboard.rehydrate].
  now destruct (bool_decide (Email.uid e ∈ existing_uids)).
Qed.

Lemma rehydrate_nodup (review_emails : list Email.t) :
  forall (existing_uids : list Z) (m : Dashboard.memory),
    Spec.tracks existing_uids m ->
    NoDup (Props.record_uids m) ->
    NoDup (Props.record_uids
             (Dashboard.rehydrate review_emails existing_uids m).2).
Proof.
  induction review_emails as [|e rest IH]; intros existing_uids m Ht Hnd;
    [exact Hnd|].
  rewrite rehydrate_cons.
  apply IH; [now apply rehydrate_step_tracks|].
  cbn [Dashboard.rehydrate].
  destruct (bool_decide_reflect (Email.uid e ∈ existing_uids)) as [Hin|Hnot];
    cbn [snd]; unfold Props.record_uids; cbn [Dashboard.emails_data];
    [exact Hnd|].
  rewrite map_app. apply NoDup_app. split; [exact Hnd|]. split.
  - intros x Hx Hx'. cbn in Hx'. apply list_elem_of_singleton in Hx'.
    subst x. apply Hnot, Ht. now apply list_elem_of_In.
  - cbn. apply NoDup_singleton.
Qed.

Lemma filter_uids_nodup (p : Email.t -> bool) (l : list Email.t) :
  NoDup (map Email.uid l) -> NoDup (map Email.uid (List.filter p l)).
Proof.
  induction l as [|e l IH]; intros Hnd; [exact Hnd|].
  cbn in Hnd. apply NoDup_cons in Hnd as [Hnot Hnd]. cbn [List.filter].
  destruct (p e); [|now apply IH].
  cbn. apply NoDup_cons. split; [|now apply IH].
  intros Hin. apply Hnot. apply list_elem_of_In in Hin.
  apply list_elem_of_In. apply in_map_iff in Hin as (x & Hx & Hin).
  apply filter_In in Hin as [Hin _]. apply in_map_iff. now exists x.
Qed.

Lemma unread_uids_nodup (w : Dashboard.world) :
  NoDup (map Email.uid (Dashboard.folder w "INBOX")) ->
  NoDup (map Email.uid (Dashboard.fetch_unread w).1).
Proof.
  unfold Dashboard.fetch_unread. cbn [fst].
  intros Hnd. eapply sublist_NoDup; [exact Hnd|].
  apply (fmap_sublist Email.uid), sublist_filter.
Qed.

(** What one poll does to the memory, in three parts: the records it was
    given stay as they are, in place; the uids it adds are distinct from
    each other and from the old ones when inbox uids are distinct; and no
    pending entry disappears. *)
Lemma process_emails_memory (env : Router.backends) (cfg : Dashboard.config)
    (f : Dashboard.faults) (m : Dashboard.memory) (w : Dashboard.world) :
  let m' := (Dashboard.process_emails env cfg f m w).1 in
  (exists added,
     Dashboard.emails_data m' = (Dashboard.emails_data m ++ added)%list) /\
  (forall u, is_Some (Dashboard.pending_reviews m !! u) ->
             is_Some (Dashboard.pending_reviews m' !! u)) /\
  (NoDup (Props.record_uids m) ->
   NoDup (map Email.uid (Dashboard.folder w "INBOX")) ->
   NoDup (Props.record_uids m')).
Proof.
  cbv zeta. unfold Dashboard.process_emails. cbv zeta.
  set (router := Router.init env _ _ _ _ _ _).
  destruct (Dashboard.connect_fails f).
  { cbn [fst]. split; [exists []; now rewrite app_nil_r|]. now split. }
  unfold Dashboard.load_review_folder, Dashboard.fetch_from_folder.
  pose proof (rehydrate_spec (Dashboard.folder w "Review")
                (map EmailStatus.uid (Dashboard.emails_data m)) m
                (tracks_initial m)) as Hre.
  pose proof (rehydrate_nodup (Dashboard.folder w "Review")
                (map EmailStatus.uid (Dashboard.emails_data m)) m
                (tracks_initial m)) as Hnd1.
  cbv zeta in Hre.
  destruct (Dashboard.rehydrate _ _ m) as [existing_uids m1].
  cbn [fst snd] in Hre, Hnd1.
  destruct Hre as (Htracks & (added & Hadded & _) & _ & Hpend).
  set (w1 := Dashboard.log (Dashboard.FetchFolder "Review") w).
  pose proof (unread_uids_nodup w1) as Hunread.
  change (Dashboard.folder w1 "INBOX") with (Dashboard.folder w "INBOX")
    in Hunread.
  destruct (Dashboard.fetch_unread w1) as [emails w2]. cbn [fst] in Hunread.
  assert (Hbase :
    (exists added0,
       Dashboard.emails_data m1 = (Dashboard.emails_data m ++ added0)%list) /\
    (forall u, is_Some (Dashboard.pending_reviews m !! u) ->
               is_Some (Dashboard.pending_reviews m1 !! u)) /\
    (NoDup (Props.record_uids m) ->
     NoDup (map Email.uid (Dashboard.folder w "INBOX")) ->
     NoDup (Props.record_uids m1))).
  { split; [now exists added|]. split.
    - intros u [p Hp]. exists p. now apply Hpend.
    - intros Hnd _. now apply Hnd1. }
  destruct emails as [|e0 emails0] eqn:Hemails; [exact Hbase|].
  set (new_emails := List.filter _ (e0 :: emails0)).
  assert (Hfresh : forall e, In e new_emails ->
             ~ In (Email.uid e) (map EmailStatus.uid (Dashboard.emails_data m1))).
  { intros e He. apply filter_In in He as [_ He].
    apply negb_true_iff, bool_decide_eq_false in He.
    intros Hin. apply He, Htracks, Hin. }
  assert (Hnew_nd : NoDup (map Email.uid (Dashboard.folder w "INBOX")) ->
                    NoDup (map Email.uid new_emails)).
  { intros Hnd. apply filter_uids_nodup. now apply Hunread. }
  destruct new_emails as [|n0 new0] eqn:Hnew; [exact Hbase|].
  set (m2 := Dashboard.Build_memory _ _).
  destruct (process_all_keeps f router
              (Dashboard.emails_data m1) (n0 :: new0) m2 w2
              (map (fun e =>
                      EmailStatus.new (Email.uid e) (Email.from_addr e)
                        (Email.subject e) (Email.body e) "Pending" false)
                   (n0 :: new0)) eq_refl Hfresh)
    as [(rest & Hdata & Huids) Hpend2].
  split; [|split].
  - exists (added ++ rest)%list. rewrite Hdata, Hadded. now rewrite app_assoc.
  - intros u Hu. apply Hpend2. subst m2. cbn [Dashboard.pending_reviews].
    now apply (proj1 (proj2 Hbase)).
  - intros Hnd Hinbox. unfold Props.record_uids. rewrite Hdata, map_app.
    apply NoDup_app. split; [now apply (proj2 (proj2 Hbase))|]. split.
    + intros x Hx Hx'. rewrite Huids, map_map in Hx'.
      apply list_elem_of_In in Hx'. apply in_map_iff in Hx' as (e & <- & He).
      apply (Hfresh e He). now apply list_elem_of_In.
    + rewrite Huids, map_map. exact (Hnew_nd Hinbox).
Qed.

(** X14. A poll removes nothing from memory: the records it was given are
    still there afterwards, unchanged and in the same positions, followed by
    the records the poll added; and every uid that was pending is still
    pending. This holds for every failure of the mail store and of the
    backends. *)
Theorem poll_removes_nothing (env : Router.backends) (cfg : Dashboard.config)
    (f : Dashboard.faults) (m : Dashboard.memory) (w : Dashboard.world) :
  let m' := (Dashboard.process_emails env cfg f m w).1 in
  (exists added,
     Dashboard.emails_data m' = (Dashboard.emails_data m ++ added)%list) /\
  (forall u, is_Some (Dashboard.pending_reviews m !! u) ->
             is_Some (Dashboard.pending_reviews m' !! u)).
Proof.
  destruct (process_emails_memory env cfg f m w) as (Hdata & Hpend & _).
  now split.
Qed.

Lemma approve_uids (f : Dashboard.faults) (uid : Z) (m : Dashboard.memory)
    (w : Dashboard.world) :
  Props.record_uids (Dashboard.approve_email f uid m w).1
  = Props.record_uids m.
Proof.
  unfold Dashboard.approve_email.
  destruct (Dashboard.pending_reviews m !! uid) as [review|]; [|reflexivity].
  cbv zeta.
  match goal with
  | |- context [match ?s with _ => _ end] => destruct s as [[w0|e0] w3]
  end; [|reflexivity].
  cbn [fst]. unfold Props.record_uids. cbn [Dashboard.emails_data].
  now apply update_first_uids.
Qed.

Lemma reject_uids (f : Dashboard.faults) (uid : Z) (m : Dashboard.memory)
    (w : Dashboard.world) :
  Props.record_uids (Dashboard.reject_email f uid m w).1
  = Props.record_uids m.
Proof.
  unfold Dashboard.reject_email.
  destruct (Dashboard.pending_reviews m !! uid) as [review|]; [|reflexivity].
  cbn [fst]. unfold Props.record_uids. cbn [Dashboard.emails_data].
  now apply update_first_uids.
Qed.

(** X15. The dashboard looks a record up by the first match of its uid, so
    it relies on record uids being distinct. They stay distinct: if they are
    distinct, an approval and a rejection leave the list of record uids as
    it is, and a poll over an inbox with distinct uids leaves them
    distinct. *)
Theorem record_uids_stay_distinct (env : Router.backends)
    (cfg : Dashboard.config) (f : Dashboard.faults) (uid : Z)
    (m : Dashboard.memory) (w : Dashboard.world) :
  NoDup (Props.record_uids m) ->
  (NoDup (map Email.uid (Dashboard.folder w "INBOX")) ->
   NoDup (Props.record_uids (Dashboard.process_emails env cfg f m w).1)) /\
  NoDup (Props.record_uids (Dashboard.approve_email f uid m w).1) /\
  NoDup (Props.record_uids (Dashboard.reject_email f uid m w).1).
Proof.
  intros Hnd. rewrite approve_uids, reject_uids.
  split; [|now split].
  destruct (process_emails_memory env cfg f m w) as (_ & _ & Hpoll).
  now apply Hpoll.
Qed.

End DashboardProperties.

Section DashboardExamples.

#[local] Existing Instance Scenario.runtime.

Lemma sales_state_reached :
  Dashboard.process_emails (Scenario.local_model Scenario.sales_reply)
    Scenario.cfg Scenario.no_faults Scenario.fresh
    (Scenario.inbox Scenario.quote_mail)
  = (Examples.sales_memory, Examples.sales_world).
Proof. vm_compute. reflexivity. Qed.

(** The phishing message of the spam scenario is the one that was sent. *)
Lemma poll_sends_only_auto_approved_witness :
  exists email a,
    In email (Dashboard.folder (Scenario.inbox Scenario.phishing_mail) "INBOX") /\
    Email.uid email = 7%Z /\
    RoutingDecision.matched_rule
      (Router.decide (Scenario.router Scenario.spam_reply) email) = None /\
    RoutingDecision.ai_result
      (Router.decide (Scenario.router Scenario.spam_reply) email) = Some a /\
    PrimFloat.ltb 0.80 (AnalysisResult.confidence a) = true /\
    RoutingDecision.should_forward
      (Router.decide (Scenario.router Scenario.spam_reply) email) = true /\
    In "spam@mail.local"
       (RoutingDecision.all_destinations
          (Router.decide (Scenario.router Scenario.spam_reply) email)).
Proof.
  pose proof (poll_sends_only_auto_approved
                (Scenario.local_model Scenario.spam_reply) Scenario.cfg
                Scenario.no_faults Scenario.fresh
                (Scenario.inbox Scenario.phishing_mail) 7 "spam@mail.local")
    as Hpoll.
  cbv zeta in Hpoll. apply Hpoll.
  - vm_compute. do 2 right. left. reflexivity.
  - intros [].
Defined.

(** The operator approves the sales enquiry that the poll parked. *)
Lemma approve_forwards_then_files_witness :
  Dashboard.effects
    (Dashboard.approve_email Scenario.no_faults 9 Examples.sales_memory
       Examples.sales_world).2
  = (Dashboard.effects Examples.sales_world
       ++ [Dashboard.Forward 9 "sales@mail.local";
           Dashboard.Move 9 "Review" "Processed";
           Dashboard.LogAction 9 "approved" ["sales@mail.local"]])%list.
Proof.
  apply (approve_forwards_then_files Scenario.no_faults 9
           Examples.sales_memory Examples.sales_world
           Examples.sales_review Examples.sales_decision).
  - vm_compute. reflexivity.
  - reflexivity.
  - reflexivity.
  - discriminate.
  - reflexivity.
Defined.

(** The same approval while the SMTP server refuses every message. *)
Lemma approve_failure_keeps_memory_witness :
  (Dashboard.approve_email Examples.smtp_down 9 Examples.sales_memory
     Examples.sales_world).1
  = Examples.sales_memory.
Proof.
  apply (approve_failure_keeps_memory Examples.smtp_down 9
           Examples.sales_memory Examples.sales_world
           Examples.sales_review Examples.sales_decision).
  - vm_compute. reflexivity.
  - reflexivity.
  - reflexivity.
  - discriminate.
  - reflexivity.
Defined.

Lemma record_uids_stay_distinct_witness :
  NoDup
    (Props.record_uids
       (Dashboard.process_emails (Scenario.local_model Scenario.vendor_reply)
          Scenario.cfg Scenario.no_faults Examples.sales_memory
          (Scenario.inbox Scenario.vendor_mail)).1).
Proof.
  apply (record_uids_stay_distinct
           (Scenario.local_model Scenario.vendor_reply) Scenario.cfg
           Scenario.no_faults 9 Examples.sales_memory
           (Scenario.inbox Scenario.vendor_mail)).
  - vm_compute. apply NoDup_singleton.
  - vm_compute. apply NoDup_singleton.
Defined.

End DashboardExamples.

(** * Properties of the mock mail server and of the local test command *)

Section MockServer.

Lemma add_seen_uids (uid : Z) (l : list StoredEmail.t) :
  map StoredEmail.uid (TestMailServer.add_seen uid l) = map StoredEmail.uid l.
Proof.
  induction l as [|e l IH]; [reflexivity|]. cbn [TestMailServer.add_seen].
  destruct (StoredEmail.uid e =? uid)%Z; cbn; [reflexivity | now rewrite IH].
Qed.

Lemma uids_bounded (bound : Z) (l : list StoredEmail.t) :
  Forall (fun e => (1 <= StoredEmail.uid e < bound)%Z) l <->
  Forall (fun u => (1 <= u < bound)%Z) (map StoredEmail.uid l).
Proof. now rewrite Forall_fmap. Qed.

Lemma mark_as_read_wf (s : TestMailServer.t) (uid : Z) :
  Props.server_wf s -> Props.server_wf (TestMailServer.mark_as_read s uid).2.
Proof.
  intros (Hnd & Hc & Hb). unfold TestMailServer.mark_as_read.
  destruct (TestMailServer.get_email s uid); [|now repeat split].
  cbn [snd]. split; [|split];
    cbn [TestMailServer.emails TestMailServer.uid_counter].
  - now rewrite add_seen_uids.
  - exact Hc.
  - apply uids_bounded. rewrite add_seen_uids. now apply uids_bounded.
Qed.

Lemma add_test_email_wf (s : TestMailServer.t) (raw : string) :
  Props.server_wf s -> Props.server_wf (TestMailServer.add_test_email s raw).2.
Proof.
  intros (Hnd & Hc & Hb). unfold TestMailServer.add_test_email.
  cbn [snd]. split; [|split];
    cbn [TestMailServer.emails TestMailServer.uid_counter].
  - rewrite map_app. apply NoDup_app. split; [exact Hnd|]. split.
    + intros x Hx Hx'. cbn in Hx'. apply list_elem_of_singleton in Hx'.
      subst x. apply uids_bounded in Hb.
      rewrite Forall_forall in Hb. apply Hb in Hx. lia.
    + cbn. apply NoDup_singleton.
  - lia.
  - apply Forall_app. split.
    + eapply Forall_impl; [exact Hb|]. cbn. intros e He. lia.
    + apply Forall_singleton. cbn. lia.
Qed.

Lemma apply_op_wf (s : TestMailServer.t) (o : Props.server_op) :
  Props.server_wf s -> Props.server_wf (Props.apply_op s o).
Proof.
  intros Hwf. destruct o as [raw|uid|]; cbn [Props.apply_op].
  - now apply add_test_email_wf.
  - now apply mark_as_read_wf.
  - split; [apply NoDup_nil_2|]. split; [cbn; lia | apply Forall_nil_2].
Qed.

(** X16. In every state the mock server can reach from its initial state by
    adding messages, marking them read and clearing, the stored uids are
    distinct, at least 1 and below the uid counter; so the counter never
    hands out a uid that is in use. *)
Theorem server_uids_are_unique (ops : list Props.server_op) :
  Props.server_wf (fold_left Props.apply_op ops TestMailServer.new).
Proof.
  assert (Hnew : Props.server_wf TestMailServer.new).
  { split; [apply NoDup_nil_2|]. split; [cbn; lia | apply Forall_nil_2]. }
  revert Hnew. generalize TestMailServer.new.
  induction ops as [|o ops IH]; intros s Hs; [exact Hs|].
  cbn [fold_left]. apply IH. now apply apply_op_wf.
Qed.

Lemma find_uid_absent (uid : Z) (l : list StoredEmail.t) :
  ~ In uid (map StoredEmail.uid l) ->
  List.find (fun e => (StoredEmail.uid e =? uid)%Z) l = None.
Proof.
  induction l as [|e l IH]; intros Hnot; [reflexivity|]. cbn [List.find].
  destruct (Z.eqb_spec (StoredEmail.uid e) uid) as [Heq|Hneq].
  - exfalso. apply Hnot. now left.
  - apply IH. intros Hin. apply Hnot. now right.
Qed.

Lemma find_app_last (p : StoredEmail.t -> bool) (l : list StoredEmail.t)
    (x : StoredEmail.t) :
  List.find p (l ++ [x])
  = match List.find p l with
    | Some y => Some y
    | None => if p x then Some x else None
    end.
Proof.
  induction l as [|e l IH]; [reflexivity|]. cbn [app List.find].
  now destruct (p e).
Qed.

(** X17. A message added to a well-formed server gets a uid that was not in
    use, is found again under that uid with the text it was added with, is
    unread, and hides no other message: every other uid is looked up as
    before. *)
Theorem added_message_is_found (s : TestMailServer.t) (raw : string) :
  Props.server_wf s ->
  let uid := (TestMailServer.add_test_email s raw).1 in
  let s' := (TestMailServer.add_test_email s raw).2 in
  TestMailServer.get_email s uid = None /\
  TestMailServer.get_email s' uid = Some (StoredEmail.mk uid raw ∅) /\
  In (StoredEmail.mk uid raw ∅) (TestMailServer.get_unread s') /\
  (forall u, u <> uid ->
             TestMailServer.get_email s' u = TestMailServer.get_email s u).
Proof.
  intros (Hnd & Hc & Hb). cbv zeta.
  unfold TestMailServer.add_test_email, TestMailServer.get_email,
    TestMailServer.get_unread.
  cbn [fst snd StoredEmail.uid TestMailServer.emails].
  assert (Hfresh : List.find
                     (fun e => (StoredEmail.uid e =? TestMailServer.uid_counter s)%Z)
                     (TestMailServer.emails s) = None).
  { apply find_uid_absent. intros Hin. apply uids_bounded in Hb.
    rewrite Forall_forall in Hb. apply list_elem_of_In, Hb in Hin. lia. }
  split; [exact Hfresh|]. split; [|split].
  - rewrite find_app_last, Hfresh. cbn [StoredEmail.uid].
    now rewrite Z.eqb_refl.
  - apply filter_In. split; [apply in_or_app; right; now left|].
    reflexivity.
  - intros u Hu. rewrite find_app_last. cbn [StoredEmail.uid].
    destruct (List.find (fun e => (StoredEmail.uid e =? u)%Z)
                (TestMailServer.emails s)); [reflexivity|].
    destruct (Z.eqb_spec (TestMailServer.uid_counter s) u); [congruence|].
    reflexivity.
Qed.

Lemma filter_all (p : StoredEmail.t -> bool) (l : list StoredEmail.t) :
  (forall e, In e l -> p e = true) -> List.filter p l = l.
Proof.
  induction l as [|e l IH]; intros Hall; [reflexivity|]. cbn [List.filter].
  rewrite (Hall e ltac:(now left)). f_equal. apply IH.
  intros x Hx. apply Hall. now right.
Qed.

Lemma add_flag_read (e : StoredEmail.t) :
  TestMailServer.unread (StoredEmail.add_flag StoredEmail.seen e) = false.
Proof.
  unfold TestMailServer.unread, StoredEmail.add_flag. cbn [StoredEmail.flags].
  apply negb_false_iff, bool_decide_eq_true. set_solver.
Qed.

Lemma add_seen_unread (uid : Z) (l : list StoredEmail.t) :
  NoDup (map StoredEmail.uid l) ->
  List.filter TestMailServer.unread (TestMailServer.add_seen uid l)
  = List.filter (fun e => negb (StoredEmail.uid e =? uid)%Z)
      (List.filter TestMailServer.unread l).
Proof.
  induction l as [|e l IH]; intros Hnd; [reflexivity|].
  cbn in Hnd. apply NoDup_cons in Hnd as [Hnot Hnd].
  cbn [TestMailServer.add_seen].
  destruct (Z.eqb_spec (StoredEmail.uid e) uid) as [Heq|Hneq].
  - cbn [List.filter]. rewrite add_flag_read.
    assert (Hrest : List.filter (fun e0 => negb (StoredEmail.uid e0 =? uid)%Z)
                      (List.filter TestMailServer.unread l)
                    = List.filter TestMailServer.unread l).
    { apply filter_all. intros x Hx. apply filter_In in Hx as [Hx _].
      apply negb_true_iff. apply Z.eqb_neq. intros Hux. apply Hnot.
      apply list_elem_of_In, in_map_iff. exists x. split; [congruence|exact Hx]. }
    destruct (TestMailServer.unread e); cbn [List.filter].
    + apply Z.eqb_eq in Heq. rewrite Heq. cbn [negb]. now rewrite Hrest.
    + now rewrite Hrest.
  - cbn [List.filter]. destruct (TestMailServer.unread e); cbn [List.filter].
    + apply Z.eqb_neq in Hneq. rewrite Hneq. cbn [negb]. f_equal.
      now apply IH.
    + now apply IH.
Qed.

Lemma mark_as_read_unread (s : TestMailServer.t) (uid : Z) :
  Props.server_wf s ->
  TestMailServer.get_unread (TestMailServer.mark_as_read s uid).2
  = List.filter (fun e => negb (StoredEmail.uid e =? uid)%Z)
      (TestMailServer.get_unread s).
Proof.
  intros (Hnd & _ & _).
  unfold TestMailServer.mark_as_read, TestMailServer.get_email,
    TestMailServer.get_unread.
  destruct (List.find _ (TestMailServer.emails s)) as [e|] eqn:Hfind;
    cbn [snd TestMailServer.emails].
  - now apply add_seen_unread.
  - symmetry. apply filter_all. intros e He. apply filter_In in He as [He _].
    apply negb_true_iff. exact (find_none _ _ Hfind e He).
Qed.

(** X18. Marking a uid read on a well-formed server removes exactly the
    message with that uid from the unread list and keeps the others in
    their order; it reports whether the uid is stored, and an unknown uid
    changes nothing. *)
Theorem mark_as_read_hides_one_message (s : TestMailServer.t) (uid : Z) :
  Props.server_wf s ->
  let r := TestMailServer.mark_as_read s uid in
  TestMailServer.get_unread r.2
  = List.filter (fun e => negb (StoredEmail.uid e =? uid)%Z)
      (TestMailServer.get_unread s) /\
  map StoredEmail.uid (TestMailServer.emails r.2)
  = map StoredEmail.uid (TestMailServer.emails s) /\
  (r.1 = true <-> In uid (map StoredEmail.uid (TestMailServer.emails s))) /\
  (r.1 = false -> r.2 = s).
Proof.
  intros Hwf. cbv zeta. split; [now apply mark_as_read_unread|].
  unfold TestMailServer.mark_as_read, TestMailServer.get_email.
  destruct (List.find _ (TestMailServer.emails s)) as [e|] eqn:Hfind;
    cbn [fst snd TestMailServer.emails].
  - split; [apply add_seen_uids|]. split; [|discriminate].
    split; [intros _|reflexivity].
    apply find_some in Hfind as [He Heq]. apply Z.eqb_eq in Heq.
    apply in_map_iff. now exists e.
  - split; [reflexivity|]. split; [|reflexivity].
    split; [discriminate|]. intros Hin. exfalso.
    apply in_map_iff in Hin as (e & Heq & He).
    pose proof (find_none _ _ Hfind e He) as Hne. cbn in Hne.
    apply Z.eqb_neq in Hne. congruence.
Qed.

End MockServer.

Section LocalTest.

Context `{PyRuntime}.

Lemma test_local_loop_spec (router : Router.t) (emails : list Email.t) :
  forall (server : TestMailServer.t) (sent : list TestSMTPClient.sent),
    Cli.test_local_loop router emails server sent
    = (fold_left
         (fun s e =>
            if Props.forwards router e
            then (TestMailServer.mark_as_read s (Email.uid e)).2 else s)
         emails server,
       (sent ++ map (Props.captured router)
                  (List.filter (Props.forwards router) emails))%list).
Proof.
  induction emails as [|e rest IH]; intros server sent.
  - cbn. now rewrite app_nil_r.
  - cbn [Cli.test_local_loop fold_left List.filter]. cbv zeta.
    unfold TestIMAPClient.mark_as_read. cbn [negb].
    fold (Props.forwards router e).
    destruct (Props.forwards router e).
    + rewrite IH. unfold TestSMTPClient.forward_email.
      cbn [map]. now rewrite <- app_assoc.
    + now rewrite IH.
Qed.

Lemma filter_filter_bool (p q : StoredEmail.t -> bool)
    (l : list StoredEmail.t) :
  List.filter p (List.filter q l) = List.filter (fun e => q e && p e) l.
Proof.
  induction l as [|e l IH]; [reflexivity|]. cbn [List.filter].
  destruct (q e); cbn [List.filter andb]; [|exact IH].
  destruct (p e); now rewrite IH.
Qed.

Lemma unread_after_marks (router : Router.t) (emails : list Email.t) :
  forall s,
    Props.server_wf s ->
    TestMailServer.get_unread
      (fold_left
         (fun s e =>
            if Props.forwards router e
            then (TestMailServer.mark_as_read s (Email.uid e)).2 else s)
         emails s)
    = List.filter
        (fun st =>
           negb (existsb
                   (fun e => Props.forwards router e
                             && (Email.uid e =? StoredEmail.uid st)%Z)
                   emails))
        (TestMailServer.get_unread s).
Proof.
  induction emails as [|e rest IH]; intros s Hwf.
  - cbn. symmetry. now apply filter_all.
  - cbn [fold_left existsb].
    destruct (Props.forwards router e); cbn [andb orb].
    + rewrite IH by now apply mark_as_read_wf.
      rewrite (mark_as_read_unread s (Email.uid e) Hwf), filter_filter_bool.
      apply filter_ext. intros st. rewrite negb_orb. f_equal.
      now rewrite Z.eqb_sym.
    + now rewrite IH.
Qed.

Lemma uid_determines (l : list StoredEmail.t) (a b : StoredEmail.t) :
  NoDup (map StoredEmail.uid l) -> In a l -> In b l ->
  StoredEmail.uid a = StoredEmail.uid b -> a = b.
Proof.
  induction l as [|e l IH]; intros Hnd Ha Hb Hab; [destruct Ha|].
  cbn in Hnd. apply NoDup_cons in Hnd as [Hnot Hnd].
  assert (Hin : forall x, In x l -> StoredEmail.uid x <> StoredEmail.uid e).
  { intros x Hx Heq. apply Hnot. apply list_elem_of_In, in_map_iff.
    now exists x. }
  destruct Ha as [<-|Ha], Hb as [<-|Hb]; try reflexivity.
  - exfalso. exact (Hin b Hb (eq_sym Hab)).
  - exfalso. exact (Hin a Ha Hab).
  - now apply IH.
Qed.

Lemma loop_without_forward (router : Router.t) (emails : list Email.t)
    (server : TestMailServer.t) (sent : list TestSMTPClient.sent) :
  (forall e, In e emails -> Props.forwards router e = false) ->
  Cli.test_local_loop router emails server sent = (server, sent).
Proof.
  intros Hall. rewrite test_local_loop_spec.
  assert (Hnone : List.filter (Props.forwards router) emails = []).
  { clear server sent. induction emails as [|e rest IH]; [reflexivity|].
    cbn [List.filter]. rewrite (Hall e ltac:(now left)).
    apply IH. intros x Hx. apply Hall. now right. }
  rewrite Hnone. cbn [map]. rewrite app_nil_r. f_equal.
  clear Hnone. revert server.
  induction emails as [|e rest IH]; intros server; [reflexivity|].
  cbn [fold_left]. rewrite (Hall e ltac:(now left)).
  apply IH. intros x Hx. apply Hall. now right.
Qed.

(** X19. The local test command on a well-formed mock server: it captures
    one mail for each unread message that the rules forward, in the order
    of the messages, addressed to the primary destination; afterwards
    exactly the messages it did not forward are unread; with the analyzer
    off a message is forwarded exactly when its first matching rule has a
    destination; and running the command again on the server it left
    captures nothing new and changes nothing. *)
Theorem test_local_forwards_once (env : Router.backends)
    (message_from_bytes : string -> TestIMAPClient.parsed)
    (rules : list Rule.t) (server : TestMailServer.t)
    (sent : list TestSMTPClient.sent) :
  Props.server_wf server ->
  let router := Router.init env rules false "" "" [] "skip" in
  let to_email := Props.to_email message_from_bytes in
  let r := Cli.test_local env message_from_bytes rules server sent in
  r.2 = (sent ++ map (Props.captured router)
                   (List.filter (Props.forwards router)
                      (map to_email (TestMailServer.get_unread server))))%list /\
  TestMailServer.get_unread r.1
  = List.filter (fun st => negb (Props.forwards router (to_email st)))
      (TestMailServer.get_unread server) /\
  (forall e,
     Props.forwards router e = true <->
     exists rule,
       Router.first_match rules (Email.to_dict e) = Some rule /\
       Rule.forward_to rule <> "") /\
  Cli.test_local env message_from_bytes rules r.1 r.2 = r.
Proof.
  intros Hwf router to_email r.
  assert (Hr : r = Cli.test_local_loop router
                     (map to_email (TestMailServer.get_unread server))
                     server sent) by reflexivity.
  rewrite test_local_loop_spec in Hr.
  assert (Hunread :
    TestMailServer.get_unread r.1
    = List.filter (fun st => negb (Props.forwards router (to_email st)))
        (TestMailServer.get_unread server)).
  { rewrite Hr. cbn [fst]. rewrite (unread_after_marks router _ server Hwf).
    apply filter_ext_in. intros st Hst. f_equal.
    destruct (Props.forwards router (to_email st)) eqn:Hfw.
    - apply existsb_exists. exists (to_email st).
      split; [now apply in_map|]. rewrite Hfw. cbn. apply Z.eqb_refl.
    - apply not_true_is_false. intros Hex.
      apply existsb_exists in Hex as (e & He & Hboth).
      apply andb_true_iff in Hboth as [Hfe Huid]. apply Z.eqb_eq in Huid.
      apply in_map_iff in He as (st' & <- & Hst').
      apply filter_In in Hst as [Hst _]. apply filter_In in Hst' as [Hst' _].
      destruct Hwf as (Hnd & _).
      rewrite (uid_determines _ st' st Hnd Hst' Hst Huid) in Hfe.
      congruence. }
  split; [now rewrite Hr|]. split; [exact Hunread|]. split.
  - intros e. unfold Props.forwards, Router.decide, router, Router.init.
    cbn [Router.rules Router._analyzer].
    destruct (Router.first_match rules (Email.to_dict e)) as [rule|];
      cbn [RoutingDecision.should_forward].
    + split.
      * intros Ht. exists rule. split; [reflexivity|].
        now apply truthy_nonempty.
      * intros (rule' & [= <-] & Hne). now destruct (Rule.forward_to rule).
    + split; [discriminate | now intros (rule' & Hrule & _)].
  - change (Cli.test_local env message_from_bytes rules r.1 r.2)
      with (Cli.test_local_loop router
              (map to_email (TestMailServer.get_unread r.1)) r.1 r.2).
    rewrite Hunread, loop_without_forward; [now destruct r|].
    intros e He. apply in_map_iff in He as (st & <- & Hst).
    apply filter_In in Hst as [_ Hst]. now apply negb_true_iff in Hst.
Qed.

End LocalTest.

Section MockServerExamples.

#[local] Existing Instance Scenario.runtime.

Lemma added_message_is_found_witness :
  TestMailServer.get_email
    (TestMailServer.add_test_email Examples.demo_server "third").2 3
  = Some (StoredEmail.mk 3 "third" ∅).
Proof.
  apply (added_message_is_found Examples.demo_server "third").
  unfold Props.server_wf. cbn.
  split; [|split]; [apply (bool_decide_unpack _); vm_compute; reflexivity
                   | lia
                   | apply (bool_decide_unpack _); vm_compute; reflexivity].
Defined.

Lemma mark_as_read_hides_one_message_witness :
  map StoredEmail.uid
    (TestMailServer.get_unread
       (TestMailServer.mark_as_read Examples.demo_server 1).2)
  = [2%Z].
Proof.
  destruct (mark_as_read_hides_one_message Examples.demo_server 1) as [-> _].
  - unfold Props.server_wf. cbn.
    split; [|split]; [apply (bool_decide_unpack _); vm_compute; reflexivity
                     | lia
                     | apply (bool_decide_unpack _); vm_compute; reflexivity].
  - vm_compute. reflexivity.
Defined.

Lemma test_local_forwards_once_witness :
  (Cli.test_local (Scenario.local_model "") Examples.headers_only
     Examples.demo_rules Examples.demo_server []).2
  = [TestSMTPClient.Build_sent "boss@company.com" "" "ceo@mail.local"].
Proof.
  destruct (test_local_forwards_once (Scenario.local_model "")
              Examples.headers_only Examples.demo_rules
              Examples.demo_server []) as [-> _].
  - unfold Props.server_wf. cbn.
    split; [|split]; [apply (bool_decide_unpack _); vm_compute; reflexivity
                     | lia
                     | apply (bool_decide_unpack _); vm_compute; reflexivity].
  - vm_compute. reflexivity.
Defined.

End MockServerExamples.

(** * Properties of the command line and of the GUI *)

Section CommandLine.

Context `{PyRuntime}.





End CommandLine.

Section GuiTable.

Context `{PyRuntime}.

Lemma forward_all_and_mark_outcome (f : Cli.faults) (e : Email.t)
    (dests : list string) :
  match (Gui.forward_all_and_mark f e dests).1 with
  | Ret _ => Props.gui_blocked f e dests = false
  | Raise _ => Props.gui_blocked f e dests = true
  end.
Proof.
  unfold Props.gui_blocked.
  induction dests as [|d rest IH]; cbn [Gui.forward_all_and_mark existsb].
  - destruct (Cli.mark_fails f (Email.uid e)); reflexivity.
  - destruct (Cli.send_fails f (Email.uid e) d); [reflexivity|].
    cbn [orb]. now destruct (Gui.forward_all_and_mark f e rest) as [[[]|err] done].
Qed.

Lemma alter_at_length (g : Gui.EmailStatus.t -> Gui.EmailStatus.t)
    (pre : list Gui.EmailStatus.t) (x : Gui.EmailStatus.t)
    (t : list Gui.EmailStatus.t) :
  alter g (length pre) (pre ++ x :: t)%list = (pre ++ g x :: t)%list.
Proof.
  rewrite <- (Nat.add_0_r (length pre)). now rewrite alter_app_r.
Qed.

Lemma process_from_spec (router : Router.t) (f : Cli.faults)
    (emails : list Email.t) :
  forall (pre : list Gui.EmailStatus.t) (done : list Cli.effect),
    Gui.process_from router f (length pre) emails
      (pre ++ map Gui.EmailStatus.pending emails)%list done
    = ((pre ++ map (Props.gui_row router f) emails)%list,
       (done ++ concat (map (Props.gui_effects router f) emails))%list).
Proof.
  induction emails as [|e rest IH]; intros pre done.
  - cbn. now rewrite !app_nil_r.
  - cbn [Gui.process_from map concat]. cbv zeta.
    assert (Hstep : forall rows' done',
      rows' = (pre ++ Props.gui_row router f e
                 :: map Gui.EmailStatus.pending rest)%list ->
      done' = (done ++ Props.gui_effects router f e)%list ->
      Gui.process_from router f (S (length pre)) rest rows' done'
      = ((pre ++ Props.gui_row router f e
            :: map (Props.gui_row router f) rest)%list,
         (done ++ Props.gui_effects router f e
            ++ concat (map (Props.gui_effects router f) rest))%list)).
    { intros rows' done' -> ->.
      replace (S (length pre)) with (length (pre ++ [Props.gui_row router f e]))
        by (rewrite length_app; cbn; lia).
      replace (pre ++ Props.gui_row router f e
                 :: map Gui.EmailStatus.pending rest)%list
        with ((pre ++ [Props.gui_row router f e])
                ++ map Gui.EmailStatus.pending rest)%list
        by now rewrite <- app_assoc.
      rewrite IH. now rewrite <- !app_assoc. }
    unfold Props.gui_row, Props.gui_effects in *. cbv zeta in *.
    pose proof (forward_all_and_mark_outcome f e
                  (RoutingDecision.all_destinations (Router.decide router e)))
      as Hout.
    destruct (RoutingDecision.should_forward (Router.decide router e)).
    + destruct (Gui.forward_all_and_mark f e _) as [[[]|err] eff];
        cbn [fst snd] in Hout |- *; rewrite Hout in *;
        destruct (RoutingDecision.ai_result (Router.decide router e));
        rewrite !alter_at_length; apply Hstep; reflexivity.
    + destruct (RoutingDecision.ai_result (Router.decide router e));
        rewrite !alter_at_length; apply Hstep;
        try reflexivity; now rewrite app_nil_r.
Qed.

(** X23. After a pass of the GUI over a non-empty list of fetched messages
    the table is the list of the rows of those messages, in their order,
    whatever the table held before: a message the router does not flag is
    Skipped; a flagged message is Forwarded, with all its destinations,
    when every send and the flag update succeed, and Error, with no
    destination, otherwise; no row is left Pending or Processing. What the
    pass did to the servers is the concatenation of what it did for each
    message. *)
Theorem gui_table_after_pass (router : Router.t) (f : Cli.faults)
    (self_emails : list Gui.EmailStatus.t) (unread : list Email.t) :
  unread <> [] ->
  Gui._process_emails router f false self_emails unread
  = (map (Props.gui_row router f) unread,
     concat (map (Props.gui_effects router f) unread)).
Proof.
  intros Hne. unfold Gui._process_emails.
  destruct unread as [|e rest]; [congruence|].
  exact (process_from_spec router f (e :: rest) [] []).
Qed.

End GuiTable.

(** * Properties of the hosted-model adapter *)

Section HostedAdapter.

Context `{PyRuntime}.

Lemma read_line_keeps_destination (acc : GeminiAnalyzer.fields)
    (line : string) :
  PyStr.startswith (PyStr.strip line) "FORWARD_TO:" = false ->
  GeminiAnalyzer.f_forward_to (GeminiAnalyzer.read_line acc line)
  = GeminiAnalyzer.f_forward_to acc.
Proof.
  intros Hl. unfold GeminiAnalyzer.read_line. cbv zeta. rewrite Hl.
  now repeat destruct (PyStr.startswith _ _).
Qed.

Lemma fold_read_line_keeps_destination (lines : list string) :
  forall acc,
    Forall (fun l => PyStr.startswith (PyStr.strip l) "FORWARD_TO:" = false)
           lines ->
    GeminiAnalyzer.f_forward_to (fold_left GeminiAnalyzer.read_line lines acc)
    = GeminiAnalyzer.f_forward_to acc.
Proof.
  induction lines as [|l lines IH]; intros acc Hall; [reflexivity|].
  inversion Hall as [|? ? Hl Hrest]; subst. cbn [fold_left].
  rewrite (IH _ Hrest). now apply read_line_keeps_destination.
Qed.

(** X24. With the hosted adapter attached, a message that no rule matches
    is not forwarded and has no destination at all in each of these cases:
    no destination is configured (the model is then not asked), the call to
    the model raises, or no line of the reply starts with the FORWARD_TO
    label. *)
Theorem hosted_reply_without_destination (rules : list Rule.t)
    (default_action : string) (g : GeminiAnalyzer.t) (e : Email.t) :
  let d := Router.decide
             (Router.mk rules default_action (Some (Router.Gemini g))) e in
  let reply :=
    GeminiAnalyzer.generate_content g
      (GeminiAnalyzer.prompt g (Email.to_dict e)) in
  RoutingDecision.matched_rule d = None ->
  GeminiAnalyzer.destinations g = [] \/
  (exists err, reply = Raise err) \/
  (exists text,
     reply = Ret text /\
     Forall (fun l => PyStr.startswith (PyStr.strip l) "FORWARD_TO:" = false)
            (PyStr.split_char (ascii_of_nat 10) (PyStr.strip text))) ->
  RoutingDecision.should_forward d = false /\
  RoutingDecision.all_destinations d = [].
Proof.
  cbv zeta. unfold Router.decide.
  cbn [Router.rules Router._analyzer Router.default_action].
  destruct (Router.first_match _ _) as [rule|]; [discriminate|].
  intros _ Hcase.
  destruct (Router.ai_actions default_action); [|now split].
  cbn [Router.analyze].
  assert (Hres :
    AnalysisResult.forward_to (GeminiAnalyzer.analyze g (Email.to_dict e)) = "" /\
    AnalysisResult.additional_destinations
      (GeminiAnalyzer.analyze g (Email.to_dict e)) = []).
  { unfold GeminiAnalyzer.analyze.
    destruct (GeminiAnalyzer.destinations g) as [|d0 ds]; [now split|].
    destruct Hcase as [Hcase | [[err ->] | (text & -> & Hlines)]];
      [discriminate | now split |].
    unfold GeminiAnalyzer._parse_response. cbv zeta.
    cbn [AnalysisResult.forward_to AnalysisResult.additional_destinations].
    split; [|reflexivity].
    now rewrite (fold_read_line_keeps_destination _ _ Hlines). }
  destruct Hres as [Hfwd Hadd].
  unfold RoutingDecision.all_destinations.
  cbn [RoutingDecision.should_forward RoutingDecision.forward_to
       RoutingDecision.additional_destinations].
  now rewrite Hfwd, Hadd.
Qed.

Lemma lstrip_length (s : string) :
  (String.length (PyStr.lstrip s) <= String.length s)%nat.
Proof.
  induction s as [|c s IH]; [reflexivity|]. cbn [PyStr.lstrip].
  destruct (PyStr.isspace c); cbn [String.length]; lia.
Qed.

Lemma rstrip_length (s : string) :
  (String.length (PyStr.rstrip s) <= String.length s)%nat.
Proof.
  induction s as [|c s IH]; [reflexivity|]. cbn [PyStr.rstrip].
  destruct (PyStr.rstrip s); [destruct (PyStr.isspace c)|];
    cbn [String.length] in *; lia.
Qed.

Lemma strip_fixed_lstrip (a : string) :
  PyStr.strip a = a -> PyStr.lstrip a = a /\ PyStr.rstrip a = a.
Proof.
  intros Hs. unfold PyStr.strip in Hs.
  assert (Hl : PyStr.lstrip a = a).
  { destruct a as [|c t]; [reflexivity|]. cbn [PyStr.lstrip] in *.
    destruct (PyStr.isspace c); [|reflexivity]. exfalso.
    pose proof (rstrip_length (PyStr.lstrip t)) as H1.
    pose proof (lstrip_length t) as H2.
    rewrite Hs in H1. cbn [String.length] in H1. lia. }
  split; [exact Hl|]. now rewrite Hl in Hs.
Qed.

Lemma split_char_first (sep : ascii) (x y : string) :
  PyStr.contains (String sep "") x = false ->
  PyStr.split_char sep (x ++ String sep y) = x :: PyStr.split_char sep y.
Proof.
  induction x as [|c x IH]; intros Hx.
  - cbn [String.append PyStr.split_char]. now rewrite Ascii.eqb_refl.
  - rewrite contains_byte in Hx. apply orb_false_iff in Hx as [Hc Hx].
    cbn [String.append PyStr.split_char].
    rewrite Ascii.eqb_sym, Hc, (IH Hx). reflexivity.
Qed.

Lemma split_char_single (sep : ascii) (x : string) :
  PyStr.contains (String sep "") x = false ->
  PyStr.split_char sep x = [x].
Proof.
  induction x as [|c x IH]; intros Hx; [reflexivity|].
  rewrite contains_byte in Hx. apply orb_false_iff in Hx as [Hc Hx].
  cbn [PyStr.split_char]. now rewrite Ascii.eqb_sym, Hc, (IH Hx).
Qed.

(** X25. The hosted adapter takes the destination from the reply as it
    stands: for any address [a] (non-empty, without surrounding white space
    or line break) a reply that names [a] with confidence 0.9 makes the
    router forward the message to [a], whether or not [a] is one of the
    configured destinations. *)
Theorem hosted_destination_is_taken_as_is (rules : list Rule.t)
    (default_action a : string) (g : GeminiAnalyzer.t) (e : Email.t) :
  let d := Router.decide
             (Router.mk rules default_action (Some (Router.Gemini g))) e in
  Router.first_match rules (Email.to_dict e) = None ->
  Router.ai_actions default_action = true ->
  GeminiAnalyzer.destinations g <> [] ->
  a <> "" -> PyStr.strip a = a -> PyStr.contains PyStr.nl a = false ->
  GeminiAnalyzer.generate_content g (GeminiAnalyzer.prompt g (Email.to_dict e))
  = Ret ("FORWARD_TO: " ++ a ++ PyStr.nl ++ "CONFIDENCE: 0.9") ->
  RoutingDecision.should_forward d = true /\
  RoutingDecision.all_destinations d = [a].
Proof.
  cbv zeta. intros Hrules Hai Hdests Hne Hstrip Hnl Hreply.
  destruct (strip_fixed_lstrip a Hstrip) as [Hl Hr].
  assert (Hparse :
    GeminiAnalyzer._parse_response
      ("FORWARD_TO: " ++ a ++ PyStr.nl ++ "CONFIDENCE: 0.9")
    = AnalysisResult.mk a "unknown" 0.9%float "" [] "").
  { unfold GeminiAnalyzer._parse_response. cbv zeta.
    assert (Hwhole : PyStr.strip ("FORWARD_TO: " ++ a ++ PyStr.nl ++ "CONFIDENCE: 0.9")
                     = ("FORWARD_TO: " ++ a) ++ String (ascii_of_nat 10) "CONFIDENCE: 0.9").
    { unfold PyStr.strip.
      change (PyStr.lstrip ("FORWARD_TO: " ++ a ++ PyStr.nl ++ "CONFIDENCE: 0.9"))
        with ("FORWARD_TO: " ++ a ++ PyStr.nl ++ "CONFIDENCE: 0.9").
      rewrite <- !app_assoc_str.
      rewrite (rstrip_app_kept (("FORWARD_TO: " ++ a) ++ PyStr.nl)
                 "CONFIDENCE: 0.9") by (vm_compute; discriminate).
      change (PyStr.rstrip "CONFIDENCE: 0.9") with "CONFIDENCE: 0.9".
      now rewrite !app_assoc_str. }
    rewrite Hwhole.
    rewrite split_char_first.
    2:{ change ("FORWARD_TO: " ++ a)
          with (String "F" (String "O" (String "R" (String "W" (String "A"
                 (String "R" (String "D" (String "_" (String "T" (String "O"
                 (String ":" (String " " a)))))))))))).
        rewrite !contains_byte. exact Hnl. }
    rewrite split_char_single by (vm_compute; reflexivity).
    cbn [fold_left].
    assert (Hline : PyStr.strip ("FORWARD_TO: " ++ a) = "FORWARD_TO: " ++ a).
    { unfold PyStr.strip.
      change (PyStr.lstrip ("FORWARD_TO: " ++ a)) with ("FORWARD_TO: " ++ a).
      rewrite rstrip_app_kept by now rewrite Hr. now rewrite Hr. }
    assert (Hfirst :
      GeminiAnalyzer.read_line
        (GeminiAnalyzer.Build_fields "" "unknown" 0.5%float "")
        ("FORWARD_TO: " ++ a)
      = GeminiAnalyzer.Build_fields a "unknown" 0.5%float "").
    { unfold GeminiAnalyzer.read_line. cbv zeta. rewrite Hline.
      change (PyStr.startswith ("FORWARD_TO: " ++ a) "FORWARD_TO:")
        with (PyStr.startswith (" " ++ a) "").
      rewrite startswith_nil. unfold GeminiAnalyzer.value_of.
      change (PyStr.after_first ":" ("FORWARD_TO: " ++ a)) with (" " ++ a).
      unfold PyStr.strip.
      change (PyStr.lstrip (" " ++ a)) with (PyStr.lstrip a).
      now rewrite Hl, Hr. }
    rewrite Hfirst. vm_compute. reflexivity. }
  unfold Router.decide.
  cbn [Router.rules Router._analyzer Router.default_action].
  rewrite Hrules, Hai. cbn [Router.analyze].
  unfold GeminiAnalyzer.analyze.
  destruct (GeminiAnalyzer.destinations g) as [|d0 ds]; [congruence|].
  rewrite Hreply, Hparse. unfold RoutingDecision.all_destinations.
  cbn [RoutingDecision.should_forward RoutingDecision.forward_to
       RoutingDecision.additional_destinations AnalysisResult.forward_to
       AnalysisResult.confidence AnalysisResult.additional_destinations].
  destruct a as [|c t]; [congruence|]. split; reflexivity.
Qed.

End HostedAdapter.

Section FurtherExamples.

#[local] Existing Instance Scenario.runtime.

(** The sales enquiry in the GUI: flagged at confidence 0.75 and sent. *)
Lemma gui_table_after_pass_witness :
  map Gui.EmailStatus.status
    (Gui._process_emails (Scenario.router Scenario.sales_reply)
       Examples.servers_up false [] [Scenario.quote_mail]).1
  = ["Forwarded"].
Proof.
  rewrite (gui_table_after_pass (Scenario.router Scenario.sales_reply)
             Examples.servers_up [] [Scenario.quote_mail]).
  - vm_compute. reflexivity.
  - discriminate.
Defined.

Lemma hosted_reply_without_destination_witness :
  RoutingDecision.should_forward
    (Router.decide
       (Router.mk [] "analyze"
          (Some (Router.Gemini Examples.hosted_out_of_quota)))
       Scenario.quote_mail)
  = false.
Proof.
  apply (hosted_reply_without_destination [] "analyze"
           Examples.hosted_out_of_quota Scenario.quote_mail).
  - reflexivity.
  - right. left. now exists "quota exceeded".
Defined.

Lemma hosted_destination_is_taken_as_is_witness :
  RoutingDecision.all_destinations
    (Router.decide
       (Router.mk [] "analyze" (Some (Router.Gemini Examples.hosted_elsewhere)))
       Scenario.quote_mail)
  = ["desk@elsewhere.example"].
Proof.
  apply (hosted_destination_is_taken_as_is [] "analyze"
           "desk@elsewhere.example" Examples.hosted_elsewhere
           Scenario.quote_mail).
  - reflexivity.
  - reflexivity.
  - discriminate.
  - discriminate.
  - vm_compute. reflexivity.
  - vm_compute. reflexivity.
  - reflexivity.
Defined.

End FurtherExamples.
